(** * SpendWise: the expense server actions, embedded and verified

    The development follows [app/apis/expenses.ts]: the server actions
    [getCategories], [getExpenses], [getDashboardSummary], [createExpense],
    [deleteExpense], [clearAllExpenses] and [createDemoExpenses].

    - JavaScript numbers are IEEE-754 binary64 values, taken from the
      Standard Library's executable specification [SpecFloat].
    - The relational store reached through the Prisma client is a record of
      two tables and a log of the calls made on it; every server action is
      a computation in a state-and-exception monad over that record.
    - The identity provider is the [session] argument of each action.

    The callers of the actions follow: the route guard of [middleware.ts],
    the seed script [prisma/seed.js], the server components of the
    dashboard and of the expenses page, the arithmetic of the pagination
    controls of [expenses-client.tsx], and the windows of
    [lib/utils/date]. *)

From Stdlib Require Import ZArith List String Ascii Bool Lia Arith.
From Stdlib Require Import Sorted Permutation.
From Stdlib Require Import Floats.SpecFloat.
Import ListNotations.

Local Open Scope string_scope.
Local Open Scope list_scope.
Local Open Scope nat_scope.

(* ===================================================================== *)
(** ** JavaScript numbers *)
(* ===================================================================== *)

Module JsNumber.

(** A JS [number] is a binary64 float: 53 bits of precision, exponent of
    the infinities 1024. *)
Definition number : Type := spec_float.

Definition prec : Z := 53.
Definition emax : Z := 1024.

Definition zero : number := S754_zero false.

(** The number nearest to an integer (exact below 2^53). *)
Definition of_Z (z : Z) : number := binary_normalize prec emax z 0 false.

Definition add : number -> number -> number := SFadd prec emax.
Definition sub : number -> number -> number := SFsub prec emax.
Definition mul : number -> number -> number := SFmul prec emax.
Definition div : number -> number -> number := SFdiv prec emax.

(** [x <= y], [x < y] and [x > 0] of JS; every comparison with NaN is
    false. *)
Definition leb : number -> number -> bool := SFleb.
Definition ltb : number -> number -> bool := SFltb.
Definition positive (x : number) : bool := SFltb zero x.

(** A decimal literal of the source text, [m * 10^-s]: [literal 4550 2]
    is [45.50].  Division is correctly rounded, so this is the binary64
    value the literal denotes as long as [m] and [10^s] are below 2^53. *)
Definition literal (m : Z) (s : nat) : number :=
  div (of_Z m) (of_Z (10 ^ Z.of_nat s)).

End JsNumber.

Abbreviation number := JsNumber.number.

(* ===================================================================== *)
(** ** Data model *)
(* ===================================================================== *)

(** Timestamps ([Date] values) are milliseconds since the epoch. *)
Definition Date : Type := Z.

(** Modelled from the spec: the schema file is not part of the sources; the
    spec gives [Expense.amount] as a fixed-precision decimal at rest
    ([amount DECIMAL]).  A stored [Decimal] is its integer number of minor
    units at the column's scale. *)
Definition Decimal : Type := Z.

Module Category.

Record t : Type := mk { id : string; name : string }.

End Category.

Module Expense.

(** A row of the [Expense] table.  [createdAt] is filled in by the store
    and read by none of the server actions; it is left out. *)
Record t : Type := mk {
  id : string;
  userId : string;
  amount : Decimal;
  categoryId : string;
  date : Date;
  note : option string
}.

End Expense.

(** The identity the session resolves to. *)
Record User : Type := { user_id : string }.

(** The errors the actions throw.  [Unauthorized], [InvalidAmount] and
    [NotFoundOrUnauthorized] are the three [throw new Error(...)] of the
    source; [TypeError] is the runtime's exception on a property read of
    [undefined] or [null]; [StorageError] is any rejection by the store. *)
Inductive Error : Type :=
  | Unauthorized
  | InvalidAmount
  | NotFoundOrUnauthorized
  | TypeError
  | StorageError.

(** The messages of the three errors of the source. *)
Definition message (e : Error) : option string :=
  match e with
  | Unauthorized => Some "Unauthorized"
  | InvalidAmount => Some "Amount must be greater than 0"
  | NotFoundOrUnauthorized => Some "Expense not found or unauthorized"
  | TypeError | StorageError => None
  end.

Inductive Result (A : Type) : Type :=
  | Ok (a : A)
  | Err (e : Error).
Arguments Ok {A} a.
Arguments Err {A} e.

(* ===================================================================== *)
(** ** Stable sorting *)
(* ===================================================================== *)

(** Both the store's [ORDER BY] and [Array.prototype.sort] are modelled by a
    stable insertion sort.  [after x y = true] says that [x] has to come
    after [y]; elements that are not ordered by [after] keep the order they
    had in the input. *)

Section StableSort.

Context {A : Type}.
Variable after : A -> A -> bool.

Fixpoint insert (x : A) (l : list A) : list A :=
  match l with
  | [] => [x]
  | y :: r => if after x y then y :: insert x r else x :: y :: r
  end.

Fixpoint stable_sort (l : list A) : list A :=
  match l with
  | [] => []
  | x :: r => insert x (stable_sort r)
  end.

(** [x] may stand before [y]. *)
Definition precedes (x y : A) : Prop := after x y = false.

End StableSort.

(* ===================================================================== *)
(** ** The store behind the Prisma client *)
(* ===================================================================== *)

Inductive Direction : Type := asc | desc.
Inductive Field : Type := by_date | by_amount.

(** A [where] argument: [userId] equality, an optional inclusive date
    range [{gte, lte}], an optional [categoryId] equality. *)
Record Where : Type := {
  where_userId : string;
  where_date : option (Date * Date);
  where_categoryId : option string
}.

(** The [data] argument of [expense.create]; [None] as a date is JS's
    Invalid Date. *)
Record CreateData : Type := {
  data_userId : string;
  data_amount : Decimal;
  data_categoryId : string;
  data_date : option Date;
  data_note : option string
}.

Inductive PrismaCall : Type :=
  | category_findMany_call (orderBy : option Direction)
  | expense_count_call (whereArg : Where)
  | expense_findMany_call (whereArg : Where) (orderBy : option (Field * Direction))
                          (skip take : option Z)
  | expense_findUnique_call (id : string)
  | expense_create_call (data : CreateData)
  | expense_delete_call (id : string)
  | expense_deleteMany_call (whereArg : Where).

(** What an action does to the outside: calls on the store, and
    [revalidatePath]. *)
Inductive Effect : Type :=
  | prisma (c : PrismaCall)
  | revalidate (path : string).

Record World : Type := {
  categories : list Category.t;
  expenses : list Expense.t;
  log : list Effect
}.

(** State and exception monad: an exception keeps the effects made before
    it was thrown. *)
Definition M (A : Type) : Type := World -> Result A * World.

Definition ret {A} (a : A) : M A := fun w => (Ok a, w).
Definition throw {A} (e : Error) : M A := fun w => (Err e, w).
Definition bind {A B} (c : M A) (k : A -> M B) : M B :=
  fun w => match c w with
           | (Ok a, w') => k a w'
           | (Err e, w') => (Err e, w')
           end.

Declare Scope action_scope.
Delimit Scope action_scope with action.
Notation "x <- c ;; k" := (bind c (fun x => k))
  (at level 100, c at next level, right associativity) : action_scope.
Notation "c ;; k" := (bind c (fun _ => k))
  (at level 100, right associativity) : action_scope.
Local Open Scope action_scope.

Definition record (e : Effect) : M unit :=
  fun w => (Ok tt, {| categories := categories w; expenses := expenses w;
                      log := log w ++ [e] |}).

Definition set_expenses (l : list Expense.t) : M unit :=
  fun w => (Ok tt, {| categories := categories w; expenses := l; log := log w |}).

Definition get_world : M World := fun w => (Ok w, w).

(** The calls of the Prisma client that the actions make, with the
    behaviour the client documents: [where] filters, [orderBy] sorts and
    leaves ties in storage order, [skip] and [take] cut the ordered rows,
    [include] joins the category, [create] draws a fresh id, and every
    call is written to the log before it acts. *)
Module Prisma.

(** Does a row satisfy a [where]? *)
Definition matches (q : Where) (e : Expense.t) : bool :=
  String.eqb (Expense.userId e) (where_userId q)
  && match where_date q with
     | Some (gte, lte) => (gte <=? Expense.date e)%Z && (Expense.date e <=? lte)%Z
     | None => true
     end
  && match where_categoryId q with
     | Some c => String.eqb (Expense.categoryId e) c
     | None => true
     end.

Definition key (f : Field) (e : Expense.t) : Z :=
  match f with
  | by_date => Expense.date e
  | by_amount => Expense.amount e
  end.

(** The [after] relation of an [orderBy]: ties keep the storage order. *)
Definition row_after (o : Field * Direction) (x y : Expense.t) : bool :=
  match snd o with
  | asc => (key (fst o) y <? key (fst o) x)%Z
  | desc => (key (fst o) x <? key (fst o) y)%Z
  end.

(** [orderBy] with the one key the actions pass.  Among rows of equal
    key the database promises no order, and the order it picks may differ
    from one [skip]/[take] query to the next; here such rows stay in
    storage order in every query.  What is stated of a single answer does
    not rest on that choice; where the answers of different queries are
    set side by side, the rows are taken to differ in the key
    ([distinct_keys]), and then the order is the only one there is. *)
Definition ordered (o : option (Field * Direction)) (l : list Expense.t)
  : list Expense.t :=
  match o with
  | Some o => stable_sort (row_after o) l
  | None => l
  end.

(** [skip] and [take].  A negative [skip] is rejected by the client; a
    negative [take] counts from the end of the ordered rows. *)
Definition window (skip take : option Z) (l : list Expense.t)
  : option (list Expense.t) :=
  let s := match skip with Some s => s | None => 0%Z end in
  if (s <? 0)%Z then None
  else match take with
       | None => Some (skipn (Z.to_nat s) l)
       | Some t =>
           if (0 <=? t)%Z
           then Some (firstn (Z.to_nat t) (skipn (Z.to_nat s) l))
           else Some (rev (firstn (Z.to_nat (- t)) (skipn (Z.to_nat s) (rev l))))
       end.

(** The category a [categoryId] refers to. *)
Definition find_category (cid : string) (cs : list Category.t)
  : option Category.t :=
  find (fun c => String.eqb (Category.id c) cid) cs.

(** A row with its category joined in ([include: { category: true }]). *)
Record Joined : Type := {
  row : Expense.t;
  category : option Category.t
}.

Definition join (cs : list Category.t) (e : Expense.t) : Joined :=
  {| row := e; category := find_category (Expense.categoryId e) cs |}.

(** Ascending by name. *)
Definition name_after (x y : Category.t) : bool :=
  String.ltb (Category.name y) (Category.name x).

Definition category_findMany (orderBy : option Direction)
  : M (list Category.t) :=
  record (prisma (category_findMany_call orderBy)) ;;
  w <- get_world ;;
  ret match orderBy with
      | None => categories w
      | Some asc => stable_sort name_after (categories w)
      | Some desc => stable_sort (fun x y => name_after y x) (categories w)
      end.

Definition expense_count (q : Where) : M nat :=
  record (prisma (expense_count_call q)) ;;
  w <- get_world ;;
  ret (List.length (filter (matches q) (expenses w))).

Definition expense_findMany (q : Where) (orderBy : option (Field * Direction))
    (skip take : option Z) : M (list Joined) :=
  record (prisma (expense_findMany_call q orderBy skip take)) ;;
  w <- get_world ;;
  match window skip take (ordered orderBy (filter (matches q) (expenses w))) with
  | Some rows => ret (map (join (categories w)) rows)
  | None => throw StorageError
  end.

Definition expense_findUnique (i : string) : M (option Expense.t) :=
  record (prisma (expense_findUnique_call i)) ;;
  w <- get_world ;;
  ret (find (fun e => String.eqb (Expense.id e) i) (expenses w)).

(** The store draws an identifier that no row has yet ([@default(cuid())]
    in Prisma's terms); here, one longer than every identifier in use. *)
Definition new_id (used : list string) : string :=
  String "e"%char (String.concat "" used).

(** Modelled from the spec: the schema is not part of the sources; the
    spec requires that [categoryId] references an existing Category
    (storage-enforced).  An Invalid Date is refused as well. *)
Definition expense_create (d : CreateData) : M Expense.t :=
  record (prisma (expense_create_call d)) ;;
  w <- get_world ;;
  match data_date d, find_category (data_categoryId d) (categories w) with
  | Some t, Some _ =>
      let e := Expense.mk (new_id (map Expense.id (expenses w)))
                 (data_userId d) (data_amount d) (data_categoryId d) t
                 (data_note d) in
      set_expenses (expenses w ++ [e]) ;;
      ret e
  | _, _ => throw StorageError
  end.

(** [delete] removes the row of that id and rejects an id that no row
    has. *)
Definition expense_delete (i : string) : M unit :=
  record (prisma (expense_delete_call i)) ;;
  w <- get_world ;;
  if existsb (fun e => String.eqb (Expense.id e) i) (expenses w)
  then set_expenses
         (filter (fun e => negb (String.eqb (Expense.id e) i)) (expenses w))
  else throw StorageError.

(** [deleteMany] removes the matching rows and returns their number. *)
Definition expense_deleteMany (q : Where) : M nat :=
  record (prisma (expense_deleteMany_call q)) ;;
  w <- get_world ;;
  set_expenses (filter (fun e => negb (matches q e)) (expenses w)) ;;
  ret (List.length (filter (matches q) (expenses w))).

End Prisma.

(* ===================================================================== *)
(** ** Plain JavaScript objects used as dictionaries *)
(* ===================================================================== *)

Module JsObject.

(** The own properties of an object literal, in creation order. *)
Definition t (V : Type) : Type := list (string * V).

(** The property names every object literal inherits from
    [Object.prototype]; each of them reads as a truthy value. *)
Definition prototype_keys : list string :=
  [ "constructor"; "__proto__"; "hasOwnProperty"; "isPrototypeOf";
    "propertyIsEnumerable"; "toLocaleString"; "toString"; "valueOf";
    "__defineGetter__"; "__defineSetter__"; "__lookupGetter__";
    "__lookupSetter__" ].

Definition inherited (k : string) : bool :=
  existsb (String.eqb k) prototype_keys.

Definition own {V} (k : string) (o : t V) : option V :=
  option_map snd (find (fun p => String.eqb (fst p) k) o).

(** Truthiness of [o[k]] when the own values are objects. *)
Definition truthy {V} (k : string) (o : t V) : bool :=
  match own k o with
  | Some _ => true
  | None => inherited k
  end.

(** [o[k] = v]: an own property keeps its place, a new one goes last. *)
Definition set {V} (k : string) (v : V) (o : t V) : t V :=
  match own k o with
  | Some _ => map (fun p => if String.eqb (fst p) k then (k, v) else p) o
  | None => o ++ [(k, v)]
  end.

(** In-place update of the object stored at [o[k]].  When [k] is not an
    own property, the object reached is one that [o] inherits and [o]
    itself does not change: the write lands outside [o].  For
    "constructor" or "toString" it lands on a built-in function, which no
    other code looks at.  For "__proto__" it lands on [Object.prototype] itself, so
    every object of the process then inherits the properties written;
    what other code makes of them is not followed here, and what is
    stated of calls that come after such a write takes the category names
    to be plain ([plain_names]). *)
Definition update {V} (k : string) (f : V -> V) (o : t V) : t V :=
  map (fun p => if String.eqb (fst p) k then (fst p, f (snd p)) else p) o.

(** Array indices: canonical decimal strings below 2^32 - 1. *)
Definition digit (c : ascii) : option N :=
  let n := N_of_ascii c in
  if ((48 <=? n) && (n <=? 57))%N then Some (n - 48)%N else None.

Fixpoint digits (s : string) (acc : N) : option N :=
  match s with
  | EmptyString => Some acc
  | String c r =>
      match digit c with
      | Some d => digits r (10 * acc + d)%N
      | None => None
      end
  end.

Definition array_index (s : string) : option N :=
  match s with
  | EmptyString => None
  | String c r =>
      if Ascii.eqb c "0"%char
      then match r with EmptyString => Some 0%N | _ => None end
      else match digits s 0%N with
           | Some n => if (n <=? 4294967294)%N then Some n else None
           | None => None
           end
  end.

Definition is_index {V} (p : string * V) : bool :=
  match array_index (fst p) with Some _ => true | None => false end.

Definition index_after {V} (x y : string * V) : bool :=
  match array_index (fst x), array_index (fst y) with
  | Some i, Some j => (j <? i)%N
  | _, _ => false
  end.

(** [Object.values]: array indices in ascending order first, then the
    other keys in creation order. *)
Definition values {V} (o : t V) : list V :=
  map snd (stable_sort index_after (filter is_index o)
           ++ filter (fun p => negb (is_index p)) o).

End JsObject.

(* ===================================================================== *)
(** ** What the actions return *)
(* ===================================================================== *)

Module ExpenseView.

(** [{ ...expense, amount: expense.amount.toNumber() }] of a joined row. *)
Record t : Type := mk {
  id : string;
  userId : string;
  amount : number;
  categoryId : string;
  date : Date;
  note : option string;
  category : option Category.t
}.

End ExpenseView.

Module Pagination.

(** [totalPages] is [None] when [Math.ceil(total / pageSize)] is not
    finite, that is when [pageSize] is 0. *)
Record t : Type := mk {
  page : Z;
  pageSize : Z;
  total : Z;
  totalPages : option Z
}.

End Pagination.

Module ExpensesPage.

Record t : Type := mk {
  data : list ExpenseView.t;
  pagination : Pagination.t
}.

End ExpensesPage.

Module Group.

Record t : Type := mk { name : string; total : number; count : nat }.

End Group.

Module Summary.

Record t : Type := mk {
  total : number;
  count : nat;
  byCategory : list Group.t
}.

End Summary.

Module CreateInput.

Record t : Type := mk {
  amount : number;
  categoryId : string;
  date : string;
  note : option string
}.

End CreateInput.

Inductive SortBy : Type := date_desc | date_asc | amount_desc | amount_asc.

(** [Math.ceil(a / b)] on integers.  Below 2^53 the binary64 quotient
    rounds to an integer only when the exact quotient is one, so the
    result is the integer ceiling; it is not finite for [b = 0]. *)
Definition Math_ceil_div (a b : Z) : option Z :=
  if (b =? 0)%Z then None else Some (- ((- a) / b))%Z.

(* ===================================================================== *)
(** ** The demo catalog *)
(* ===================================================================== *)

Module Demo.

(** One literal of the [demoExpenses] array: the amount, the index of
    the category it reads, the number of days subtracted from the clock
    reading, and the note. *)
Record Tuple : Type := mk {
  amount : number;
  categoryIndex : nat;
  dayOffset : Z;
  note : string
}.

Definition lit (cents : Z) : number := JsNumber.literal cents 2.

(** The entries that are always part of the array. *)
Definition catalog : list Tuple :=
  [ (* Food & Dining *)
    mk (lit 4550) 0 0 "Lunch at Italian restaurant";
    mk (lit 8530) 0 3 "Grocery shopping at Whole Foods";
    mk (lit 1275) 0 5 "Morning coffee and pastry";
    mk (lit 6720) 0 8 "Dinner with friends";
    mk (lit 2890) 0 12 "Takeout pizza";
    (* Transportation *)
    mk (lit 1299) 1 1 "Subway monthly pass";
    mk (lit 5500) 1 6 "Gas station fill-up";
    mk (lit 850) 1 14 "Uber ride home";
    mk (lit 12500) 1 20 "Car maintenance and oil change";
    (* Shopping *)
    mk (lit 8900) 2 2 "New running shoes";
    mk (lit 15645) 2 9 "Winter jacket";
    mk (lit 3499) 2 16 "Phone case and accessories";
    mk (lit 4200) 2 22 "Books from bookstore";
    (* Entertainment *)
    mk (lit 1500) 3 4 "Movie tickets for two";
    mk (lit 4500) 3 11 "Concert tickets";
    mk (lit 1999) 3 18 "Netflix subscription";
    mk (lit 3250) 3 24 "Bowling night";
    (* Bills & Utilities *)
    mk (lit 12000) 4 7 "Monthly electric bill";
    mk (lit 6500) 4 7 "Internet bill";
    mk (lit 8999) 4 15 "Phone bill";
    (* Healthcare *)
    mk (lit 20000) 5 10 "Doctor checkup copay";
    mk (lit 3550) 5 17 "Pharmacy prescription";
    mk (lit 7500) 5 25 "Dental cleaning" ].

(** The three conditional spreads. *)
Definition travel : list Tuple :=
  [ mk (lit 45000) 6 13 "Weekend hotel stay";
    mk (lit 18000) 6 19 "Flight tickets" ].

Definition education : list Tuple :=
  [ mk (lit 29900) 7 21 "Online course subscription";
    mk (lit 4850) 7 27 "Study materials" ].

Definition other : list Tuple :=
  [ mk (lit 2500) 8 23 "Gift for friend";
    mk (lit 1599) 8 28 "Miscellaneous supplies" ].

(** [...(categories[i] ? l : [])] *)
Definition spread (categories : list Category.t) (i : nat) (l : list Tuple)
  : list Tuple :=
  match nth_error categories i with
  | Some _ => l
  | None => []
  end.

Definition tuples (categories : list Category.t) : list Tuple :=
  catalog ++ spread categories 6 travel ++ spread categories 7 education
          ++ spread categories 8 other.

(** An element of the array once evaluated. *)
Record Entry : Type := entry {
  entry_amount : number;
  entry_categoryId : string;
  entry_date : Date;
  entry_note : string
}.

Definition day : Z := 86400000.

(** Evaluation of the literals from left to right.  The [k]-th one reads
    [categories[i].id], which is a [TypeError] ([None]) when
    [categories[i]] is [undefined], and takes the [k]-th reading of the
    clock. *)
Fixpoint eval (clock : nat -> Date) (categories : list Category.t)
    (k : nat) (l : list Tuple) : option (list Entry) :=
  match l with
  | [] => Some []
  | t :: r =>
      match nth_error categories (categoryIndex t) with
      | None => None
      | Some c =>
          match eval clock categories (S k) r with
          | None => None
          | Some es =>
              Some (entry (amount t) (Category.id c)
                      (clock k - day * dayOffset t)%Z (note t) :: es)
          end
      end
  end.

Definition demoExpenses (clock : nat -> Date) (categories : list Category.t)
  : option (list Entry) :=
  eval clock categories 0 (tuples categories).

End Demo.

(* ===================================================================== *)
(** ** The server actions *)
(* ===================================================================== *)

Section Actions.

(** The identity the ambient session resolves to
    ([supabase.auth.getUser()]). *)
Variable session : option User.

(** Scale of the [amount] column. *)
Variable scale : nat.

(** [new Decimal(x)] as the column stores it. *)
Variable newDecimal : number -> Decimal.

(** [new Date(s)] for a string; [None] is Invalid Date. *)
Variable parseDate : string -> option Date.

(** [Decimal.toNumber()]: the binary64 value nearest to [d / 10^scale]
    (one correctly rounded division, exact operands below 2^53). *)
Definition toNumber (d : Decimal) : number :=
  JsNumber.div (JsNumber.of_Z d) (JsNumber.of_Z (10 ^ Z.of_nat scale)).

Definition getUser : M (option User) := ret session.

Definition revalidatePath (path : string) : M unit :=
  record (revalidate path).

Definition getCategories : M (list Category.t) :=
  categories <- Prisma.category_findMany (Some asc) ;;
  ret categories.

Definition view (j : Prisma.Joined) : ExpenseView.t :=
  let expense := Prisma.row j in
  ExpenseView.mk (Expense.id expense) (Expense.userId expense)
    (toNumber (Expense.amount expense)) (Expense.categoryId expense)
    (Expense.date expense) (Expense.note expense) (Prisma.category j).

Definition getExpenses (startDate endDate : Date)
    (categoryId : option string) (sortBy : option SortBy)
    (page pageSize : option Z) : M ExpensesPage.t :=
  let sortBy := match sortBy with Some s => s | None => date_desc end in
  let page := match page with Some p => p | None => 1%Z end in
  let pageSize := match pageSize with Some p => p | None => 10%Z end in
  user <- getUser ;;
  match user with
  | None => throw Unauthorized
  | Some user =>
      let orderBy :=
        match sortBy with
        | date_desc => (by_date, desc)
        | date_asc => (by_date, asc)
        | amount_desc => (by_amount, desc)
        | amount_asc => (by_amount, asc)
        end in
      let whereArg :=
        {| where_userId := user_id user;
           where_date := Some (startDate, endDate);
           where_categoryId :=
             match categoryId with
             | Some c =>
                 if negb (String.eqb c "") && negb (String.eqb c "all")
                 then Some c else None
             | None => None
             end |} in
      total <- Prisma.expense_count whereArg ;;
      expenses <- Prisma.expense_findMany whereArg (Some orderBy)
                    (Some ((page - 1) * pageSize)%Z) (Some pageSize) ;;
      ret (ExpensesPage.mk (map view expenses)
             (Pagination.mk page pageSize (Z.of_nat total)
                (Math_ceil_div (Z.of_nat total) pageSize)))
  end.

(** One step of the [byCategory] reduction.  [None] is the [TypeError]
    of reading [name] on a missing category. *)
Definition byCategory_step (acc : JsObject.t Group.t) (exp : Prisma.Joined)
  : option (JsObject.t Group.t) :=
  match Prisma.category exp with
  | None => None
  | Some c =>
      let categoryName := Category.name c in
      let acc :=
        if negb (JsObject.truthy categoryName acc)
        then JsObject.set categoryName
               (Group.mk categoryName JsNumber.zero 0) acc
        else acc in
      let acc :=
        JsObject.update categoryName
          (fun g => Group.mk (Group.name g)
                      (JsNumber.add (Group.total g)
                         (toNumber (Expense.amount (Prisma.row exp))))
                      (Group.count g))
          acc in
      let acc :=
        JsObject.update categoryName
          (fun g => Group.mk (Group.name g) (Group.total g) (Group.count g + 1))
          acc in
      Some acc
  end.

Fixpoint reduce_byCategory (l : list Prisma.Joined) (acc : JsObject.t Group.t)
  : option (JsObject.t Group.t) :=
  match l with
  | [] => Some acc
  | exp :: r =>
      match byCategory_step acc exp with
      | Some acc' => reduce_byCategory r acc'
      | None => None
      end
  end.

(** The comparator [(a, b) => b.total - a.total]: [a] goes after [b]
    when the difference is positive. *)
Definition group_after (a b : Group.t) : bool :=
  JsNumber.positive (JsNumber.sub (Group.total b) (Group.total a)).

Definition getDashboardSummary (startDate endDate : Date) : M Summary.t :=
  user <- getUser ;;
  match user with
  | None => throw Unauthorized
  | Some user =>
      expenses <- Prisma.expense_findMany
                    {| where_userId := user_id user;
                       where_date := Some (startDate, endDate);
                       where_categoryId := None |}
                    None None None ;;
      let total :=
        fold_left (fun sum exp =>
                     JsNumber.add sum (toNumber (Expense.amount (Prisma.row exp))))
                  expenses JsNumber.zero in
      let count := List.length expenses in
      match reduce_byCategory expenses [] with
      | None => throw TypeError
      | Some byCategory =>
          ret (Summary.mk total count
                 (stable_sort group_after (JsObject.values byCategory)))
      end
  end.

Definition createExpense (data : CreateInput.t) : M unit :=
  user <- getUser ;;
  match user with
  | None => throw Unauthorized
  | Some user =>
      if JsNumber.leb (CreateInput.amount data) JsNumber.zero
      then throw InvalidAmount
      else
        expense <- Prisma.expense_create
                     {| data_userId := user_id user;
                        data_amount := newDecimal (CreateInput.amount data);
                        data_categoryId := CreateInput.categoryId data;
                        data_date := parseDate (CreateInput.date data);
                        data_note :=
                          match CreateInput.note data with
                          | Some s => if String.eqb s "" then None else Some s
                          | None => None
                          end |} ;;
        revalidatePath "/" ;;
        revalidatePath "/expenses"
  end.

Definition deleteExpense (id : string) : M unit :=
  user <- getUser ;;
  match user with
  | None => throw Unauthorized
  | Some user =>
      expense <- Prisma.expense_findUnique id ;;
      match expense with
      | None => throw NotFoundOrUnauthorized
      | Some expense =>
          if negb (String.eqb (Expense.userId expense) (user_id user))
          then throw NotFoundOrUnauthorized
          else
            Prisma.expense_delete id ;;
            revalidatePath "/" ;;
            revalidatePath "/expenses"
      end
  end.

Definition clearAllExpenses : M nat :=
  user <- getUser ;;
  match user with
  | None => throw Unauthorized
  | Some user =>
      count <- Prisma.expense_deleteMany
                 {| where_userId := user_id user;
                    where_date := None;
                    where_categoryId := None |} ;;
      revalidatePath "/" ;;
      revalidatePath "/expenses" ;;
      ret count
  end.

Fixpoint for_each {A} (l : list A) (body : A -> M unit) : M unit :=
  match l with
  | [] => ret tt
  | x :: r => body x ;; for_each r body
  end.

(** [clock k] is the [k]-th reading of the clock during the call. *)
Definition createDemoExpenses (clock : nat -> Date) : M unit :=
  user <- getUser ;;
  match user with
  | None => throw Unauthorized
  | Some user =>
      categories <- Prisma.category_findMany None ;;
      match Demo.demoExpenses clock categories with
      | None => throw TypeError
      | Some demoExpenses =>
          for_each demoExpenses
            (fun expense =>
               Prisma.expense_create
                 {| data_userId := user_id user;
                    data_amount := newDecimal (Demo.entry_amount expense);
                    data_categoryId := Demo.entry_categoryId expense;
                    data_date := Some (Demo.entry_date expense);
                    data_note := Some (Demo.entry_note expense) |} ;;
               ret tt) ;;
          revalidatePath "/" ;;
          revalidatePath "/expenses"
      end
  end.

End Actions.

(* ===================================================================== *)
(** ** The exported actions as one entry point *)
(* ===================================================================== *)

Inductive Request : Type :=
  | get_categories
  | get_expenses (startDate endDate : Date) (categoryId : option string)
                 (sortBy : option SortBy) (page pageSize : option Z)
  | get_dashboard_summary (startDate endDate : Date)
  | create_expense (data : CreateInput.t)
  | delete_expense (id : string)
  | clear_all_expenses
  | create_demo_expenses (clock : nat -> Date).

Inductive Response : Type :=
  | categories_response (l : list Category.t)
  | expenses_response (p : ExpensesPage.t)
  | summary_response (s : Summary.t)
  | void_response
  | count_response (n : nat).

Definition handle (session : option User) (scale : nat)
    (newDecimal : number -> Decimal) (parseDate : string -> option Date)
    (r : Request) : M Response :=
  match r with
  | get_categories =>
      l <- getCategories ;; ret (categories_response l)
  | get_expenses s e c o p ps =>
      x <- getExpenses session scale s e c o p ps ;; ret (expenses_response x)
  | get_dashboard_summary s e =>
      x <- getDashboardSummary session scale s e ;; ret (summary_response x)
  | create_expense d =>
      createExpense session newDecimal parseDate d ;; ret void_response
  | delete_expense i =>
      deleteExpense session i ;; ret void_response
  | clear_all_expenses =>
      n <- clearAllExpenses session ;; ret (count_response n)
  | create_demo_expenses clock =>
      createDemoExpenses session newDecimal clock ;; ret void_response
  end.

(** The world after one more effect. *)
Definition logged (w : World) (l : list Effect) : World :=
  {| categories := categories w; expenses := expenses w; log := log w ++ l |}.

(* ===================================================================== *)
(** ** Vocabulary of the statements *)
(* ===================================================================== *)

(** *** Ownership and clearing *)

Definition owned_by (u : string) (e : Expense.t) : bool :=
  String.eqb (Expense.userId e) u.

(** The number of expenses of [u]. *)
Definition owned_count (u : string) (w : World) : nat :=
  List.length (filter (owned_by u) (expenses w)).

(** The [where] of [clearAllExpenses]. *)
Definition user_only (u : string) : Where :=
  {| where_userId := u; where_date := None; where_categoryId := None |}.

(** The world [clearAllExpenses] leaves behind. *)
Definition cleared (u : string) (w : World) : World :=
  {| categories := categories w;
     expenses := filter (fun e => negb (owned_by u e)) (expenses w);
     log := log w ++ [ prisma (expense_deleteMany_call (user_only u));
                       revalidate "/"; revalidate "/expenses" ] |}.

(** *** Listing *)

(** The category a listing is restricted to: a [categoryId] counts as given
    when it is a non-empty string, and the sentinel "all" lifts the
    restriction. *)
Definition category_filter (categoryId : option string) : option string :=
  match categoryId with
  | Some c => if String.eqb c "" || String.eqb c "all" then None else Some c
  | None => None
  end.

(** The rows a listing is about: the caller's, dated within the window,
    both ends included, and of the category asked for, if any. *)
Definition in_scope (u : string) (startDate endDate : Date)
    (categoryId : option string) (x : Expense.t) : Prop :=
  Expense.userId x = u
  /\ (startDate <= Expense.date x <= endDate)%Z
  /\ (forall c, category_filter categoryId = Some c -> Expense.categoryId x = c).

(** The order a [sortBy] asks for. *)
Definition in_order (sortBy : SortBy) (x y : Expense.t) : Prop :=
  match sortBy with
  | date_desc => (Expense.date y <= Expense.date x)%Z
  | date_asc => (Expense.date x <= Expense.date y)%Z
  | amount_desc => (Expense.amount y <= Expense.amount x)%Z
  | amount_asc => (Expense.amount x <= Expense.amount y)%Z
  end.

Definition orderBy_of (sortBy : SortBy) : Field * Direction :=
  match sortBy with
  | date_desc => (by_date, desc)
  | date_asc => (by_date, asc)
  | amount_desc => (by_amount, desc)
  | amount_asc => (by_amount, asc)
  end.

(** The [where] of a listing. *)
Definition where_of (u : string) (startDate endDate : Date)
    (categoryId : option string) : Where :=
  {| where_userId := u;
     where_date := Some (startDate, endDate);
     where_categoryId := category_filter categoryId |}.

(** The two calls a listing makes on the store. *)
Definition listing_calls (q : Where) (sortBy : SortBy) (page pageSize : Z)
  : list Effect :=
  [ prisma (expense_count_call q);
    prisma (expense_findMany_call q (Some (orderBy_of sortBy))
              (Some ((page - 1) * pageSize)%Z) (Some pageSize)) ].

(** The rows of page [page]: [pageSize] rows after skipping
    [(page - 1) * pageSize] of the ordered matching rows. *)
Definition page_rows (sortBy : SortBy) (page pageSize : Z)
    (matching : list Expense.t) : list Expense.t :=
  firstn (Z.to_nat pageSize)
    (skipn (Z.to_nat ((page - 1) * pageSize))
       (stable_sort (Prisma.row_after (orderBy_of sortBy)) matching)).

(** *** Creation *)

(** The [note] the row gets: [data.note || null]. *)
Definition note_or_null (note : option string) : option string :=
  match note with
  | Some s => if String.eqb s "" then None else Some s
  | None => None
  end.

(** The [data] argument [createExpense] passes to the store. *)
Definition create_data (user : User) (newDecimal : number -> Decimal)
    (parseDate : string -> option Date) (data : CreateInput.t) : CreateData :=
  {| data_userId := user_id user;
     data_amount := newDecimal (CreateInput.amount data);
     data_categoryId := CreateInput.categoryId data;
     data_date := parseDate (CreateInput.date data);
     data_note := note_or_null (CreateInput.note data) |}.

(** The row the store makes of it. *)
Definition created (w : World) (d : CreateData) (t : Date) : Expense.t :=
  Expense.mk (Prisma.new_id (map Expense.id (expenses w)))
    (data_userId d) (data_amount d) (data_categoryId d) t (data_note d).

(** *** Demo seeding *)

(** The number of entries of the demo array for [m] categories. *)
Definition demo_count (m : nat) : nat :=
  23 + (if 7 <=? m then 2 else 0) + (if 8 <=? m then 2 else 0)
     + (if 9 <=? m then 2 else 0).

(** What [Demo.eval] yields when every index it reads is in range. *)
Fixpoint expected (clock : nat -> Date) (categories : list Category.t)
    (k : nat) (l : list Demo.Tuple) : list Demo.Entry :=
  match l with
  | [] => []
  | t :: r =>
      Demo.entry (Demo.amount t)
        (match nth_error categories (Demo.categoryIndex t) with
         | Some c => Category.id c
         | None => ""
         end)
        (clock k - Demo.day * Demo.dayOffset t)%Z (Demo.note t)
      :: expected clock categories (S k) r
  end.

(** The [data] argument of the [create] for one entry of the demo array. *)
Definition demo_data (user : User) (newDecimal : number -> Decimal)
    (en : Demo.Entry) : CreateData :=
  {| data_userId := user_id user;
     data_amount := newDecimal (Demo.entry_amount en);
     data_categoryId := Demo.entry_categoryId en;
     data_date := Some (Demo.entry_date en);
     data_note := Some (Demo.entry_note en) |}.

(** The rows the loop appends, given the ids in use when it starts. *)
Fixpoint demo_rows (user : User) (newDecimal : number -> Decimal)
    (ids : list string) (entries : list Demo.Entry) : list Expense.t :=
  match entries with
  | [] => []
  | en :: r =>
      Expense.mk (Prisma.new_id ids) (user_id user)
        (newDecimal (Demo.entry_amount en)) (Demo.entry_categoryId en)
        (Demo.entry_date en) (Some (Demo.entry_note en))
      :: demo_rows user newDecimal (ids ++ [Prisma.new_id ids]) r
  end.

(** The world one call of [createDemoExpenses] leaves behind. *)
Definition seeded_world (user : User) (newDecimal : number -> Decimal)
    (clock : nat -> Date) (w : World) : World :=
  let entries := expected clock (categories w) 0 (Demo.tuples (categories w)) in
  {| categories := categories w;
     expenses := expenses w
                 ++ demo_rows user newDecimal (map Expense.id (expenses w)) entries;
     log := log w
            ++ [prisma (category_findMany_call None)]
            ++ map (fun en => prisma (expense_create_call
                                        (demo_data user newDecimal en))) entries
            ++ [revalidate "/"; revalidate "/expenses"] |}.

(** *** Summarizing *)

(** The [where] of a summary. *)
Definition window_of (u : string) (startDate endDate : Date) : Where :=
  {| where_userId := u;
     where_date := Some (startDate, endDate);
     where_categoryId := None |}.

(** The rows a summary is computed from: the caller's expenses dated in
    the window, with their category joined in, in storage order. *)
Definition fetched (u : string) (startDate endDate : Date) (w : World)
  : list Prisma.Joined :=
  map (Prisma.join (categories w))
      (filter (Prisma.matches (window_of u startDate endDate)) (expenses w)).

(** The display name of a row's category. *)
Definition name_of (j : Prisma.Joined) : option string :=
  option_map Category.name (Prisma.category j).

(** The rows whose category has display name [n]. *)
Definition in_group (n : string) (j : Prisma.Joined) : bool :=
  match name_of j with
  | Some m => String.eqb m n
  | None => false
  end.

Definition group_of (n : string) (l : list Prisma.Joined) : list Prisma.Joined :=
  filter (in_group n) l.

Definition amount_of (scale : nat) (j : Prisma.Joined) : number :=
  toNumber scale (Expense.amount (Prisma.row j)).

(** The sum of the amounts of [l] as JS computes it: from 0, one
    addition per row, from left to right. *)
Definition sum_amounts (scale : nat) (l : list Prisma.Joined) : number :=
  fold_left (fun sum j => JsNumber.add sum (amount_of scale j)) l JsNumber.zero.

(** What the accumulator holds once the rows [seen] are reduced: one own
    key per display name seen that objects do not inherit, with the
    running sum and the number of the rows of that name. *)
Record grouped (scale : nat) (seen : list Prisma.Joined)
    (acc : JsObject.t Group.t) : Prop := {
  grouped_keys : NoDup (map fst acc);
  grouped_plain :
    forall k, In k (map fst acc) -> JsObject.inherited k = false;
  grouped_entry :
    forall k g, In (k, g) acc ->
      Group.name g = k
      /\ Group.total g = sum_amounts scale (group_of k seen)
      /\ Group.count g = List.length (group_of k seen)
      /\ group_of k seen <> [];
  grouped_all :
    forall j n, In j seen -> name_of j = Some n ->
                JsObject.inherited n = false -> In n (map fst acc)
}.

(** Descending by total, as the comparator [(a, b) => b.total - a.total]
    orders: [a] may stand before [b] unless [b.total - a.total > 0]. *)
Definition descending (a b : Group.t) : Prop :=
  JsNumber.positive (JsNumber.sub (Group.total b) (Group.total a)) = false.

(** The exact sum of the amounts, in minor units. *)
Definition exact_sum (l : list Prisma.Joined) : Decimal :=
  fold_left (fun sum j => (sum + Expense.amount (Prisma.row j))%Z) l 0%Z.

(** The total as the spec words it: summed in decimal arithmetic (integer
    minor units) and converted to a number once. *)
Definition decimal_total (scale : nat) (l : list Prisma.Joined) : number :=
  toNumber scale (exact_sum l).

(** *** Invariants of the store *)

(** Every expense has its category (the foreign key of the schema). *)
Definition referential_integrity (w : World) : Prop :=
  forall x, In x (expenses w) ->
    exists c, Prisma.find_category (Expense.categoryId x) (categories w) = Some c.

(** No category is named like a property that objects inherit. *)
Definition plain_names (w : World) : Prop :=
  forall c, In c (categories w) -> JsObject.inherited (Category.name c) = false.

(** A computation keeps the category table as it is, and the foreign key
    with it. *)
Definition keeps_invariants {A} (c : M A) : Prop :=
  forall w,
    categories (snd (c w)) = categories w
    /\ (referential_integrity w -> referential_integrity (snd (c w))).

(* ===================================================================== *)
(** ** Sample data *)
(* ===================================================================== *)

Module Sample.

(** The categories of [prisma/seed.js], in seeding order. *)
Definition seeded : list Category.t :=
  [ Category.mk "c1" "Food & Dining"; Category.mk "c2" "Transportation";
    Category.mk "c3" "Shopping"; Category.mk "c4" "Entertainment";
    Category.mk "c5" "Bills & Utilities"; Category.mk "c6" "Healthcare";
    Category.mk "c7" "Travel"; Category.mk "c8" "Education";
    Category.mk "c9" "Other" ].

Definition alice : User := {| user_id := "alice" |}.

(** Amounts are in cents: the column has scale 2.  A number is stored
    as the integer nearest to a hundred times its value (0 when it is not
    finite). *)
Definition scale : nat := 2.

Definition newDecimal (x : number) : Decimal :=
  match JsNumber.mul x (JsNumber.of_Z 100) with
  | S754_finite s m e =>
      let q := (Z.shiftl (2 * Z.pos m + Z.shiftl 1 (- e)) e / 2)%Z in
      if s then (- q)%Z else q
  | _ => 0%Z
  end.

(** The one date string the samples use, at midnight UTC. *)
Definition parseDate (s : string) : option Date :=
  if String.eqb s "2026-02-05" then Some 1770249600000%Z else None.

Definition feb5 : Date := 1770249600000%Z.
Definition jan1 : Date := 1767225600000%Z.

Definition e1 : Expense.t :=
  Expense.mk "e1" "alice" 10000%Z "c1" (feb5 - 3 * Demo.day)%Z (Some "Test 1").
Definition e2 : Expense.t :=
  Expense.mk "e2" "bob" 20000%Z "c2" (feb5 - 2 * Demo.day)%Z None.
Definition e3 : Expense.t :=
  Expense.mk "e3" "alice" 15000%Z "c2" (feb5 - Demo.day)%Z None.

(** Two expenses of alice and one of bob. *)
Definition world : World :=
  {| categories := seeded; expenses := [e1; e2; e3]; log := [] |}.

Definition empty : World :=
  {| categories := seeded; expenses := []; log := [] |}.

(** Twenty-five expenses of alice in January 2026, one a day, and one of
    bob. *)
Definition daily (k : nat) : Expense.t :=
  Expense.mk (String (ascii_of_nat (65 + k)) "") "alice"
    (100 * Z.of_nat (k + 1))%Z "c1" (jan1 + Z.of_nat k * Demo.day)%Z None.

Definition busy : World :=
  {| categories := seeded; expenses := e2 :: map daily (seq 0 25); log := [] |}.

(** The input of the test of [createExpense]. *)
Definition input : CreateInput.t :=
  CreateInput.mk (JsNumber.of_Z 100) "c1" "2026-02-05" (Some "Test expense").

End Sample.

Module TestData.

(** The rows of the test of [getDashboardSummary]: 100 and 200 in "Food",
    150 in "Transport" (amounts in cents). *)
Definition user : User := {| user_id := "test-user-id" |}.

Definition world : World :=
  {| categories := [ Category.mk "cat-1" "Food"; Category.mk "cat-2" "Transport" ];
     expenses :=
       [ Expense.mk "1" "test-user-id" 10000%Z "cat-1" Sample.jan1 None;
         Expense.mk "2" "test-user-id" 20000%Z "cat-1" Sample.jan1 None;
         Expense.mk "3" "test-user-id" 15000%Z "cat-2" Sample.jan1 None ];
     log := [] |}.

(** Two categories of one display name, with an expense each. *)
Definition twins : World :=
  {| categories := [ Category.mk "cat-1" "Food"; Category.mk "cat-2" "Food" ];
     expenses :=
       [ Expense.mk "1" "test-user-id" 10000%Z "cat-1" Sample.jan1 None;
         Expense.mk "2" "test-user-id" 20000%Z "cat-2" Sample.jan1 None ];
     log := [] |}.

End TestData.

Module Drift.

(** Two expenses of alice in one category: 0.10 and 0.20. *)
Definition world : World :=
  {| categories := Sample.seeded;
     expenses :=
       [ Expense.mk "d1" "alice" 10%Z "c1" Sample.jan1 None;
         Expense.mk "d2" "alice" 20%Z "c1" Sample.jan1 None ];
     log := [] |}.

Definition rows : list Prisma.Joined :=
  fetched "alice" Sample.jan1 Sample.feb5 world.

(** 0.30000000000000004 and 0.3 *)
Definition above_three_tenths : number :=
  S754_finite false 5404319552844596 (-54).
Definition three_tenths : number :=
  S754_finite false 5404319552844595 (-54).

End Drift.

(* ===================================================================== *)
(** ** The callers of the actions *)
(* ===================================================================== *)

(** [middleware.ts]: the route guard that runs ahead of every page. *)
Module Middleware.

(** What the guard answers: a redirect to a path of the same origin
    ([NextResponse.redirect(new URL(path, request.url))]), or the response
    that [updateSession] made. *)
Inductive Outcome : Type :=
  | redirect (path : string)
  | response.

(** [s.startsWith(p)] *)
Definition startsWith (s p : string) : bool := String.prefix p s.

Definition middleware (user : option User) (pathname : string) : Outcome :=
  let signedIn := match user with Some _ => true | None => false end in
  if negb signedIn && negb (String.eqb pathname "/login")
     && negb (startsWith pathname "/auth")
  then redirect "/login"
  else if signedIn && String.eqb pathname "/login"
  then redirect "/"
  else response.

End Middleware.

(** [prisma/seed.js]: the script that fills the category table. *)
Module Seed.

Definition categories : list string :=
  [ "Food & Dining"; "Transportation"; "Shopping"; "Entertainment";
    "Bills & Utilities"; "Healthcare"; "Travel"; "Education"; "Other" ].

(** [category.upsert({ where: { name }, update: {}, create: { name } })]:
    a category of that name stays as it is; otherwise one is appended,
    with an id that no category has yet. *)
Definition upsert (name : string) (table : list Category.t)
  : list Category.t :=
  match find (fun c => String.eqb (Category.name c) name) table with
  | Some _ => table
  | None =>
      table ++ [Category.mk (Prisma.new_id (map Category.id table)) name]
  end.

(** The loop of [main], over the category table. *)
Definition main (table : list Category.t) : list Category.t :=
  fold_left (fun t name => upsert name t) categories table.

End Seed.

(** The server components of the two pages.  The window is what
    [getDateRange('last30')] returned. *)
Module Pages.

(** [app/(dashboard)/page.tsx]: the server component of the dashboard. *)
Definition DashboardPage (session : option User) (scale : nat)
    (range : Date * Date) : M (Summary.t * list ExpenseView.t) :=
  let startDate := fst range in
  let endDate := snd range in
  summary <- getDashboardSummary session scale startDate endDate ;;
  expensesResult <- getExpenses session scale startDate endDate None
                      (Some date_desc) (Some 1%Z) (Some 5%Z) ;;
  ret (summary, ExpensesPage.data expensesResult).

(** [app/expenses/page.tsx]: the server component of the expenses page. *)
Definition ExpensesPage (session : option User) (scale : nat)
    (range : Date * Date) : M (list Category.t * list ExpenseView.t) :=
  categories <- getCategories ;;
  let startDate := fst range in
  let endDate := snd range in
  expensesResult <- getExpenses session scale startDate endDate None
                      (Some date_desc) (Some 1%Z) (Some 10%Z) ;;
  ret (categories, ExpensesPage.data expensesResult).

End Pages.

(** [app/expenses/expenses-client.tsx]: the arithmetic of the pagination
    controls.  Page numbers and counts are integers well below 2^53. *)
Module ExpensesClient.

(** [handleDelete]: the page fetched after a deletion, given the number
    of rows that were shown: [expenses.length === 1 && currentPage > 1 ?
    currentPage - 1 : currentPage]. *)
Definition newPage (shown : nat) (currentPage : Z) : Z :=
  if (shown =? 1)%nat && (1 <? currentPage)%Z
  then (currentPage - 1)%Z else currentPage.

(** The banner "Showing [from] to [to] of [totalExpenses] expenses". *)
Definition showingFrom (currentPage pageSize : Z) : Z :=
  ((currentPage - 1) * pageSize + 1)%Z.

Definition showingTo (currentPage pageSize totalExpenses : Z) : Z :=
  Z.min (currentPage * pageSize) totalExpenses.

(** The buttons Previous, [p => Math.max(1, p - 1)], and Next,
    [p => Math.min(totalPages, p + 1)]. *)
Definition previous (p : Z) : Z := Z.max 1 (p - 1).

Definition following (totalPages p : Z) : Z := Z.min totalPages (p + 1).

(** The number on the [i]-th page button. *)
Definition pageNum (totalPages currentPage i : Z) : Z :=
  if (totalPages <=? 5)%Z then (i + 1)%Z
  else if (currentPage <=? 3)%Z then (i + 1)%Z
  else if (totalPages - 2 <=? currentPage)%Z then (totalPages - 4 + i)%Z
  else (currentPage - 2 + i)%Z.

(** [Array.from({ length: Math.min(5, totalPages) }, (_, i) => pageNum)] *)
Definition pageButtons (totalPages currentPage : Z) : list Z :=
  map (fun i => pageNum totalPages currentPage (Z.of_nat i))
      (seq 0 (Z.to_nat (Z.min 5 totalPages))).

End ExpensesClient.

(* ===================================================================== *)
(** ** Vocabulary of the further statements *)
(* ===================================================================== *)

(** No two expenses share an id (the primary key of the table). *)
Definition unique_ids (w : World) : Prop :=
  NoDup (map Expense.id (expenses w)).

(** A computation keeps the ids unique. *)
Definition keeps_unique_ids {A} (c : M A) : Prop :=
  forall w, unique_ids w -> unique_ids (snd (c w)).

(** A run of requests, each under the session of its caller. *)
Definition serve (scale : nat) (newDecimal : number -> Decimal)
    (parseDate : string -> option Date)
    (requests : list (option User * Request)) (w : World) : World :=
  fold_left
    (fun w sr => snd (handle (fst sr) scale newDecimal parseDate (snd sr) w))
    requests w.

(** The requests that write. *)
Definition is_mutation (r : Request) : bool :=
  match r with
  | create_expense _ | delete_expense _ | clear_all_expenses
  | create_demo_expenses _ => true
  | get_categories | get_expenses _ _ _ _ _ _ | get_dashboard_summary _ _ => false
  end.

Definition succeeded {A} (x : Result A) : bool :=
  match x with Ok _ => true | Err _ => false end.

(** The rows of page [p] of a listing, as [getExpenses] returns them;
    nothing when it throws. *)
Definition page_of (user : User) (scale : nat) (startDate endDate : Date)
    (categoryId : option string) (sortBy : SortBy) (pageSize : Z) (w : World)
    (p : nat) : list ExpenseView.t :=
  match fst (getExpenses (Some user) scale startDate endDate categoryId
               (Some sortBy) (Some (Z.of_nat p)) (Some pageSize) w) with
  | Ok r => ExpensesPage.data r
  | Err _ => []
  end.

(** The whole listing: the matching rows in the requested order. *)
Definition listing (user : User) (scale : nat) (startDate endDate : Date)
    (categoryId : option string) (sortBy : SortBy) (w : World)
  : list ExpenseView.t :=
  map (fun x => view scale (Prisma.join (categories w) x))
      (stable_sort (Prisma.row_after (orderBy_of sortBy))
         (filter (Prisma.matches
                    (where_of (user_id user) startDate endDate categoryId))
                 (expenses w))).

(** No two of the rows share the key that [sortBy] orders by. *)
Definition distinct_keys (sortBy : SortBy) (rows : list Expense.t) : Prop :=
  NoDup (map (Prisma.key (fst (orderBy_of sortBy))) rows).

(** A row whose category is named like a property that objects inherit. *)
Definition shadowed (j : Prisma.Joined) : bool :=
  match name_of j with
  | Some n => JsObject.inherited n
  | None => false
  end.

(** Ascending by name, as [orderBy: { name: 'asc' }] asks for. *)
Definition name_ascending (a b : Category.t) : Prop :=
  String.leb (Category.name a) (Category.name b) = true.

(** A world whose category table is the seeded one. *)
Definition seeded_from (table : list Category.t) (w : World) : World :=
  {| categories := Seed.main table; expenses := expenses w; log := log w |}.

(** Further sample data. *)
Module Fixture.

(** The sample world without the expense of bob. *)
Definition alone : World :=
  {| categories := Sample.seeded; expenses := [Sample.e1; Sample.e3]; log := [] |}.

(** A category named like a property that objects inherit, with one of
    the two expenses of the test user. *)
Definition shadow : World :=
  {| categories := [ Category.mk "cat-1" "Food";
                     Category.mk "cat-2" "constructor" ];
     expenses :=
       [ Expense.mk "1" "test-user-id" 10000%Z "cat-1" Sample.jan1 None;
         Expense.mk "2" "test-user-id" 20000%Z "cat-2" Sample.jan1 None ];
     log := [] |}.

(** A run of three requests: alice creates an expense, a caller without
    a session tries to clear, alice deletes her first expense. *)
Definition requests : list (option User * Request) :=
  [ (Some Sample.alice, create_expense Sample.input);
    (None, clear_all_expenses);
    (Some Sample.alice, delete_expense "e1") ].

(** An amount that is not a number. *)
Definition not_a_number : CreateInput.t :=
  CreateInput.mk S754_nan "c1" "2026-02-05" None.

End Fixture.

(* ===================================================================== *)
(** ** Dates and the windows of the pages *)
(* ===================================================================== *)

(** The time arithmetic behind the [Date] object, as the language
    standard defines it, on time values in milliseconds.  Time values stay
    far inside the range of valid dates, where [TimeClip] is the
    identity. *)
Module JsDate.

Local Open Scope Z_scope.

Definition msPerDay : Z := 86400000.

Definition Day (t : Z) : Z := t / msPerDay.

Definition TimeWithinDay (t : Z) : Z := t mod msPerDay.

Definition DaysInYear (y : Z) : Z :=
  if negb (y mod 4 =? 0) then 365
  else if negb (y mod 100 =? 0) then 366
  else if negb (y mod 400 =? 0) then 365
  else 366.

Definition DayFromYear (y : Z) : Z :=
  365 * (y - 1970) + (y - 1969) / 4 - (y - 1901) / 100 + (y - 1601) / 400.

(** The largest [y] with [DayFromYear y <= day], searched downwards from
    a year that is past it. *)
Fixpoint year_search (fuel : nat) (y day : Z) : Z :=
  match fuel with
  | O => y
  | S fuel => if DayFromYear y <=? day then y else year_search fuel (y - 1) day
  end.

Definition YearFromTime (t : Z) : Z :=
  let day := Day t in
  year_search (Z.to_nat (Z.abs day / 365 + 3))
    (1970 + Z.max 0 (day / 365) + 1) day.

Definition InLeapYear (t : Z) : Z :=
  if DaysInYear (YearFromTime t) =? 365 then 0 else 1.

Definition DayWithinYear (t : Z) : Z := Day t - DayFromYear (YearFromTime t).

(** The day of the year on which month [m] starts. *)
Definition monthStart (leap m : Z) : Z :=
  match m with
  | 0 => 0
  | 1 => 31
  | 2 => 59 + leap
  | 3 => 90 + leap
  | 4 => 120 + leap
  | 5 => 151 + leap
  | 6 => 181 + leap
  | 7 => 212 + leap
  | 8 => 243 + leap
  | 9 => 273 + leap
  | 10 => 304 + leap
  | 11 => 334 + leap
  | _ => 365 + leap
  end.

Definition MonthFromTime (t : Z) : Z :=
  let d := DayWithinYear t in
  let leap := InLeapYear t in
  if d <? 31 then 0
  else if d <? 59 + leap then 1
  else if d <? 90 + leap then 2
  else if d <? 120 + leap then 3
  else if d <? 151 + leap then 4
  else if d <? 181 + leap then 5
  else if d <? 212 + leap then 6
  else if d <? 243 + leap then 7
  else if d <? 273 + leap then 8
  else if d <? 304 + leap then 9
  else if d <? 334 + leap then 10
  else 11.

Definition DateFromTime (t : Z) : Z :=
  DayWithinYear t - monthStart (InLeapYear t) (MonthFromTime t) + 1.

Definition MakeTime (hour min sec ms : Z) : Z :=
  hour * 3600000 + min * 60000 + sec * 1000 + ms.

(** The day number of the first of the month, plus [date - 1]. *)
Definition MakeDay (year month date : Z) : Z :=
  let ym := year + month / 12 in
  let mn := month mod 12 in
  DayFromYear ym
  + monthStart (if DaysInYear ym =? 365 then 0 else 1) mn
  + date - 1.

Definition MakeDate (day time : Z) : Z := day * msPerDay + time.

Section Local.

(** The offset of local time from UTC, which the host defines: at a UTC
    time for [true], at a local time for [false]. *)
Variable LocalTZA : Z -> bool -> Z.

Definition LocalTime (t : Z) : Z := t + LocalTZA t true.

Definition UTC (t : Z) : Z := t - LocalTZA t false.

Definition getFullYear (d : Date) : Z := YearFromTime (LocalTime d).

Definition getMonth (d : Date) : Z := MonthFromTime (LocalTime d).

Definition getDate (d : Date) : Z := DateFromTime (LocalTime d).

(** [d.setHours(hour, min, sec, ms)] *)
Definition setHours (d : Date) (hour min sec ms : Z) : Date :=
  let t := LocalTime d in
  UTC (MakeDate (Day t) (MakeTime hour min sec ms)).

(** [d.setDate(date)] *)
Definition setDate (d : Date) (date : Z) : Date :=
  let t := LocalTime d in
  UTC (MakeDate (MakeDay (YearFromTime t) (MonthFromTime t) date)
         (TimeWithinDay t)).

(** [new Date(year, month, date)]; a year from 0 to 99 stands for 1900
    plus that year. *)
Definition newDate (year month date : Z) : Date :=
  let yr := if (0 <=? year) && (year <=? 99) then 1900 + year else year in
  UTC (MakeDate (MakeDay yr month date) (MakeTime 0 0 0 0)).

End Local.

End JsDate.

(** [lib/utils/date]: the windows that the pages ask for. *)
Module TimePeriod.

Inductive t : Type := today | last7 | thisMonth | last30.

End TimePeriod.

(** [now k] is the [k]-th reading of the clock during the call: the three
    [new Date()]. *)
Definition getDateRange (LocalTZA : Z -> bool -> Z) (now : nat -> Date)
    (preset : TimePeriod.t) : Date * Date :=
  let today := JsDate.setHours LocalTZA (now 0) 0 0 0 0 in
  let endDate := JsDate.setHours LocalTZA (now 1) 23 59 59 999 in
  let startDate := now 2 in
  let startDate :=
    match preset with
    | TimePeriod.today => today
    | TimePeriod.last7 =>
        JsDate.setDate LocalTZA today (JsDate.getDate LocalTZA today - 6)%Z
    | TimePeriod.thisMonth =>
        JsDate.newDate LocalTZA (JsDate.getFullYear LocalTZA today)
          (JsDate.getMonth LocalTZA today) 1
    | TimePeriod.last30 =>
        JsDate.setDate LocalTZA today (JsDate.getDate LocalTZA today - 29)%Z
    end in
  (startDate, endDate).

(** The number of whole days a preset reaches back from today; the
    window of [thisMonth] reaches back to the first of the month. *)
Definition days_back (LocalTZA : Z -> bool -> Z) (now : nat -> Date)
    (preset : TimePeriod.t) : Z :=
  match preset with
  | TimePeriod.today => 0%Z
  | TimePeriod.last7 => 6%Z
  | TimePeriod.thisMonth =>
      (JsDate.DateFromTime (JsDate.LocalTime LocalTZA (now 0%nat)) - 1)%Z
  | TimePeriod.last30 => 29%Z
  end.

(** Local midnight of the day of [t], in a zone at a fixed offset. *)
Definition midnight (tz : Z) (t : Date) : Date :=
  (JsDate.Day (t + tz) * JsDate.msPerDay - tz)%Z.

(** A host whose zone is UTC. *)
Definition utc : Z -> bool -> Z := fun _ _ => 0%Z.

(* ===================================================================== *)
(** * Theorems *)
(* ===================================================================== *)

(** Runs a computation of the monad on a world, step by step. *)
Ltac run :=
  cbv beta delta
    [bind ret throw record get_world set_expenses getUser revalidatePath] iota;
  cbn [fst snd categories expenses log].

(* ===================================================================== *)
(** ** The access guard *)
(* ===================================================================== *)




(* ===================================================================== *)
(** ** Creation *)
(* ===================================================================== *)

(** C4: for a resolved caller and an amount [<= 0], [createExpense] throws
    InvalidAmount and the world is exactly as before: nothing was
    inserted, the store was not even called. *)
Theorem createExpense_rejects_non_positive :
  forall newDecimal parseDate (user : User) (data : CreateInput.t) (w : World),
    JsNumber.leb (CreateInput.amount data) JsNumber.zero = true ->
    createExpense (Some user) newDecimal parseDate data w
    = (Err InvalidAmount, w).
Proof.
  intros newDecimal parseDate user data w Hle.
  unfold createExpense. run. now rewrite Hle.
Qed.

Lemma createExpense_rejects_non_positive_witness :
  createExpense (Some Sample.alice) Sample.newDecimal Sample.parseDate
    (CreateInput.mk (JsNumber.of_Z (-50)) "c1" "2026-02-05" None) Sample.world
  = (Err InvalidAmount, Sample.world).
Proof.
  apply (createExpense_rejects_non_positive Sample.newDecimal Sample.parseDate
           Sample.alice).
  reflexivity.
Defined.

(* ===================================================================== *)
(** ** Deletion *)
(* ===================================================================== *)

Lemma find_none_iff {A} (f : A -> bool) (l : list A) :
  find f l = None <-> (forall x, In x l -> f x = false).
Proof.
  split.
  - apply find_none.
  - induction l as [|a l IH]; intros H; cbn; [reflexivity|].
    rewrite (H a (or_introl eq_refl)). apply IH. intros x Hx. apply H. now right.
Qed.

(** C5: for a resolved caller, deleting an id that no expense has and
    deleting an id whose expense belongs to someone else throw the same
    NotFoundOrUnauthorized; in both cases the only effect is the lookup
    [findUnique], and every expense record stays as it was. *)
Theorem deleteExpense_missing_or_foreign :
  forall (user : User) (missing foreign : string) (w : World),
    (forall x, In x (expenses w) -> Expense.id x <> missing) ->
    (exists e, In e (expenses w) /\ Expense.id e = foreign) ->
    (forall x, In x (expenses w) -> Expense.id x = foreign ->
               Expense.userId x <> user_id user) ->
    deleteExpense (Some user) missing w
    = (Err NotFoundOrUnauthorized,
       logged w [prisma (expense_findUnique_call missing)])
    /\ deleteExpense (Some user) foreign w
       = (Err NotFoundOrUnauthorized,
          logged w [prisma (expense_findUnique_call foreign)])
    /\ fst (deleteExpense (Some user) missing w)
       = fst (deleteExpense (Some user) foreign w)
    /\ expenses (snd (deleteExpense (Some user) missing w)) = expenses w
    /\ expenses (snd (deleteExpense (Some user) foreign w)) = expenses w.
Proof.
  intros user missing foreign w Hmiss [e [He Hid]] Hforeign.
  assert (Hm : deleteExpense (Some user) missing w
               = (Err NotFoundOrUnauthorized,
                  logged w [prisma (expense_findUnique_call missing)])).
  { unfold deleteExpense, Prisma.expense_findUnique. run.
    replace (find _ (expenses w)) with (@None Expense.t); [reflexivity|].
    symmetry. apply find_none_iff. intros x Hx.
    apply String.eqb_neq. now apply Hmiss. }
  assert (Hf : deleteExpense (Some user) foreign w
               = (Err NotFoundOrUnauthorized,
                  logged w [prisma (expense_findUnique_call foreign)])).
  { unfold deleteExpense, Prisma.expense_findUnique. run.
    destruct (find (fun e0 => String.eqb (Expense.id e0) foreign) (expenses w))
      as [x|] eqn:Hfind.
    - apply find_some in Hfind. destruct Hfind as [Hx Hxid].
      apply String.eqb_eq in Hxid.
      apply (Hforeign x Hx) in Hxid. apply String.eqb_neq in Hxid.
      now rewrite Hxid.
    - reflexivity. }
  rewrite Hm, Hf. cbn. repeat split; reflexivity.
Qed.

Lemma deleteExpense_missing_or_foreign_witness :
  deleteExpense (Some Sample.alice) "no-such-id" Sample.world
  = (Err NotFoundOrUnauthorized,
     logged Sample.world [prisma (expense_findUnique_call "no-such-id")])
  /\ deleteExpense (Some Sample.alice) "e2" Sample.world
     = (Err NotFoundOrUnauthorized,
        logged Sample.world [prisma (expense_findUnique_call "e2")])
  /\ fst (deleteExpense (Some Sample.alice) "no-such-id" Sample.world)
     = fst (deleteExpense (Some Sample.alice) "e2" Sample.world)
  /\ expenses (snd (deleteExpense (Some Sample.alice) "no-such-id" Sample.world))
     = expenses Sample.world
  /\ expenses (snd (deleteExpense (Some Sample.alice) "e2" Sample.world))
     = expenses Sample.world.
Proof.
  apply (deleteExpense_missing_or_foreign Sample.alice "no-such-id" "e2"
           Sample.world).
  - intros x Hx. cbn in Hx.
    destruct Hx as [<-|[<-|[<-|[]]]]; discriminate.
  - exists Sample.e2. split; [cbn; auto | reflexivity].
  - intros x Hx. cbn in Hx.
    destruct Hx as [<-|[<-|[<-|[]]]]; cbn; intros; discriminate.
Defined.

Lemma matches_user_only (u : string) (e : Expense.t) :
  Prisma.matches (user_only u) e = owned_by u e.
Proof. unfold Prisma.matches, owned_by. cbn. now rewrite !andb_true_r. Qed.

Lemma filter_ext_eq {A} (f g : A -> bool) (l : list A) :
  (forall x, f x = g x) -> filter f l = filter g l.
Proof. intros H. apply filter_ext. exact H. Qed.

Lemma filter_all_true {A} (f : A -> bool) (l : list A) :
  (forall x, In x l -> f x = true) -> filter f l = l.
Proof.
  induction l as [|a l IH]; intros H; cbn; [reflexivity|].
  rewrite (H a (or_introl eq_refl)). f_equal. apply IH.
  intros x Hx. apply H. now right.
Qed.

Lemma filter_none {A} (f : A -> bool) (l : list A) :
  (forall x, In x l -> f x = false) -> filter f l = [].
Proof.
  induction l as [|a l IH]; intros H; cbn; [reflexivity|].
  rewrite (H a (or_introl eq_refl)). apply IH.
  intros x Hx. apply H. now right.
Qed.

Lemma filter_nil_all_false {A} (f : A -> bool) (l : list A) :
  filter f l = [] -> forall x, In x l -> f x = false.
Proof.
  intros H x Hx. destruct (f x) eqn:E; [|reflexivity].
  assert (Hin : In x (filter f l)) by (apply filter_In; auto).
  rewrite H in Hin. destruct Hin.
Qed.

Lemma clearAllExpenses_run (user : User) (w : World) :
  clearAllExpenses (Some user) w
  = (Ok (List.length (filter (owned_by (user_id user)) (expenses w))),
     cleared (user_id user) w).
Proof.
  unfold clearAllExpenses, Prisma.expense_deleteMany. run.
  fold (user_only (user_id user)).
  rewrite (filter_ext_eq _ _ _ (matches_user_only (user_id user))).
  rewrite (filter_ext_eq (fun e => negb (Prisma.matches _ e))
             (fun e => negb (owned_by (user_id user) e))).
  2:{ intros x. now rewrite matches_user_only. }
  unfold cleared. now rewrite <- !app_assoc.
Qed.

(** C7: for a resolved caller, [clearAllExpenses] removes exactly the
    expenses whose [userId] is the caller's id, keeps all the others in
    their order, and returns how many it removed; with no expense of the
    caller it returns 0 and the table is unchanged; a second call right
    after returns 0 and leaves the table as the first call left it. *)
Theorem clearAllExpenses_removes_own :
  forall (user : User) (w : World),
    let mine := filter (owned_by (user_id user)) (expenses w) in
    let w1 := snd (clearAllExpenses (Some user) w) in
    fst (clearAllExpenses (Some user) w) = Ok (List.length mine)
    /\ expenses w1 = filter (fun e => negb (owned_by (user_id user) e)) (expenses w)
    /\ (forall e, In e (expenses w1) <->
                  In e (expenses w) /\ Expense.userId e <> user_id user)
    /\ List.length (expenses w) = (List.length (expenses w1) + List.length mine)%nat
    /\ categories w1 = categories w
    /\ (mine = [] ->
          fst (clearAllExpenses (Some user) w) = Ok 0%nat
          /\ expenses w1 = expenses w)
    /\ fst (clearAllExpenses (Some user) w1) = Ok 0%nat
    /\ expenses (snd (clearAllExpenses (Some user) w1)) = expenses w1.
Proof.
  intros user w mine w1. subst w1 mine.
  rewrite clearAllExpenses_run. cbn [fst snd].
  rewrite clearAllExpenses_run. cbn [fst snd cleared expenses categories].
  set (u := user_id user) in *.
  assert (Hgone : filter (owned_by u)
                    (filter (fun e => negb (owned_by u e)) (expenses w)) = []).
  { apply filter_none. intros x Hx. apply filter_In in Hx.
    destruct Hx as [_ Hx]. now apply negb_true_iff in Hx. }
  split; [reflexivity|]. split; [reflexivity|]. split.
  { intros e. rewrite filter_In, negb_true_iff. unfold owned_by.
    now rewrite String.eqb_neq. }
  split.
  { clear Hgone.
    induction (expenses w) as [|a l IH]; cbn; [reflexivity|].
    destruct (owned_by u a); cbn; lia. }
  split; [reflexivity|]. split.
  { intros Hnone. split; [now rewrite Hnone|].
    apply filter_all_true. intros x Hx. apply negb_true_iff.
    now apply (filter_nil_all_false _ _ Hnone). }
  split; [now rewrite Hgone|].
  apply filter_all_true. intros x Hx. apply filter_In in Hx. tauto.
Qed.

(* ===================================================================== *)
(** ** Facts about the stable sort *)
(* ===================================================================== *)

Section StableSortFacts.

Context {A : Type}.
Variable after : A -> A -> bool.

Lemma insert_perm (x : A) (l : list A) : Permutation (insert after x l) (x :: l).
Proof.
  induction l as [|y r IH]; cbn; [reflexivity|].
  destruct (after x y); [|reflexivity].
  rewrite IH. apply perm_swap.
Qed.

Lemma stable_sort_perm (l : list A) : Permutation (stable_sort after l) l.
Proof.
  induction l as [|x r IH]; cbn; [reflexivity|].
  rewrite insert_perm. now constructor.
Qed.

Lemma stable_sort_In (l : list A) (x : A) : In x (stable_sort after l) <-> In x l.
Proof.
  split; apply Permutation_in;
    [apply stable_sort_perm | apply Permutation_sym, stable_sort_perm].
Qed.

Lemma stable_sort_length (l : list A) :
  List.length (stable_sort after l) = List.length l.
Proof. apply Permutation_length, stable_sort_perm. Qed.

Hypothesis after_asym : forall x y, after x y = true -> after y x = false.

Lemma insert_sorted (x : A) (l : list A) :
  Sorted (precedes after) l -> Sorted (precedes after) (insert after x l).
Proof.
  induction l as [|y r IH]; intros Hs; cbn.
  - repeat constructor.
  - destruct (after x y) eqn:E.
    + inversion Hs as [|? ? Hr Hhd]; subst.
      constructor; [now apply IH|].
      destruct r as [|z r]; cbn.
      * constructor. now apply after_asym.
      * destruct (after x z); constructor.
        -- now inversion Hhd.
        -- now apply after_asym.
    + constructor; [exact Hs|]. now constructor.
Qed.

Lemma stable_sort_sorted (l : list A) : Sorted (precedes after) (stable_sort after l).
Proof.
  induction l as [|x r IH]; cbn; [constructor|]. now apply insert_sorted.
Qed.

Hypothesis precedes_trans :
  forall x y z, precedes after x y -> precedes after y z -> precedes after x z.

Lemma stable_sort_strongly_sorted (l : list A) :
  StronglySorted (precedes after) (stable_sort after l).
Proof.
  apply Sorted_StronglySorted; [|apply stable_sort_sorted].
  intros x y z. apply precedes_trans.
Qed.

End StableSortFacts.

(* ===================================================================== *)
(** ** Listing *)
(* ===================================================================== *)

Lemma matches_in_scope u s e c x :
  Prisma.matches (where_of u s e c) x = true <-> in_scope u s e c x.
Proof.
  unfold Prisma.matches, in_scope, where_of. cbn.
  rewrite !andb_true_iff, String.eqb_eq, !Z.leb_le.
  destruct (category_filter c) as [k|].
  - rewrite String.eqb_eq. split.
    + intros [[Hu Hd] Hc]. repeat split; try tauto. intros c0 [= <-]. exact Hc.
    + intros [Hu [Hd Hc]]. repeat split; try tauto. now apply Hc.
  - split.
    + intros [[Hu Hd] _]. repeat split; try tauto. discriminate.
    + intros [Hu [Hd _]]. tauto.
Qed.

Lemma row_after_sorted (sortBy : SortBy) (l : list Expense.t) :
  StronglySorted (in_order sortBy)
    (stable_sort (Prisma.row_after (orderBy_of sortBy)) l).
Proof.
  assert (H : StronglySorted (precedes (Prisma.row_after (orderBy_of sortBy)))
                (stable_sort (Prisma.row_after (orderBy_of sortBy)) l)).
  { apply stable_sort_strongly_sorted.
    - intros x y. destruct sortBy; cbn; rewrite Z.ltb_lt, Z.ltb_ge; lia.
    - intros x y z. unfold precedes.
      destruct sortBy; cbn; rewrite !Z.ltb_ge; lia. }
  revert H. apply StronglySorted_ind.
  - constructor.
  - intros a r _ IH Hall. constructor; [exact IH|].
    revert Hall. apply Forall_impl. intros b. unfold precedes.
    destruct sortBy; cbn; rewrite Z.ltb_ge; lia.
Qed.

Lemma Math_ceil_div_spec (a b : Z) :
  (0 < b)%Z ->
  exists n, Math_ceil_div a b = Some n /\ ((n - 1) * b < a <= n * b)%Z.
Proof.
  intros Hb. unfold Math_ceil_div.
  destruct (Z.eqb_spec b 0) as [->|_]; [lia|].
  eexists. split; [reflexivity|].
  pose proof (Z.div_mod (- a) b ltac:(lia)) as Hdm.
  pose proof (Z.mod_pos_bound (- a) b Hb) as Hm.
  nia.
Qed.

Lemma In_firstn_skipn {A} (n m : nat) (l : list A) (x : A) :
  In x (firstn n (skipn m l)) -> In x l.
Proof.
  intros H.
  rewrite <- (firstn_skipn m l). apply in_or_app. right.
  rewrite <- (firstn_skipn n (skipn m l)). apply in_or_app. now left.
Qed.

Lemma category_filter_code (categoryId : option string) :
  match categoryId with
  | Some c =>
      if negb (String.eqb c "") && negb (String.eqb c "all") then Some c else None
  | None => None
  end = category_filter categoryId.
Proof.
  destruct categoryId as [c|]; cbn; [|reflexivity].
  now destruct (String.eqb c ""), (String.eqb c "all").
Qed.

Lemma getExpenses_run (user : User) (scale : nat) (s e : Date)
    (c : option string) (sortBy : SortBy) (page pageSize : Z) (w : World) :
  (1 <= page)%Z -> (1 <= pageSize)%Z ->
  let q := where_of (user_id user) s e c in
  let matching := filter (Prisma.matches q) (expenses w) in
  getExpenses (Some user) scale s e c (Some sortBy) (Some page) (Some pageSize) w
  = (Ok (ExpensesPage.mk
           (map (fun x => view scale (Prisma.join (categories w) x))
                (page_rows sortBy page pageSize matching))
           (Pagination.mk page pageSize (Z.of_nat (List.length matching))
              (Math_ceil_div (Z.of_nat (List.length matching)) pageSize))),
     logged w (listing_calls q sortBy page pageSize)).
Proof.
  intros Hp Hs q matching.
  unfold getExpenses, Prisma.expense_count, Prisma.expense_findMany. run.
  rewrite category_filter_code.
  fold (where_of (user_id user) s e c). fold q. fold matching.
  replace (match sortBy with
           | date_desc => (by_date, desc)
           | date_asc => (by_date, asc)
           | amount_desc => (by_amount, desc)
           | amount_asc => (by_amount, asc)
           end) with (orderBy_of sortBy) by reflexivity.
  unfold Prisma.window, Prisma.ordered.
  destruct (Z.ltb_spec ((page - 1) * pageSize) 0) as [Hneg|_]; [nia|].
  destruct (Z.leb_spec 0 pageSize) as [_|Hneg]; [|lia].
  rewrite map_map. unfold logged, listing_calls, page_rows.
  now rewrite <- app_assoc.
Qed.

(** C1: for a resolved caller, [page >= 1] and [pageSize >= 1],
    [getExpenses] counts and fetches with one and the same filter: the
    caller's expenses dated within [startDate, endDate], both ends
    included, of the given category when a [categoryId] other than "all"
    is given.  It fetches with skip [(page - 1) * pageSize] and take
    [pageSize] from the matching rows in the requested order, and returns
    those rows with [page], [pageSize], [total] (the number of all matching
    rows) and [totalPages], the ceiling of [total / pageSize].  With 25
    matching rows, page 1 and page size 10: 3 pages, skip 0, take 10, and
    10 rows.  The store is not changed. *)
Theorem getExpenses_filters_and_paginates :
  forall (user : User) (scale : nat) (startDate endDate : Date)
         (categoryId : option string) (sortBy : SortBy) (page pageSize : Z)
         (w : World),
    (1 <= page)%Z -> (1 <= pageSize)%Z ->
    let q := where_of (user_id user) startDate endDate categoryId in
    let matching := filter (Prisma.matches q) (expenses w) in
    exists (r : ExpensesPage.t) (totalPages : Z),
      getExpenses (Some user) scale startDate endDate categoryId
        (Some sortBy) (Some page) (Some pageSize) w
      = (Ok r, logged w (listing_calls q sortBy page pageSize))
      /\ (forall x, In x matching <->
                    In x (expenses w)
                    /\ in_scope (user_id user) startDate endDate categoryId x)
      /\ ExpensesPage.data r
         = map (fun x => view scale (Prisma.join (categories w) x))
               (page_rows sortBy page pageSize matching)
      /\ (forall x, In x (page_rows sortBy page pageSize matching) ->
                    In x (expenses w)
                    /\ in_scope (user_id user) startDate endDate categoryId x)
      /\ Permutation
           (stable_sort (Prisma.row_after (orderBy_of sortBy)) matching) matching
      /\ StronglySorted (in_order sortBy)
           (stable_sort (Prisma.row_after (orderBy_of sortBy)) matching)
      /\ List.length (ExpensesPage.data r)
         = Nat.min (Z.to_nat pageSize)
             (List.length matching - Z.to_nat ((page - 1) * pageSize))
      /\ ExpensesPage.pagination r
         = Pagination.mk page pageSize (Z.of_nat (List.length matching))
             (Some totalPages)
      /\ ((totalPages - 1) * pageSize < Z.of_nat (List.length matching)
          <= totalPages * pageSize)%Z
      /\ (List.length matching = 25%nat -> page = 1%Z -> pageSize = 10%Z ->
          totalPages = 3%Z
          /\ listing_calls q sortBy page pageSize
             = [ prisma (expense_count_call q);
                 prisma (expense_findMany_call q (Some (orderBy_of sortBy))
                           (Some 0%Z) (Some 10%Z)) ]
          /\ List.length (ExpensesPage.data r) = 10%nat).
Proof.
  intros user scale s e c sortBy page pageSize w Hp Hs q matching.
  destruct (Math_ceil_div_spec (Z.of_nat (List.length matching)) pageSize)
    as [n [Hn Hceil]]; [lia|].
  assert (Hscope : forall x, In x matching <->
                     In x (expenses w) /\ in_scope (user_id user) s e c x).
  { intros x. unfold matching. rewrite filter_In.
    unfold q. now rewrite matches_in_scope. }
  assert (Hlen : List.length
                   (map (fun x => view scale (Prisma.join (categories w) x))
                        (page_rows sortBy page pageSize matching))
                 = Nat.min (Z.to_nat pageSize)
                     (List.length matching - Z.to_nat ((page - 1) * pageSize))).
  { rewrite length_map. unfold page_rows.
    now rewrite length_firstn, length_skipn, stable_sort_length. }
  exists (ExpensesPage.mk
            (map (fun x => view scale (Prisma.join (categories w) x))
                 (page_rows sortBy page pageSize matching))
            (Pagination.mk page pageSize (Z.of_nat (List.length matching))
               (Some n))), n.
  split.
  { rewrite getExpenses_run by assumption. fold q. fold matching.
    now rewrite Hn. }
  split; [exact Hscope|]. split; [reflexivity|].
  split.
  { intros x Hx. apply Hscope. unfold page_rows in Hx.
    apply In_firstn_skipn in Hx. now apply stable_sort_In in Hx. }
  split; [apply stable_sort_perm|]. split; [apply row_after_sorted|].
  split; [exact Hlen|]. split; [reflexivity|]. split; [exact Hceil|].
  intros H25 -> ->. cbn [ExpensesPage.data]. rewrite Hlen, H25.
  rewrite H25 in Hceil. cbn in Hceil.
  split; [lia|]. split; reflexivity.
Qed.

Lemma getExpenses_filters_and_paginates_witness :
  exists r,
    getExpenses (Some Sample.alice) Sample.scale Sample.jan1 Sample.feb5
      (Some "all") (Some date_desc) (Some 1%Z) (Some 10%Z) Sample.busy
    = (Ok r,
       logged Sample.busy
         (listing_calls (where_of "alice" Sample.jan1 Sample.feb5 (Some "all"))
            date_desc 1 10))
    /\ Pagination.totalPages (ExpensesPage.pagination r) = Some 3%Z
    /\ Pagination.total (ExpensesPage.pagination r) = 25%Z
    /\ List.length (ExpensesPage.data r) = 10%nat.
Proof.
  destruct (getExpenses_filters_and_paginates Sample.alice Sample.scale
              Sample.jan1 Sample.feb5 (Some "all") date_desc 1%Z 10%Z
              Sample.busy)
    as (r & n & Hrun & _ & _ & _ & _ & _ & _ & Hpag & _ & H25); [lia | lia |].
  destruct (H25 eq_refl eq_refl eq_refl) as (Hn & _ & Hlen).
  exists r. split; [exact Hrun|]. rewrite Hpag. cbn. subst n.
  repeat split. exact Hlen.
Defined.

(* ===================================================================== *)
(** ** Creating, then listing *)
(* ===================================================================== *)

Lemma length_append (s t : string) :
  String.length (s ++ t)%string = (String.length s + String.length t)%nat.
Proof. induction s as [|c s IH]; cbn; [reflexivity | now rewrite IH]. Qed.

Lemma length_concat_ge (l : list string) (s : string) :
  In s l -> (String.length s <= String.length (String.concat "" l))%nat.
Proof.
  induction l as [|a [|b r] IH]; intros Hin.
  - destruct Hin.
  - destruct Hin as [->|[]]. cbn. lia.
  - change (String.concat "" (a :: b :: r))
      with (a ++ ("" ++ String.concat "" (b :: r)))%string.
    rewrite !length_append. cbn [String.length].
    destruct Hin as [->|Hin]; [lia|]. specialize (IH Hin). lia.
Qed.

Lemma new_id_fresh (used : list string) : ~ In (Prisma.new_id used) used.
Proof.
  intros Hin. apply length_concat_ge in Hin.
  unfold Prisma.new_id in Hin. cbn [String.length] in Hin. lia.
Qed.

Lemma positive_not_leb (x : number) :
  JsNumber.positive x = true -> JsNumber.leb x JsNumber.zero = false.
Proof. destruct x as [s|s| |s m e]; try destruct s; cbn; congruence. Qed.

Lemma expense_create_run (d : CreateData) (t : Date) (c : Category.t) (w : World) :
  data_date d = Some t ->
  Prisma.find_category (data_categoryId d) (categories w) = Some c ->
  Prisma.expense_create d w
  = (Ok (created w d t),
     {| categories := categories w;
        expenses := expenses w ++ [created w d t];
        log := log w ++ [prisma (expense_create_call d)] |}).
Proof.
  intros Hd Hc. unfold Prisma.expense_create. run. now rewrite Hd, Hc.
Qed.

Lemma createExpense_run (user : User) newDecimal parseDate
    (data : CreateInput.t) (t : Date) (c : Category.t) (w : World) :
  JsNumber.positive (CreateInput.amount data) = true ->
  parseDate (CreateInput.date data) = Some t ->
  Prisma.find_category (CreateInput.categoryId data) (categories w) = Some c ->
  let d := create_data user newDecimal parseDate data in
  createExpense (Some user) newDecimal parseDate data w
  = (Ok tt,
     {| categories := categories w;
        expenses := expenses w ++ [created w d t];
        log := log w ++ [ prisma (expense_create_call d);
                          revalidate "/"; revalidate "/expenses" ] |}).
Proof.
  intros Hpos Hdate Hcat d.
  unfold createExpense. run.
  rewrite (positive_not_leb _ Hpos).
  fold (note_or_null (CreateInput.note data)).
  fold (create_data user newDecimal parseDate data). fold d.
  rewrite (expense_create_run d t c w Hdate Hcat).
  cbn. now rewrite <- !app_assoc.
Qed.

Lemma filter_app_one {A} (f : A -> bool) (l : list A) (x : A) :
  f x = true -> filter f (l ++ [x]) = filter f l ++ [x].
Proof. intros H. rewrite filter_app. cbn. now rewrite H. Qed.

Lemma count_occ_map_fresh {A} (f : A -> string) (l : list A) (i : string) :
  (forall x, In x l -> f x <> i) -> count_occ string_dec (map f l) i = 0%nat.
Proof.
  intros H. apply count_occ_not_In. intros Hin.
  apply in_map_iff in Hin. destruct Hin as [x [Hx Hin]]. now apply (H x).
Qed.

Lemma getExpenses_defaults (user : option User) (scale : nat) (s e : Date)
    (c : option string) (w : World) :
  getExpenses user scale s e c None None None w
  = getExpenses user scale s e c (Some date_desc) (Some 1%Z) (Some 10%Z) w.
Proof. reflexivity. Qed.

(** C8: a resolved caller creates an expense with an amount [> 0] (a
    date string that parses, a category that exists), then lists at once
    over a window that contains its date, with no category filter, on the
    first page (asked for, or by default) and with a page size that is at
    least the number of matching rows: the creation succeeds, appends one row with an id that
    no other row has, and the listing returns that row exactly once. *)
Theorem create_then_list_once :
  forall (user : User) (scale : nat) newDecimal parseDate
         (data : CreateInput.t) (t : Date) (c : Category.t) (w : World)
         (startDate endDate : Date) (categoryId : option string)
         (sortBy : SortBy) (page : option Z) (pageSize : Z),
    JsNumber.positive (CreateInput.amount data) = true ->
    parseDate (CreateInput.date data) = Some t ->
    Prisma.find_category (CreateInput.categoryId data) (categories w) = Some c ->
    (startDate <= t <= endDate)%Z ->
    category_filter categoryId = None ->
    page = None \/ page = Some 1%Z ->
    let w1 := snd (createExpense (Some user) newDecimal parseDate data w) in
    let new := created w (create_data user newDecimal parseDate data) t in
    (Z.of_nat (List.length
                 (filter (Prisma.matches
                            (where_of (user_id user) startDate endDate categoryId))
                         (expenses w1))) <= pageSize)%Z ->
    fst (createExpense (Some user) newDecimal parseDate data w) = Ok tt
    /\ expenses w1 = expenses w ++ [new]
    /\ (forall x, In x (expenses w) -> Expense.id x <> Expense.id new)
    /\ exists r,
         fst (getExpenses (Some user) scale startDate endDate categoryId
                (Some sortBy) page (Some pageSize) w1) = Ok r
         /\ In (view scale (Prisma.join (categories w1) new)) (ExpensesPage.data r)
         /\ count_occ string_dec (map ExpenseView.id (ExpensesPage.data r))
              (Expense.id new) = 1%nat.
Proof.
  intros user scale newDecimal parseDate data t c w s e cf sortBy page pageSize
         Hpos Hdate Hcat Hwin Hcf Hpage w1 new Hsize.
  assert (Hfirst : forall w',
            getExpenses (Some user) scale s e cf (Some sortBy) page
              (Some pageSize) w'
            = getExpenses (Some user) scale s e cf (Some sortBy) (Some 1%Z)
                (Some pageSize) w')
    by (destruct Hpage as [-> | ->]; reflexivity).
  rewrite Hfirst. clear Hfirst Hpage page.
  subst w1. revert Hsize.
  rewrite (createExpense_run user newDecimal parseDate data t c w Hpos Hdate Hcat).
  cbn [fst snd expenses categories]. fold new. intros Hsize.
  set (w1 := {| categories := categories w; expenses := expenses w ++ [new];
                log := _ |}) in *.
  set (q := where_of (user_id user) s e cf) in *.
  assert (Hnew : Prisma.matches q new = true).
  { apply matches_in_scope. repeat split; cbn; try lia.
    intros k Hk. rewrite Hcf in Hk. discriminate. }
  assert (Hfresh : forall x, In x (expenses w) -> Expense.id x <> Expense.id new).
  { intros x Hx Heq. apply (new_id_fresh (map Expense.id (expenses w))).
    change (Prisma.new_id (map Expense.id (expenses w))) with (Expense.id new).
    rewrite <- Heq. now apply in_map. }
  rewrite (filter_app_one _ _ _ Hnew) in Hsize.
  rewrite length_app in Hsize. cbn [List.length] in Hsize.
  split; [reflexivity|]. split; [reflexivity|]. split; [exact Hfresh|].
  rewrite getExpenses_run by lia. cbn [fst expenses categories w1].
  eexists. split; [reflexivity|]. cbn [ExpensesPage.data].
  fold q. rewrite (filter_app_one _ _ _ Hnew).
  set (old := filter (Prisma.matches q) (expenses w)) in *.
  assert (Hrows : page_rows sortBy 1 pageSize (old ++ [new])
                  = stable_sort (Prisma.row_after (orderBy_of sortBy)) (old ++ [new])).
  { unfold page_rows. cbn [Z.sub Z.mul Z.to_nat Z.pos_sub skipn].
    apply firstn_all2. rewrite stable_sort_length, length_app. cbn. lia. }
  rewrite Hrows. split.
  - apply (in_map (fun x => view scale (Prisma.join (categories w) x))).
    apply stable_sort_In. apply in_or_app. right. now left.
  - rewrite map_map. cbn [view ExpenseView.id Prisma.join Prisma.row].
    pose proof (stable_sort_perm (Prisma.row_after (orderBy_of sortBy))
                  (old ++ [new])) as Hperm.
    apply (Permutation_map Expense.id) in Hperm.
    rewrite (proj1 (Permutation_count_occ string_dec _ _) Hperm).
    rewrite map_app, count_occ_app. cbn [map].
    rewrite count_occ_map_fresh.
    + now rewrite count_occ_cons_eq by reflexivity.
    + intros x Hx. apply Hfresh. unfold old in Hx. apply filter_In in Hx. tauto.
Qed.

Lemma create_then_list_once_witness :
  fst (createExpense (Some Sample.alice) Sample.newDecimal Sample.parseDate
         Sample.input Sample.world) = Ok tt
  /\ exists r,
       fst (getExpenses (Some Sample.alice) Sample.scale Sample.jan1 Sample.feb5
              None (Some date_desc) (Some 1%Z) (Some 10%Z)
              (snd (createExpense (Some Sample.alice) Sample.newDecimal
                      Sample.parseDate Sample.input Sample.world))) = Ok r
       /\ count_occ string_dec (map ExpenseView.id (ExpensesPage.data r))
            "ee1e2e3" = 1%nat.
Proof.
  destruct (create_then_list_once Sample.alice Sample.scale Sample.newDecimal
              Sample.parseDate Sample.input Sample.feb5
              (Category.mk "c1" "Food & Dining") Sample.world
              Sample.jan1 Sample.feb5 None date_desc (Some 1%Z) 10%Z)
    as (Hok & _ & _ & r & Hr & _ & Hcount);
    try reflexivity; try (vm_compute; split; discriminate);
    try (vm_compute; discriminate); try (now right).
  split; [exact Hok|]. exists r. split; [exact Hr | exact Hcount].
Defined.

(* ===================================================================== *)
(** ** Demo seeding *)
(* ===================================================================== *)

Lemma tuples_by_length (categories : list Category.t) :
  Demo.tuples categories
  = Demo.catalog
    ++ (if 7 <=? List.length categories then Demo.travel else [])
    ++ (if 8 <=? List.length categories then Demo.education else [])
    ++ (if 9 <=? List.length categories then Demo.other else []).
Proof.
  unfold Demo.tuples, Demo.spread.
  destruct categories as [|c0 [|c1 [|c2 [|c3 [|c4 [|c5 [|c6 [|c7 [|c8 r]]]]]]]]];
    reflexivity.
Qed.

Lemma tuples_length (categories : list Category.t) :
  List.length (Demo.tuples categories) = demo_count (List.length categories).
Proof.
  rewrite tuples_by_length. unfold demo_count.
  destruct (7 <=? _), (8 <=? _), (9 <=? _); reflexivity.
Qed.

Lemma tuples_index_bound (categories : list Category.t) (t : Demo.Tuple) :
  6 <= List.length categories ->
  In t (Demo.tuples categories) ->
  Demo.categoryIndex t < List.length categories.
Proof.
  intros Hlen. rewrite tuples_by_length.
  rewrite !in_app_iff. intros [H|[H|[H|H]]].
  - unfold Demo.catalog in H. cbn [In] in H.
    repeat (destruct H as [<-|H]; [cbn [Demo.categoryIndex]; lia|]). destruct H.
  - destruct (Nat.leb_spec 7 (List.length categories)) as [Hle|_]; [|destruct H].
    unfold Demo.travel, Demo.education, Demo.other in H. cbn [In] in H.
    repeat (destruct H as [<-|H]; [cbn [Demo.categoryIndex]; lia|]). destruct H.
  - destruct (Nat.leb_spec 8 (List.length categories)) as [Hle|_]; [|destruct H].
    unfold Demo.travel, Demo.education, Demo.other in H. cbn [In] in H.
    repeat (destruct H as [<-|H]; [cbn [Demo.categoryIndex]; lia|]). destruct H.
  - destruct (Nat.leb_spec 9 (List.length categories)) as [Hle|_]; [|destruct H].
    unfold Demo.travel, Demo.education, Demo.other in H. cbn [In] in H.
    repeat (destruct H as [<-|H]; [cbn [Demo.categoryIndex]; lia|]). destruct H.
Qed.

Lemma expected_length clock categories (l : list Demo.Tuple) :
  forall k, List.length (expected clock categories k l) = List.length l.
Proof.
  induction l as [|t r IH]; intros k; cbn [expected List.length];
    [reflexivity | now rewrite IH].
Qed.

Lemma eval_in_range clock categories (l : list Demo.Tuple) :
  forall k,
    (forall t, In t l -> Demo.categoryIndex t < List.length categories) ->
    Demo.eval clock categories k l = Some (expected clock categories k l).
Proof.
  induction l as [|t r IH]; intros k Hall; cbn; [reflexivity|].
  destruct (nth_error categories (Demo.categoryIndex t)) as [c|] eqn:E.
  - rewrite IH; [reflexivity|]. intros t' Ht'. apply Hall. now right.
  - apply nth_error_None in E. specialize (Hall t (or_introl eq_refl)). lia.
Qed.

Lemma eval_out_of_range clock categories (l : list Demo.Tuple) :
  forall k,
    (exists t, In t l /\ List.length categories <= Demo.categoryIndex t) ->
    Demo.eval clock categories k l = None.
Proof.
  induction l as [|t r IH]; intros k [t' [Hin Hlen]]; cbn; [destruct Hin|].
  destruct (nth_error categories (Demo.categoryIndex t)) as [c|] eqn:E;
    [|reflexivity].
  destruct Hin as [->|Hin].
  - apply nth_error_None in Hlen. congruence.
  - rewrite IH; [reflexivity|]. now exists t'.
Qed.

(** C10: the demo array reads [categories[0].id] to [categories[5].id]
    without a guard: with fewer than six categories its evaluation is a
    TypeError, and nothing is inserted.  With six or more, every index
    read succeeds and the array is built; only the entries of the 7th, 8th
    and 9th category are behind a guard, and are left out when the
    category is missing. *)
Theorem demoExpenses_needs_six_categories :
  forall (clock : nat -> Date) (cats : list Category.t),
    (List.length cats < 6 -> Demo.demoExpenses clock cats = None)
    /\ (6 <= List.length cats ->
        (forall t, In t (Demo.tuples cats) ->
                   exists c, nth_error cats (Demo.categoryIndex t) = Some c)
        /\ exists entries,
             Demo.demoExpenses clock cats = Some entries
             /\ List.length entries = demo_count (List.length cats))
    /\ Demo.tuples cats
       = Demo.catalog
         ++ (if 7 <=? List.length cats then Demo.travel else [])
         ++ (if 8 <=? List.length cats then Demo.education else [])
         ++ (if 9 <=? List.length cats then Demo.other else [])
    /\ (forall t, In t Demo.catalog -> Demo.categoryIndex t < 6)
    /\ (exists t, In t Demo.catalog /\ Demo.categoryIndex t = 5)
    /\ (forall (user : User) newDecimal (w : World),
          List.length (categories w) < 6 ->
          createDemoExpenses (Some user) newDecimal clock w
          = (Err TypeError, logged w [prisma (category_findMany_call None)])).
Proof.
  intros clock cats. split; [|split; [|split; [|split; [|split]]]].
  - intros Hlen. unfold Demo.demoExpenses.
    apply eval_out_of_range.
    exists (Demo.mk (Demo.lit 7500) 5 25 "Dental cleaning"). split.
    + unfold Demo.tuples. apply in_or_app. left.
      unfold Demo.catalog. cbn [In]. tauto.
    + cbn [Demo.categoryIndex]. lia.
  - intros Hlen. split.
    + intros t Ht. apply (tuples_index_bound _ _ Hlen) in Ht.
      destruct (nth_error cats (Demo.categoryIndex t)) as [c|] eqn:E.
      * now exists c.
      * apply nth_error_None in E. lia.
    + exists (expected clock cats 0 (Demo.tuples cats)). split.
      * apply eval_in_range. intros t. now apply tuples_index_bound.
      * now rewrite expected_length, tuples_length.
  - apply tuples_by_length.
  - intros t H. unfold Demo.catalog in H. cbn [In] in H.
    repeat (destruct H as [<-|H]; [cbn [Demo.categoryIndex]; lia|]). destruct H.
  - exists (Demo.mk (Demo.lit 7500) 5 25 "Dental cleaning"). split; [|reflexivity].
    unfold Demo.catalog. cbn [In]. tauto.
  - intros user newDecimal w Hlen.
    unfold createDemoExpenses, Prisma.category_findMany. run.
    unfold Demo.demoExpenses. rewrite eval_out_of_range; [reflexivity|].
    exists (Demo.mk (Demo.lit 7500) 5 25 "Dental cleaning"). split.
    + unfold Demo.tuples. apply in_or_app. left.
      unfold Demo.catalog. cbn [In]. tauto.
    + cbn [Demo.categoryIndex]. lia.
Qed.

Lemma demoExpenses_witness :
  exists entries,
    Demo.demoExpenses (fun _ => Sample.feb5) Sample.seeded = Some entries
    /\ List.length entries = 29.
Proof.
  destruct (demoExpenses_needs_six_categories (fun _ => Sample.feb5) Sample.seeded)
    as (_ & Hsix & _).
  destruct Hsix as (_ & entries & Heval & Hlen); [cbn; lia|].
  exists entries. split; [exact Heval | exact Hlen].
Defined.

Lemma find_category_member (c : Category.t) (cats : list Category.t) :
  In c cats -> exists c', Prisma.find_category (Category.id c) cats = Some c'.
Proof.
  intros Hin. unfold Prisma.find_category.
  destruct (find _ cats) as [c'|] eqn:E; [now exists c'|].
  apply (find_none _ _ E) in Hin. now rewrite String.eqb_refl in Hin.
Qed.

Lemma demo_rows_length user newDecimal (entries : list Demo.Entry) :
  forall ids, List.length (demo_rows user newDecimal ids entries)
              = List.length entries.
Proof.
  induction entries as [|en r IH]; intros ids; cbn; [reflexivity|].
  now rewrite IH.
Qed.

Lemma demo_rows_owned user newDecimal (entries : list Demo.Entry) :
  forall ids x, In x (demo_rows user newDecimal ids entries) ->
                Expense.userId x = user_id user.
Proof.
  induction entries as [|en r IH]; intros ids x Hx; cbn in Hx; [destruct Hx|].
  destruct Hx as [<-|Hx]; [reflexivity|]. now apply (IH _ _ Hx).
Qed.

Lemma for_each_create_run user newDecimal (entries : list Demo.Entry) :
  forall w,
    (forall en, In en entries ->
       exists c, Prisma.find_category (Demo.entry_categoryId en) (categories w)
                 = Some c) ->
    for_each entries
      (fun expense =>
         Prisma.expense_create (demo_data user newDecimal expense) ;; ret tt) w
    = (Ok tt,
       {| categories := categories w;
          expenses := expenses w
                      ++ demo_rows user newDecimal (map Expense.id (expenses w))
                           entries;
          log := log w
                 ++ map (fun en => prisma (expense_create_call
                                             (demo_data user newDecimal en)))
                        entries |}).
Proof.
  induction entries as [|en r IH]; intros w Hcat.
  - cbn. unfold ret. destruct w; cbn. now rewrite !app_nil_r.
  - destruct (Hcat en (or_introl eq_refl)) as [c Hc].
    cbn [for_each]. unfold bind at 1. unfold bind at 1.
    rewrite (expense_create_run (demo_data user newDecimal en)
               (Demo.entry_date en) c w eq_refl Hc).
    unfold ret at 1. rewrite IH.
    + cbn [categories expenses log created data_userId data_amount
           data_categoryId data_note demo_rows map].
      rewrite map_app. cbn [map Expense.id].
      rewrite <- !app_assoc. reflexivity.
    + intros en' Hen'. cbn [categories]. apply Hcat. now right.
Qed.

Lemma expected_categories clock cats (l : list Demo.Tuple) :
  forall k en,
    (forall t, In t l -> Demo.categoryIndex t < List.length cats) ->
    In en (expected clock cats k l) ->
    exists c, Prisma.find_category (Demo.entry_categoryId en) cats = Some c.
Proof.
  induction l as [|t r IH]; intros k en Hall Hin; cbn in Hin; [destruct Hin|].
  destruct Hin as [<-|Hin].
  - cbn. specialize (Hall t (or_introl eq_refl)).
    destruct (nth_error cats (Demo.categoryIndex t)) as [c|] eqn:E.
    + apply find_category_member. now apply nth_error_In in E.
    + apply nth_error_None in E. lia.
  - apply (IH (S k) en); [|exact Hin]. intros t' Ht'. apply Hall. now right.
Qed.

Lemma demo_rows_nth user newDecimal clock cats (l : list Demo.Tuple) :
  forall k ids i t,
    nth_error l i = Some t ->
    exists row,
      nth_error (demo_rows user newDecimal ids (expected clock cats k l)) i
      = Some row
      /\ Expense.userId row = user_id user
      /\ Expense.amount row = newDecimal (Demo.amount t)
      /\ Expense.categoryId row
         = match nth_error cats (Demo.categoryIndex t) with
           | Some c => Category.id c
           | None => ""
           end
      /\ Expense.date row = (clock (k + i)%nat - Demo.day * Demo.dayOffset t)%Z
      /\ Expense.note row = Some (Demo.note t).
Proof.
  induction l as [|t0 r IH]; intros k ids i t Hnth.
  - destruct i; discriminate.
  - destruct i as [|i]; cbn in Hnth.
    + injection Hnth as ->. eexists. split; [reflexivity|].
      cbn. rewrite Nat.add_0_r. repeat split.
    + destruct (IH (S k) (ids ++ [Prisma.new_id ids]) i t Hnth)
        as (row & Hrow & Hrest).
      exists row. split; [exact Hrow|].
      replace (k + S i) with (S k + i) by lia. exact Hrest.
Qed.

Lemma createDemoExpenses_run (user : User) newDecimal clock (w : World) :
  6 <= List.length (categories w) ->
  createDemoExpenses (Some user) newDecimal clock w
  = (Ok tt, seeded_world user newDecimal clock w).
Proof.
  intros Hlen.
  unfold createDemoExpenses, Prisma.category_findMany. run.
  unfold Demo.demoExpenses.
  rewrite eval_in_range by (intros t; now apply tuples_index_bound).
  change (for_each ?l _ ?w0)
    with (for_each l
            (fun expense =>
               Prisma.expense_create (demo_data user newDecimal expense) ;; ret tt)
            w0).
  rewrite for_each_create_run.
  - run. unfold seeded_world, logged. cbn [categories expenses log].
    now rewrite <- !app_assoc.
  - intros en Hen. cbn [categories].
    apply (expected_categories clock (categories w)
             (Demo.tuples (categories w)) 0 en); [|exact Hen].
    intros t. now apply tuples_index_bound.
Qed.

Lemma owned_count_seeded user newDecimal clock (w : World) :
  owned_count (user_id user) (seeded_world user newDecimal clock w)
  = owned_count (user_id user) w + demo_count (List.length (categories w)).
Proof.
  unfold owned_count, seeded_world. cbn [expenses].
  rewrite filter_app, length_app. f_equal.
  rewrite filter_all_true.
  - now rewrite demo_rows_length, expected_length, tuples_length.
  - intros x Hx. unfold owned_by. apply String.eqb_eq.
    now apply demo_rows_owned in Hx.
Qed.

(** C9: with the six categories it needs, [createDemoExpenses] succeeds
    and appends, for the caller, one row per entry of the demo array.  The
    array is the fixed catalog followed by the entries of the 7th, 8th and
    9th category when such a category exists, so the number of rows
    depends on the number of categories only.  The row of the [i]-th
    entry has the entry's amount and note, the id of the category at the
    entry's index, and as date the [i]-th clock reading minus the entry's
    offset in days.  A second call succeeds as well and adds as many rows
    again: two calls give the caller twice the rows of one call. *)
Theorem createDemoExpenses_structure :
  forall (user : User) newDecimal (clock clock' : nat -> Date) (w : World),
    6 <= List.length (categories w) ->
    let n := demo_count (List.length (categories w)) in
    let w1 := snd (createDemoExpenses (Some user) newDecimal clock w) in
    let w2 := snd (createDemoExpenses (Some user) newDecimal clock' w1) in
    fst (createDemoExpenses (Some user) newDecimal clock w) = Ok tt
    /\ Demo.tuples (categories w)
       = Demo.catalog
         ++ (if 7 <=? List.length (categories w) then Demo.travel else [])
         ++ (if 8 <=? List.length (categories w) then Demo.education else [])
         ++ (if 9 <=? List.length (categories w) then Demo.other else [])
    /\ (exists rows,
          expenses w1 = expenses w ++ rows
          /\ List.length rows = n
          /\ forall i t,
               nth_error (Demo.tuples (categories w)) i = Some t ->
               exists c row,
                 nth_error (categories w) (Demo.categoryIndex t) = Some c
                 /\ nth_error rows i = Some row
                 /\ Expense.userId row = user_id user
                 /\ Expense.amount row = newDecimal (Demo.amount t)
                 /\ Expense.categoryId row = Category.id c
                 /\ Expense.date row
                    = (clock i - 86400000 * Demo.dayOffset t)%Z
                 /\ Expense.note row = Some (Demo.note t))
    /\ categories w1 = categories w
    /\ owned_count (user_id user) w1 = owned_count (user_id user) w + n
    /\ fst (createDemoExpenses (Some user) newDecimal clock' w1) = Ok tt
    /\ owned_count (user_id user) w2 = owned_count (user_id user) w + 2 * n
    /\ (owned_count (user_id user) w = 0 ->
        owned_count (user_id user) w2 = 2 * owned_count (user_id user) w1).
Proof.
  intros user newDecimal clock clock' w Hlen n w1 w2. subst w2 w1.
  rewrite (createDemoExpenses_run user newDecimal clock w Hlen).
  cbn [fst snd].
  assert (Hlen1 : 6 <= List.length
                         (categories (seeded_world user newDecimal clock w)))
    by exact Hlen.
  rewrite (createDemoExpenses_run user newDecimal clock' _ Hlen1).
  cbn [fst snd]. rewrite !owned_count_seeded.
  change (categories (seeded_world user newDecimal clock w)) with (categories w).
  fold n.
  split; [reflexivity|]. split; [apply tuples_by_length|]. split.
  { exists (demo_rows user newDecimal (map Expense.id (expenses w))
              (expected clock (categories w) 0 (Demo.tuples (categories w)))).
    split; [reflexivity|]. split.
    - now rewrite demo_rows_length, expected_length, tuples_length.
    - intros i t Hnth.
      assert (Hidx : Demo.categoryIndex t < List.length (categories w)).
      { apply tuples_index_bound; [exact Hlen|]. now apply nth_error_In in Hnth. }
      destruct (nth_error (categories w) (Demo.categoryIndex t)) as [c|] eqn:E.
      2:{ apply nth_error_None in E. lia. }
      destruct (demo_rows_nth user newDecimal clock (categories w)
                  (Demo.tuples (categories w)) 0
                  (map Expense.id (expenses w)) i t Hnth)
        as (row & Hrow & Hu & Ha & Hc & Hd & Hn).
      rewrite E in Hc. exists c, row. repeat split; assumption. }
  split; [reflexivity|]. split; [reflexivity|]. split; [reflexivity|].
  split; [lia|]. intros H0. lia.
Qed.

Lemma createDemoExpenses_structure_witness :
  fst (createDemoExpenses (Some Sample.alice) Sample.newDecimal
         (fun _ => Sample.feb5) Sample.empty) = Ok tt
  /\ owned_count "alice"
       (snd (createDemoExpenses (Some Sample.alice) Sample.newDecimal
               (fun _ => Sample.feb5) Sample.empty)) = 29
  /\ owned_count "alice"
       (snd (createDemoExpenses (Some Sample.alice) Sample.newDecimal
               (fun k => (Sample.feb5 + Z.of_nat k)%Z)
               (snd (createDemoExpenses (Some Sample.alice) Sample.newDecimal
                       (fun _ => Sample.feb5) Sample.empty)))) = 58.
Proof.
  destruct (createDemoExpenses_structure Sample.alice Sample.newDecimal
              (fun _ => Sample.feb5) (fun k => (Sample.feb5 + Z.of_nat k)%Z)
              Sample.empty)
    as (Hok & _ & _ & _ & H1 & _ & H2 & _); [cbn; lia|].
  split; [exact Hok|]. split; [exact H1 | exact H2].
Defined.

(* ===================================================================== *)
(** ** The comparator of the summary is asymmetric *)
(* ===================================================================== *)

Lemma round_aux_negative (mx ex : Z) (lx : location) :
  JsNumber.positive
    (binary_round_aux JsNumber.prec JsNumber.emax true mx ex lx) = false.
Proof.
  unfold binary_round_aux.
  destruct (shr_fexp _ _ mx ex lx) as [mrs' e'].
  destruct (shr_fexp _ _ _ e' loc_Exact) as [mrs'' e''].
  destruct (shr_m mrs'') as [|p|p]; [reflexivity| |reflexivity].
  now destruct (Z.leb e'' _).
Qed.

Lemma normalize_negative (m e : Z) :
  (m <= 0)%Z ->
  JsNumber.positive (binary_normalize JsNumber.prec JsNumber.emax m e false)
  = false.
Proof.
  intros Hm. destruct m as [|p|p]; [reflexivity | lia |].
  unfold binary_normalize, binary_round.
  destruct (shl_align p e _) as [mz ez]. apply round_aux_negative.
Qed.

Lemma normalize_positive (m e : Z) :
  JsNumber.positive (binary_normalize JsNumber.prec JsNumber.emax m e false)
  = true ->
  (0 < m)%Z.
Proof.
  intros H. destruct (Z.ltb_spec 0 m) as [Hm|Hm]; [exact Hm|].
  rewrite normalize_negative in H by exact Hm. discriminate.
Qed.

Lemma sub_finite_asym (sx : bool) (mx : positive) (ex : Z)
    (sy : bool) (my : positive) (ey : Z) :
  JsNumber.positive
    (JsNumber.sub (S754_finite sx mx ex) (S754_finite sy my ey)) = true ->
  JsNumber.positive
    (JsNumber.sub (S754_finite sy my ey) (S754_finite sx mx ex)) = false.
Proof.
  unfold JsNumber.sub, SFsub. cbv zeta. intros H.
  apply normalize_positive in H. apply normalize_negative.
  rewrite (Z.min_comm ey ex).
  destruct sx, sy; cbn [cond_Zopp] in *; lia.
Qed.

(** [x - y > 0] excludes [y - x > 0], for all numbers, NaN and the
    infinities included. *)
Lemma sub_positive_asym (x y : number) :
  JsNumber.positive (JsNumber.sub x y) = true ->
  JsNumber.positive (JsNumber.sub y x) = false.
Proof.
  destruct x as [sx|sx| |sx mx ex], y as [sy|sy| |sy my ey];
    try apply sub_finite_asym;
    try (destruct sx); try (destruct sy); cbn; congruence.
Qed.

(* ===================================================================== *)
(** ** Objects as dictionaries: own keys *)
(* ===================================================================== *)

Section ObjectFacts.

Context {V : Type}.
Implicit Types (o : JsObject.t V) (k : string) (f : V -> V).

Lemma own_none o k : JsObject.own k o = None <-> ~ In k (map fst o).
Proof.
  unfold JsObject.own. split.
  - intros H Hin. apply in_map_iff in Hin. destruct Hin as [p [Hp Hin]].
    destruct (find _ o) as [q|] eqn:E; [discriminate|].
    apply (find_none _ _ E) in Hin. rewrite Hp, String.eqb_refl in Hin.
    discriminate.
  - intros H. destruct (find _ o) as [q|] eqn:E; [|reflexivity].
    apply find_some in E. destruct E as [Hq Hk]. apply String.eqb_eq in Hk.
    exfalso. apply H. rewrite <- Hk. now apply in_map.
Qed.

Lemma own_some o k v : JsObject.own k o = Some v -> In (k, v) o.
Proof.
  unfold JsObject.own. destruct (find _ o) as [[k' v']|] eqn:E; [|discriminate].
  cbn. intros [= ->]. apply find_some in E. destruct E as [Hin Hk].
  apply String.eqb_eq in Hk. cbn in Hk. now subst k'.
Qed.

Lemma update_keys o k f : map fst (JsObject.update k f o) = map fst o.
Proof.
  unfold JsObject.update. rewrite map_map. apply map_ext.
  intros p. now destruct (String.eqb (fst p) k).
Qed.

Lemma update_absent o k f : ~ In k (map fst o) -> JsObject.update k f o = o.
Proof.
  intros H. unfold JsObject.update. rewrite <- (map_id o) at 2.
  apply map_ext_in. intros p Hp.
  destruct (String.eqb_spec (fst p) k) as [E|_]; [|reflexivity].
  exfalso. apply H. rewrite <- E. now apply in_map.
Qed.

Lemma update_twice o k f g :
  JsObject.update k g (JsObject.update k f o)
  = JsObject.update k (fun v => g (f v)) o.
Proof.
  unfold JsObject.update. rewrite map_map. apply map_ext. intros p.
  destruct (String.eqb_spec (fst p) k) as [E|E]; cbn.
  - now rewrite E, String.eqb_refl.
  - now apply String.eqb_neq in E; rewrite E.
Qed.

Lemma update_app (o1 o2 : JsObject.t V) k f :
  JsObject.update k f (o1 ++ o2)
  = JsObject.update k f o1 ++ JsObject.update k f o2.
Proof. unfold JsObject.update. apply map_app. Qed.

Lemma update_In o k f k' v' :
  In (k', v') (JsObject.update k f o) ->
  exists v, In (k', v) o /\ v' = if String.eqb k' k then f v else v.
Proof.
  unfold JsObject.update. intros H. apply in_map_iff in H.
  destruct H as [[k0 v0] [Heq Hin]]. cbn in Heq.
  destruct (String.eqb k0 k) eqn:E; injection Heq as <- <-;
    exists v0; rewrite E; auto.
Qed.

Lemma partition_perm (p : string * V -> bool) o :
  Permutation (filter p o ++ filter (fun x => negb (p x)) o) o.
Proof.
  induction o as [|x r IH]; cbn; [constructor|].
  destruct (p x); cbn.
  - now constructor.
  - apply Permutation_sym, Permutation_cons_app, Permutation_sym, IH.
Qed.

Lemma values_perm o : Permutation (JsObject.values o) (map snd o).
Proof.
  unfold JsObject.values. apply Permutation_map.
  rewrite <- (partition_perm JsObject.is_index o) at 3.
  apply Permutation_app_tail, stable_sort_perm.
Qed.

End ObjectFacts.

(* ===================================================================== *)
(** ** Summarizing *)
(* ===================================================================== *)

Section Grouping.

Variable scale : nat.

Lemma sum_amounts_snoc (l : list Prisma.Joined) (j : Prisma.Joined) :
  sum_amounts scale (l ++ [j]) = JsNumber.add (sum_amounts scale l) (amount_of scale j).
Proof. unfold sum_amounts. now rewrite fold_left_app. Qed.

Lemma group_of_snoc (n : string) (l : list Prisma.Joined) (j : Prisma.Joined) :
  group_of n (l ++ [j])
  = group_of n l ++ (if in_group n j then [j] else []).
Proof. unfold group_of. rewrite filter_app. cbn. now destruct (in_group n j). Qed.

Lemma grouped_nil : grouped scale [] [].
Proof.
  split; [constructor | intros k [] | intros k g [] | intros j n []].
Qed.

Lemma group_of_absent (seen : list Prisma.Joined) (acc : JsObject.t Group.t)
    (n : string) :
  grouped scale seen acc -> ~ In n (map fst acc) ->
  JsObject.inherited n = false -> group_of n seen = [].
Proof.
  intros G Hn Hplain. apply filter_none. intros j Hj. unfold in_group.
  destruct (name_of j) as [m|] eqn:E; [|reflexivity].
  apply String.eqb_neq. intros ->. apply Hn.
  now apply (grouped_all _ _ _ G j n).
Qed.

(** One step of the reduction, in its three cases: the name has its group
    already, the name is new, or the name is one that objects inherit, and
    then the accumulator stays as it is. *)
Lemma byCategory_step_grouped (seen : list Prisma.Joined)
    (acc : JsObject.t Group.t) (j : Prisma.Joined) (c : Category.t) :
  grouped scale seen acc ->
  Prisma.category j = Some c ->
  exists acc', byCategory_step scale acc j = Some acc'
               /\ grouped scale (seen ++ [j]) acc'.
Proof.
  intros G Hc. unfold byCategory_step. rewrite Hc.
  set (n := Category.name c).
  assert (Hname : name_of j = Some n) by (unfold name_of; now rewrite Hc).
  assert (Hin : forall k, in_group k j = String.eqb n k)
    by (intros k; unfold in_group; now rewrite Hname).
  eexists. split; [reflexivity|].
  rewrite update_twice. unfold JsObject.truthy.
  destruct (JsObject.own n acc) as [g0|] eqn:Hown; cbn [negb];
    [|destruct (JsObject.inherited n) eqn:Hplain; cbn [negb]].
  - (* the group exists already *)
    apply own_some in Hown.
    split.
    + rewrite update_keys. apply (grouped_keys _ _ _ G).
    + intros k. rewrite update_keys. apply (grouped_plain _ _ _ G).
    + intros k g Hk. apply update_In in Hk. destruct Hk as [v [Hv ->]].
      destruct (grouped_entry _ _ _ G k v Hv) as (Hnm & Htot & Hcnt & Hne).
      rewrite group_of_snoc, Hin.
      destruct (String.eqb_spec k n) as [->|Hkn].
      * rewrite String.eqb_refl. cbn [Group.name Group.total Group.count].
        rewrite sum_amounts_snoc, length_app, <- Htot, <- Hcnt.
        repeat split; try assumption; try reflexivity.
        intros Habs. now apply app_eq_nil in Habs.
      * assert (E : String.eqb n k = false)
          by (apply String.eqb_neq; congruence).
        rewrite E, app_nil_r. repeat split; assumption.
    + intros j' n' Hj' Hn' Hp'. rewrite update_keys.
      apply in_app_or in Hj'. destruct Hj' as [Hj'|[<-|[]]].
      * now apply (grouped_all _ _ _ G j' n').
      * rewrite Hname in Hn'. injection Hn' as <-.
        apply (in_map fst) in Hown. exact Hown.
  - (* an inherited name: no group is made, none is changed *)
    apply own_none in Hown. rewrite (update_absent acc n _ Hown).
    split.
    + apply (grouped_keys _ _ _ G).
    + apply (grouped_plain _ _ _ G).
    + intros k g Hk.
      destruct (grouped_entry _ _ _ G k g Hk) as (Hnm & Htot & Hcnt & Hne).
      assert (E : String.eqb n k = false).
      { apply String.eqb_neq. intros ->.
        apply (in_map fst) in Hk. apply (grouped_plain _ _ _ G) in Hk.
        cbn [fst] in Hk. congruence. }
      rewrite group_of_snoc, Hin, E, app_nil_r. repeat split; assumption.
    + intros j' n' Hj' Hn' Hp'.
      apply in_app_or in Hj'. destruct Hj' as [Hj'|[<-|[]]].
      * now apply (grouped_all _ _ _ G j' n').
      * rewrite Hname in Hn'. injection Hn' as <-. congruence.
  - (* a new group *)
    apply own_none in Hown. unfold JsObject.set.
    rewrite (proj2 (own_none acc n) Hown).
    rewrite update_app, (update_absent acc n _ Hown).
    unfold JsObject.update at 1.
    cbn [map fst snd Group.name Group.total Group.count].
    rewrite String.eqb_refl.
    pose proof (group_of_absent _ _ n G Hown Hplain) as Hempty.
    split.
    + rewrite map_app. cbn [map fst]. apply NoDup_app.
      * apply (grouped_keys _ _ _ G).
      * repeat constructor. intros [].
      * intros x Hx [<-|[]]. now apply Hown.
    + intros k Hk. rewrite map_app in Hk. cbn [map fst] in Hk.
      apply in_app_or in Hk. destruct Hk as [Hk|[<-|[]]].
      * now apply (grouped_plain _ _ _ G).
      * exact Hplain.
    + intros k g Hk. apply in_app_or in Hk.
      rewrite group_of_snoc, Hin. destruct Hk as [Hk|[Hk|[]]].
      * destruct (grouped_entry _ _ _ G k g Hk) as (Hnm & Htot & Hcnt & Hne).
        assert (E : String.eqb n k = false).
        { apply String.eqb_neq. intros ->. apply Hown.
          now apply (in_map fst) in Hk. }
        rewrite E, app_nil_r. repeat split; assumption.
      * injection Hk as <- <-. rewrite String.eqb_refl, Hempty.
        cbn [app Group.name Group.total Group.count List.length].
        repeat split; try reflexivity. discriminate.
    + intros j' n' Hj' Hn' Hp'. rewrite map_app. cbn [map fst].
      apply in_or_app. apply in_app_or in Hj'. destruct Hj' as [Hj'|[<-|[]]].
      * left. now apply (grouped_all _ _ _ G j' n').
      * right. rewrite Hname in Hn'. injection Hn' as <-. now left.
Qed.

End Grouping.

Lemma reduce_byCategory_grouped (scale : nat) (l : list Prisma.Joined) :
  forall (seen : list Prisma.Joined) (acc : JsObject.t Group.t),
    grouped scale seen acc ->
    (forall j, In j l -> exists c, Prisma.category j = Some c) ->
    exists acc', reduce_byCategory scale l acc = Some acc'
                 /\ grouped scale (seen ++ l) acc'.
Proof.
  induction l as [|j r IH]; intros seen acc G Hall.
  - exists acc. rewrite app_nil_r. now split.
  - destruct (Hall j (or_introl eq_refl)) as (c & Hc).
    destruct (byCategory_step_grouped scale seen acc j c G Hc)
      as (acc1 & Hstep & G1).
    destruct (IH (seen ++ [j]) acc1 G1) as (acc' & Hred & G').
    { intros j' Hj'. apply Hall. now right. }
    exists acc'. cbn [reduce_byCategory]. rewrite Hstep.
    split; [exact Hred|]. now rewrite <- app_assoc in G'.
Qed.

Lemma getDashboardSummary_run (user : User) (scale : nat) (s e : Date) (w : World) :
  getDashboardSummary (Some user) scale s e w
  = match reduce_byCategory scale (fetched (user_id user) s e w) [] with
    | Some acc =>
        (Ok (Summary.mk (sum_amounts scale (fetched (user_id user) s e w))
               (List.length (fetched (user_id user) s e w))
               (stable_sort group_after (JsObject.values acc))),
         logged w [prisma (expense_findMany_call
                             (window_of (user_id user) s e) None None None)])
    | None =>
        (Err TypeError,
         logged w [prisma (expense_findMany_call
                             (window_of (user_id user) s e) None None None)])
    end.
Proof.
  unfold getDashboardSummary, Prisma.expense_findMany. run.
  fold (window_of (user_id user) s e).
  cbn [Prisma.window Prisma.ordered Z.ltb Z.compare Z.to_nat skipn].
  fold (fetched (user_id user) s e w).
  now destruct (reduce_byCategory scale (fetched (user_id user) s e w) []).
Qed.

Example summary_of_test_data :
  fst (getDashboardSummary (Some TestData.user) 2 Sample.jan1 Sample.feb5
         TestData.world)
  = Ok (Summary.mk (JsNumber.of_Z 450) 3
          [ Group.mk "Food" (JsNumber.of_Z 300) 2;
            Group.mk "Transport" (JsNumber.of_Z 150) 1 ]).
Proof. vm_compute. reflexivity. Qed.

Lemma fetched_rows (u : string) (s e : Date) (w : World) (j : Prisma.Joined) :
  In j (fetched u s e w) <->
  exists x, j = Prisma.join (categories w) x
            /\ In x (expenses w)
            /\ Expense.userId x = u
            /\ (s <= Expense.date x <= e)%Z.
Proof.
  unfold fetched. rewrite in_map_iff. split.
  - intros (x & <- & Hx). exists x. apply filter_In in Hx.
    destruct Hx as [Hx Hm].
    apply (matches_in_scope u s e None) in Hm.
    destruct Hm as (Hu & Hd & _). auto.
  - intros (x & -> & Hx & Hu & Hd). exists x. split; [reflexivity|].
    apply filter_In. split; [exact Hx|].
    apply (matches_in_scope u s e None).
    repeat split; try assumption; try lia. discriminate.
Qed.

(** The summary, for any display names: a name that objects inherit gets
    no entry (the accumulator reads it as present and never stores it),
    every other name gets exactly one. *)
Lemma getDashboardSummary_spec (user : User) (scale : nat) (s e : Date)
    (w : World) :
  referential_integrity w ->
  let rows := fetched (user_id user) s e w in
  exists summary,
    getDashboardSummary (Some user) scale s e w
    = (Ok summary,
       logged w [prisma (expense_findMany_call (window_of (user_id user) s e)
                           None None None)])
    /\ Summary.total summary = sum_amounts scale rows
    /\ Summary.count summary = List.length rows
    /\ NoDup (map Group.name (Summary.byCategory summary))
    /\ (forall n, In n (map Group.name (Summary.byCategory summary)) <->
                  (exists j, In j rows /\ name_of j = Some n)
                  /\ JsObject.inherited n = false)
    /\ (forall g, In g (Summary.byCategory summary) ->
          Group.total g = sum_amounts scale (group_of (Group.name g) rows)
          /\ Group.count g = List.length (group_of (Group.name g) rows))
    /\ Sorted descending (Summary.byCategory summary).
Proof.
  intros Hfk rows.
  destruct (reduce_byCategory_grouped scale rows [] [] (grouped_nil scale))
    as (acc & Hred & G).
  { intros j Hj. apply fetched_rows in Hj. destruct Hj as (x & -> & Hx & _).
    destruct (Hfk x Hx) as [c Hc]. now exists c. }
  cbn [app] in G.
  set (groups := stable_sort group_after (JsObject.values acc)).
  assert (Hperm : Permutation groups (map snd acc)).
  { unfold groups. rewrite stable_sort_perm. apply values_perm. }
  assert (Hentry : forall g, In g groups -> In (Group.name g, g) acc).
  { intros g Hg. apply (Permutation_in _ Hperm) in Hg.
    apply in_map_iff in Hg. destruct Hg as [[k g'] [Heq Hin]]. cbn in Heq. subst g'.
    destruct (grouped_entry _ _ _ G k g Hin) as (Hnm & _). now rewrite Hnm. }
  assert (Hnames : Permutation (map Group.name groups) (map fst acc)).
  { rewrite (Permutation_map Group.name Hperm). rewrite map_map.
    replace (map (fun x => Group.name (snd x)) acc) with (map fst acc);
      [reflexivity|].
    apply map_ext_in. intros [k g] Hin. cbn.
    now destruct (grouped_entry _ _ _ G k g Hin) as (-> & _). }
  exists (Summary.mk (sum_amounts scale rows) (List.length rows) groups).
  split.
  { rewrite getDashboardSummary_run. fold rows. now rewrite Hred. }
  split; [reflexivity|]. split; [reflexivity|].
  cbn [Summary.byCategory]. split.
  { apply (Permutation_NoDup (Permutation_sym Hnames)), (grouped_keys _ _ _ G). }
  split.
  { intros n. split.
    - intros Hn. apply (Permutation_in _ Hnames) in Hn.
      split; [|now apply (grouped_plain _ _ _ G)].
      apply in_map_iff in Hn. destruct Hn as [[k g] [Heq Hin]]. cbn in Heq. subst k.
      destruct (grouped_entry _ _ _ G n g Hin) as (_ & _ & _ & Hne).
      destruct (group_of n rows) as [|j r] eqn:E; [congruence|].
      assert (Hj : In j (group_of n rows)) by (rewrite E; now left).
      apply filter_In in Hj. destruct Hj as [Hj Hg]. exists j. split; [exact Hj|].
      unfold in_group in Hg. destruct (name_of j) as [m|]; [|discriminate].
      apply String.eqb_eq in Hg. now subst m.
    - intros ((j & Hj & Hn) & Hp).
      apply (Permutation_in _ (Permutation_sym Hnames)).
      now apply (grouped_all _ _ _ G j n). }
  split.
  { intros g Hg. apply Hentry in Hg.
    destruct (grouped_entry _ _ _ G _ g Hg) as (_ & Htot & Hcnt & _). now split. }
  unfold groups. apply (stable_sort_sorted group_after).
  intros a b. unfold group_after. apply sub_positive_asym.
Qed.

(** Grouping is by display name, not by [categoryId]: two categories of
    one name share an entry. *)
Example same_name_categories_merge :
  fst (getDashboardSummary (Some TestData.user) 2 Sample.jan1 Sample.feb5
         TestData.twins)
  = Ok (Summary.mk (JsNumber.of_Z 300) 2
          [ Group.mk "Food" (JsNumber.of_Z 300) 2 ]).
Proof. vm_compute. reflexivity. Qed.

(** X28: the summary where every display name is plain.  When every
    expense has its category (referential integrity) and no category is
    named like a property that objects inherit, such as "constructor",
    [getDashboardSummary] fetches, with one [findMany] that has no skip
    and no take, all of the caller's expenses dated within
    [startDate, endDate].  [total] is the sum of their amounts and [count]
    their number.  [byCategory] has one entry per distinct display name of
    their categories (rows are grouped by [category.name]), each with the
    sum and the number of the rows of that name, and is in descending
    order of the group totals.  The seeded names are plain.  On the rows
    100 and 200 in "Food" and 150 in "Transport": total 450, count 3, Food
    300 (2) before Transport 150 (1). *)
Theorem getDashboardSummary_groups_by_name :
  forall (user : User) (scale : nat) (startDate endDate : Date) (w : World),
    referential_integrity w ->
    plain_names w ->
    let rows := fetched (user_id user) startDate endDate w in
    exists summary,
      getDashboardSummary (Some user) scale startDate endDate w
      = (Ok summary,
         logged w [prisma (expense_findMany_call
                             (window_of (user_id user) startDate endDate)
                             None None None)])
      /\ (forall j, In j rows <->
            exists x, j = Prisma.join (categories w) x
                      /\ In x (expenses w)
                      /\ Expense.userId x = user_id user
                      /\ (startDate <= Expense.date x <= endDate)%Z)
      /\ Summary.total summary = sum_amounts scale rows
      /\ Summary.count summary = List.length rows
      /\ NoDup (map Group.name (Summary.byCategory summary))
      /\ (forall n, In n (map Group.name (Summary.byCategory summary)) <->
                    exists j, In j rows /\ name_of j = Some n)
      /\ (forall g, In g (Summary.byCategory summary) ->
            Group.total g = sum_amounts scale (group_of (Group.name g) rows)
            /\ Group.count g = List.length (group_of (Group.name g) rows))
      /\ Sorted descending (Summary.byCategory summary)
      /\ fst (getDashboardSummary (Some TestData.user) 2 Sample.jan1 Sample.feb5
                TestData.world)
         = Ok (Summary.mk (JsNumber.of_Z 450) 3
                 [ Group.mk "Food" (JsNumber.of_Z 300) 2;
                   Group.mk "Transport" (JsNumber.of_Z 150) 1 ]).
Proof.
  intros user scale s e w Hfk Hplain rows.
  destruct (getDashboardSummary_spec user scale s e w Hfk)
    as (summary & Hrun & Htotal & Hcount & Hnodup & Hnames & Hgroups & Hsorted).
  exists summary.
  split; [exact Hrun|]. split; [intros j; apply fetched_rows|].
  split; [exact Htotal|]. split; [exact Hcount|]. split; [exact Hnodup|].
  split.
  { intros n. rewrite Hnames. split; [tauto|].
    intros (j & Hj & Hn). split; [now exists j|].
    apply fetched_rows in Hj. destruct Hj as (x & -> & _).
    unfold name_of in Hn. cbn [Prisma.join Prisma.category] in Hn.
    destruct (Prisma.find_category (Expense.categoryId x) (categories w))
      as [c|] eqn:Hc; [|discriminate].
    injection Hn as <-. apply Hplain.
    unfold Prisma.find_category in Hc. now apply find_some in Hc. }
  split; [exact Hgroups|]. split; [exact Hsorted | exact summary_of_test_data].
Qed.

Lemma getDashboardSummary_groups_by_name_witness :
  exists summary,
    fst (getDashboardSummary (Some Sample.alice) Sample.scale Sample.jan1
           Sample.feb5 Sample.world) = Ok summary
    /\ Summary.count summary = 2
    /\ map Group.name (Summary.byCategory summary)
       = ["Transportation"; "Food & Dining"]
    /\ Sorted descending (Summary.byCategory summary).
Proof.
  destruct (getDashboardSummary_groups_by_name Sample.alice Sample.scale
              Sample.jan1 Sample.feb5 Sample.world)
    as (summary & Hrun & _ & _ & _ & _ & _ & _ & Hsorted & _).
  - intros x Hx. cbn in Hx.
    destruct Hx as [<-|[<-|[<-|[]]]]; eexists; reflexivity.
  - intros c Hc. cbn in Hc.
    repeat (destruct Hc as [<-|Hc]; [reflexivity|]). destruct Hc.
  - exists summary. split; [now rewrite Hrun|].
    assert (E : Ok summary
                = fst (getDashboardSummary (Some Sample.alice) Sample.scale
                         Sample.jan1 Sample.feb5 Sample.world))
      by now rewrite Hrun.
    vm_compute in E. injection E as ->.
    split; [reflexivity|]. split; [reflexivity|]. exact Hsorted.
Defined.

(** C2: [getDashboardSummary] does not give every display name its entry.
    The accumulator is an object literal, and [!byCategory[categoryName]]
    reads a name that objects inherit as present.  On two expenses of the
    caller in the window, 100 in "Food" and 200 in a category named
    "constructor", the rows fetched carry the two names, [total] is 300
    and [count] is 2, and [byCategory] holds the entry of "Food" alone:
    no entry stands for "constructor", and the entries' totals and counts
    fall short of [total] and [count]. *)
Theorem getDashboardSummary_misses_inherited_name :
  map name_of (fetched (user_id TestData.user) Sample.jan1 Sample.feb5
                 Fixture.shadow)
  = [Some "Food"; Some "constructor"]
  /\ getDashboardSummary (Some TestData.user) 2 Sample.jan1 Sample.feb5
       Fixture.shadow
     = (Ok (Summary.mk (JsNumber.of_Z 300) 2
              [ Group.mk "Food" (JsNumber.of_Z 100) 1 ]),
        logged Fixture.shadow
          [prisma (expense_findMany_call
                     (window_of (user_id TestData.user) Sample.jan1 Sample.feb5)
                     None None None)])
  /\ ~ (forall n,
          In (Some n)
             (map name_of (fetched (user_id TestData.user) Sample.jan1
                             Sample.feb5 Fixture.shadow)) ->
          forall summary,
            fst (getDashboardSummary (Some TestData.user) 2 Sample.jan1
                   Sample.feb5 Fixture.shadow) = Ok summary ->
            In n (map Group.name (Summary.byCategory summary))).
Proof.
  split; [vm_compute; reflexivity|]. split; [vm_compute; reflexivity|].
  intros H.
  specialize (H "constructor" (or_intror (or_introl eq_refl)) _ eq_refl).
  vm_compute in H. destruct H as [E|[]]. discriminate E.
Qed.

(* ===================================================================== *)
(** ** Binary64 summation against the exact decimal sum *)
(* ===================================================================== *)

(** C6 as stated fails: with the amounts 0.10 and 0.20, the total and
    the category's total are 0.30000000000000004, while the exact decimal
    sum 0.30, converted once, is the number 0.3. *)
Lemma summation_drifts :
  fst (getDashboardSummary (Some Sample.alice) 2 Sample.jan1 Sample.feb5
         Drift.world)
  = Ok (Summary.mk Drift.above_three_tenths 2
          [Group.mk "Food & Dining" Drift.above_three_tenths 2])
  /\ decimal_total 2 Drift.rows = Drift.three_tenths
  /\ Drift.above_three_tenths <> Drift.three_tenths
  /\ JsNumber.ltb (decimal_total 2 Drift.rows) Drift.above_three_tenths = true.
Proof.
  split; [vm_compute; reflexivity|]. split; [vm_compute; reflexivity|].
  split; [discriminate | vm_compute; reflexivity].
Qed.

(** C6, as the code has it: amounts are decimals at rest, and the summary
    adds them as binary64 numbers.  The total is the running sum, from 0
    and from left to right, of each amount converted by [toNumber]; each
    category's total is the same running sum over the rows of that
    category.  It is the exact sum when no addition rounds, as on the
    amounts 100, 200 and 150 of the test (450). *)
Theorem summary_totals_are_binary64_sums :
  forall (user : User) (scale : nat) (startDate endDate : Date) (w : World),
    referential_integrity w ->
    let rows := fetched (user_id user) startDate endDate w in
    exists summary,
      fst (getDashboardSummary (Some user) scale startDate endDate w) = Ok summary
      /\ Summary.total summary
         = fold_left
             (fun sum j =>
                JsNumber.add sum (toNumber scale (Expense.amount (Prisma.row j))))
             rows JsNumber.zero
      /\ (forall g, In g (Summary.byCategory summary) ->
            Group.total g
            = fold_left
                (fun sum j =>
                   JsNumber.add sum
                     (toNumber scale (Expense.amount (Prisma.row j))))
                (filter (in_group (Group.name g)) rows) JsNumber.zero)
      /\ (exists summary',
            fst (getDashboardSummary (Some TestData.user) 2 Sample.jan1
                   Sample.feb5 TestData.world) = Ok summary'
            /\ Summary.total summary'
               = decimal_total 2
                   (fetched "test-user-id" Sample.jan1 Sample.feb5
                      TestData.world)).
Proof.
  intros user scale s e w Hfk rows.
  destruct (getDashboardSummary_spec user scale s e w Hfk)
    as (summary & Hrun & Htotal & _ & _ & _ & Hgroups & _).
  exists summary.
  split; [now rewrite Hrun|]. split; [exact Htotal|]. split.
  - intros g Hg. now destruct (Hgroups g Hg).
  - eexists. split; [exact summary_of_test_data|]. vm_compute. reflexivity.
Qed.

Lemma summary_totals_are_binary64_sums_witness :
  exists summary,
    fst (getDashboardSummary (Some Sample.alice) Sample.scale Sample.jan1
           Sample.feb5 Drift.world) = Ok summary
    /\ Summary.total summary
       = JsNumber.add (JsNumber.add JsNumber.zero (toNumber 2 10%Z))
           (toNumber 2 20%Z).
Proof.
  destruct (summary_totals_are_binary64_sums Sample.alice Sample.scale
              Sample.jan1 Sample.feb5 Drift.world)
    as (summary & Hrun & Htotal & _).
  - intros x Hx. cbn in Hx.
    destruct Hx as [<-|[<-|[]]]; eexists; reflexivity.
  - exists summary. split; [exact Hrun|]. rewrite Htotal. reflexivity.
Defined.


(* ===================================================================== *)
(** ** The invariants of the store are kept *)
(* ===================================================================== *)

Section Invariants.

Context {A B : Type}.

Lemma keeps_ret (a : A) : keeps_invariants (ret a).
Proof. intros w. now split. Qed.

Lemma keeps_throw (e : Error) : keeps_invariants (@throw A e).
Proof. intros w. now split. Qed.

Lemma keeps_bind (c : M A) (k : A -> M B) :
  keeps_invariants c -> (forall a, keeps_invariants (k a)) ->
  keeps_invariants (bind c k).
Proof.
  intros Hc Hk w. unfold bind. destruct (Hc w) as [Hcat Hint].
  destruct (c w) as [[a|e] w1]; cbn [snd] in *.
  - destruct (Hk a w1) as [Hcat' Hint']. split.
    + now rewrite Hcat'.
    + intros H. apply Hint', Hint, H.
  - now split.
Qed.

End Invariants.

Lemma keeps_record (e : Effect) : keeps_invariants (record e).
Proof. intros w. now split. Qed.

Lemma keeps_get_world : keeps_invariants get_world.
Proof. intros w. now split. Qed.

Lemma keeps_subset (l : list Expense.t) (w : World) :
  (forall x, In x l -> In x (expenses w)) ->
  referential_integrity w ->
  referential_integrity
    {| categories := categories w; expenses := l; log := log w |}.
Proof. intros Hsub H x Hx. apply (H x). now apply Hsub. Qed.

(** Chains the rules above through a computation. *)
Ltac keeps :=
  repeat first
    [ apply keeps_ret | apply keeps_throw | apply keeps_record
    | apply keeps_get_world
    | apply keeps_bind; [|intros ?]
    | match goal with
      | |- keeps_invariants (match ?x with _ => _ end) => destruct x
      | |- keeps_invariants (if ?b then _ else _) => destruct b
      end ].

Lemma keeps_category_findMany o : keeps_invariants (Prisma.category_findMany o).
Proof. unfold Prisma.category_findMany. keeps. Qed.

Lemma keeps_expense_count q : keeps_invariants (Prisma.expense_count q).
Proof. unfold Prisma.expense_count. keeps. Qed.

Lemma keeps_expense_findMany q o s t :
  keeps_invariants (Prisma.expense_findMany q o s t).
Proof. unfold Prisma.expense_findMany. keeps. Qed.

Lemma keeps_expense_findUnique i : keeps_invariants (Prisma.expense_findUnique i).
Proof. unfold Prisma.expense_findUnique. keeps. Qed.

(** The world differs in its log only. *)
Ltac only_logged := cbn [snd]; split; [reflexivity | intros H; exact H].

Lemma keeps_expense_create d : keeps_invariants (Prisma.expense_create d).
Proof.
  intros w. unfold Prisma.expense_create. run.
  destruct (data_date d) as [t|]; [|only_logged].
  destruct (Prisma.find_category (data_categoryId d) (categories w)) as [c|] eqn:E;
    [|destruct (data_date d); only_logged].
  cbn [snd categories]. split; [reflexivity|].
  intros H x Hx. cbn [expenses categories] in *.
  apply in_app_or in Hx. destruct Hx as [Hx|[<-|[]]].
  - now apply H.
  - now exists c.
Qed.

Lemma keeps_expense_delete i : keeps_invariants (Prisma.expense_delete i).
Proof.
  intros w. unfold Prisma.expense_delete. run.
  destruct (existsb _ (expenses w)); [|only_logged].
  cbn [snd categories]. split; [reflexivity|].
  intros H. apply (keeps_subset _ (logged w [prisma (expense_delete_call i)])).
  - intros x Hx. apply filter_In in Hx. cbn. tauto.
  - exact H.
Qed.

Lemma keeps_expense_deleteMany q : keeps_invariants (Prisma.expense_deleteMany q).
Proof.
  intros w. unfold Prisma.expense_deleteMany. run.
  cbn [snd categories]. split; [reflexivity|].
  intros H. apply (keeps_subset _ (logged w [prisma (expense_deleteMany_call q)])).
  - intros x Hx. apply filter_In in Hx. cbn. tauto.
  - exact H.
Qed.

Lemma keeps_for_each {A} (l : list A) (body : A -> M unit) :
  (forall x, keeps_invariants (body x)) -> keeps_invariants (for_each l body).
Proof.
  intros Hbody. induction l as [|x r IH]; cbn [for_each].
  - apply keeps_ret.
  - apply keeps_bind; [apply Hbody | intros _; exact IH].
Qed.

(** The rules of the store's calls first, then those of the monad. *)
Ltac keeps_action :=
  repeat first
    [ apply keeps_category_findMany | apply keeps_expense_count
    | apply keeps_expense_findMany | apply keeps_expense_findUnique
    | apply keeps_expense_create | apply keeps_expense_delete
    | apply keeps_expense_deleteMany
    | apply keeps_for_each; intros ?
    | apply keeps_ret | apply keeps_throw | apply keeps_record
    | apply keeps_bind; [|intros ?]
    | match goal with
      | |- keeps_invariants (match ?x with _ => _ end) => destruct x
      | |- keeps_invariants (if ?b then _ else _) => destruct b
      end ].

(** No action changes the category table, and every action keeps the
    foreign key of the expenses: the two hypotheses of the summary
    theorems hold of every world the actions reach from one where they
    hold. *)
Lemma handle_keeps_invariants session scale newDecimal parseDate (r : Request) :
  keeps_invariants (handle session scale newDecimal parseDate r).
Proof.
  destruct r; unfold handle, getCategories, getExpenses, getDashboardSummary,
    createExpense, deleteExpense, clearAllExpenses, createDemoExpenses,
    getUser, revalidatePath; keeps_action.
Qed.

Lemma handle_keeps_plain_names session scale newDecimal parseDate
    (r : Request) (w : World) :
  plain_names w ->
  plain_names (snd (handle session scale newDecimal parseDate r w)).
Proof.
  intros H c Hc. apply H.
  now rewrite (proj1 (handle_keeps_invariants session scale newDecimal
                        parseDate r w)) in Hc.
Qed.

(* ===================================================================== *)
(** ** Deleting one's own expense *)
(* ===================================================================== *)

Lemma deleteExpense_run (user : User) (i : string) (x : Expense.t) (w : World) :
  find (fun e => String.eqb (Expense.id e) i) (expenses w) = Some x ->
  Expense.userId x = user_id user ->
  deleteExpense (Some user) i w
  = (Ok tt,
     {| categories := categories w;
        expenses := filter (fun e => negb (String.eqb (Expense.id e) i))
                      (expenses w);
        log := log w ++ [ prisma (expense_findUnique_call i);
                          prisma (expense_delete_call i);
                          revalidate "/"; revalidate "/expenses" ] |}).
Proof.
  intros Hfind Hown.
  assert (Hex : existsb (fun e => String.eqb (Expense.id e) i) (expenses w) = true).
  { apply existsb_exists. exists x. now apply find_some in Hfind. }
  unfold deleteExpense, Prisma.expense_findUnique, Prisma.expense_delete. run.
  rewrite Hfind, Hown, String.eqb_refl. cbn [negb]. run. rewrite Hex.
  cbn. now rewrite <- !app_assoc.
Qed.

Lemma deleteExpense_refused (user : User) (i : string) (w : World) :
  match find (fun e => String.eqb (Expense.id e) i) (expenses w) with
  | Some x => Expense.userId x <> user_id user
  | None => True
  end ->
  deleteExpense (Some user) i w
  = (Err NotFoundOrUnauthorized,
     logged w [prisma (expense_findUnique_call i)]).
Proof.
  intros H. unfold deleteExpense, Prisma.expense_findUnique. run.
  destruct (find _ (expenses w)) as [x|]; [|reflexivity].
  apply String.eqb_neq in H. now rewrite H.
Qed.

(** With unique ids, the row found under an id is the row that has it. *)
Lemma unique_find (l : list Expense.t) (x : Expense.t) :
  NoDup (map Expense.id l) -> In x l ->
  find (fun e => String.eqb (Expense.id e) (Expense.id x)) l = Some x.
Proof.
  induction l as [|a l IH]; intros Hnd Hin; [destruct Hin|].
  cbn in Hnd. inversion Hnd as [|? ? Hnot Hnd']; subst. cbn.
  destruct Hin as [->|Hin].
  - now rewrite String.eqb_refl.
  - destruct (String.eqb_spec (Expense.id a) (Expense.id x)) as [E|_].
    + exfalso. apply Hnot. rewrite E. now apply in_map.
    + now apply IH.
Qed.

Lemma unique_split (l : list Expense.t) (x : Expense.t) :
  NoDup (map Expense.id l) -> In x l ->
  exists l1 l2,
    l = l1 ++ x :: l2
    /\ filter (fun e => negb (String.eqb (Expense.id e) (Expense.id x))) l
       = l1 ++ l2.
Proof.
  intros Hnd Hin. destruct (in_split x l Hin) as (l1 & l2 & ->).
  exists l1, l2. split; [reflexivity|].
  rewrite map_app in Hnd. cbn [map] in Hnd.
  pose proof (NoDup_remove_2 _ _ _ Hnd) as Hnot.
  rewrite filter_app. cbn [filter]. rewrite String.eqb_refl. cbn [negb].
  rewrite !filter_all_true; [reflexivity| |].
  - intros y Hy. apply negb_true_iff, String.eqb_neq. intros E.
    apply Hnot. apply in_or_app. right. rewrite <- E. now apply in_map.
  - intros y Hy. apply negb_true_iff, String.eqb_neq. intros E.
    apply Hnot. apply in_or_app. left. rewrite <- E. now apply in_map.
Qed.

(** X1: a resolved caller deletes an expense of their own (ids being
    unique): [deleteExpense] succeeds, that one row leaves the table, every
    other row stays where it was, the categories are untouched, and the
    effects are the lookup, the delete and the two revalidations, in that
    order. *)
Theorem deleteExpense_removes_own_row :
  forall (user : User) (x : Expense.t) (w : World),
    unique_ids w ->
    In x (expenses w) ->
    Expense.userId x = user_id user ->
    let w1 := snd (deleteExpense (Some user) (Expense.id x) w) in
    fst (deleteExpense (Some user) (Expense.id x) w) = Ok tt
    /\ (exists before after,
          expenses w = before ++ x :: after
          /\ expenses w1 = before ++ after)
    /\ (forall y, In y (expenses w1) <-> In y (expenses w) /\ y <> x)
    /\ categories w1 = categories w
    /\ log w1 = log w ++ [ prisma (expense_findUnique_call (Expense.id x));
                           prisma (expense_delete_call (Expense.id x));
                           revalidate "/"; revalidate "/expenses" ].
Proof.
  intros user x w Hnd Hin Hown w1. subst w1.
  rewrite (deleteExpense_run user (Expense.id x) x w
             (unique_find _ _ Hnd Hin) Hown).
  cbn [fst snd expenses categories log].
  destruct (unique_split _ _ Hnd Hin) as (l1 & l2 & Hl & Hf).
  split; [reflexivity|]. split; [now exists l1, l2|].
  split; [|split; reflexivity].
  intros y. rewrite filter_In, negb_true_iff, String.eqb_neq. split.
  - intros [Hy Hid]. split; [exact Hy|]. now intros ->.
  - intros [Hy Hne]. split; [exact Hy|]. intros E. apply Hne.
    unfold unique_ids in Hnd.
    pose proof (unique_find _ _ Hnd Hy) as F1.
    pose proof (unique_find _ _ Hnd Hin) as F2.
    rewrite E in F1. congruence.
Qed.

Lemma deleteExpense_removes_own_row_witness :
  fst (deleteExpense (Some Sample.alice) "e3" Sample.world) = Ok tt
  /\ expenses (snd (deleteExpense (Some Sample.alice) "e3" Sample.world))
     = [Sample.e1; Sample.e2].
Proof.
  destruct (deleteExpense_removes_own_row Sample.alice Sample.e3 Sample.world)
    as (Hok & _).
  - vm_compute. repeat constructor; cbn; intuition discriminate.
  - cbn. auto.
  - reflexivity.
  - split; [exact Hok | reflexivity].
Defined.

(** Whatever a listing returns is a view of a row of the table. *)
Lemma window_In (skip take : option Z) (l rows : list Expense.t) (x : Expense.t) :
  Prisma.window skip take l = Some rows -> In x rows -> In x l.
Proof.
  unfold Prisma.window.
  destruct (match skip with Some s => s | None => 0%Z end <? 0)%Z; [discriminate|].
  destruct take as [t|].
  - destruct (0 <=? t)%Z; intros [= <-] Hx.
    + now apply In_firstn_skipn in Hx.
    + rewrite <- in_rev in Hx. apply In_firstn_skipn in Hx.
      now rewrite <- in_rev in Hx.
  - intros [= <-] Hx.
    rewrite <- (firstn_skipn (Z.to_nat match skip with
                                         | Some s => s | None => 0%Z end) l).
    apply in_or_app. now right.
Qed.

Lemma getExpenses_rows (session : option User) (scale : nat) (s e : Date)
    (c : option string) (sortBy : option SortBy) (page pageSize : option Z)
    (w : World) (r : ExpensesPage.t) (v : ExpenseView.t) :
  fst (getExpenses session scale s e c sortBy page pageSize w) = Ok r ->
  In v (ExpensesPage.data r) ->
  exists (user : User) (x : Expense.t),
    session = Some user
    /\ In x (expenses w)
    /\ Prisma.matches (where_of (user_id user) s e c) x = true
    /\ v = view scale (Prisma.join (categories w) x).
Proof.
  unfold getExpenses, Prisma.expense_count, Prisma.expense_findMany. run.
  destruct session as [user|]; [|discriminate].
  rewrite category_filter_code. fold (where_of (user_id user) s e c).
  destruct (Prisma.window _ _ _) as [rows|] eqn:Hwin; [|discriminate].
  cbn [fst]. intros [= <-] Hv. cbn [ExpensesPage.data] in Hv.
  rewrite map_map in Hv. apply in_map_iff in Hv. destruct Hv as (x & <- & Hx).
  apply (window_In _ _ _ _ _ Hwin) in Hx.
  unfold Prisma.ordered in Hx. apply stable_sort_In in Hx.
  apply filter_In in Hx. exists user, x. tauto.
Qed.

(** X2: once an expense is deleted it is gone for good: a second
    [deleteExpense] with the same id is refused like an unknown id and
    changes nothing, and no listing, of any caller and with any arguments,
    returns a row with that id any more. *)
Theorem deleted_expense_is_gone :
  forall (user : User) (x : Expense.t) (w : World),
    unique_ids w ->
    In x (expenses w) ->
    Expense.userId x = user_id user ->
    let w1 := snd (deleteExpense (Some user) (Expense.id x) w) in
    fst (deleteExpense (Some user) (Expense.id x) w1)
    = Err NotFoundOrUnauthorized
    /\ expenses (snd (deleteExpense (Some user) (Expense.id x) w1))
       = expenses w1
    /\ forall session scale s e c sortBy page pageSize r,
         fst (getExpenses session scale s e c sortBy page pageSize w1) = Ok r ->
         ~ In (Expense.id x) (map ExpenseView.id (ExpensesPage.data r)).
Proof.
  intros user x w Hnd Hin Hown w1. subst w1.
  rewrite (deleteExpense_run user (Expense.id x) x w
             (unique_find _ _ Hnd Hin) Hown).
  cbn [snd].
  set (w1 := {| categories := categories w; expenses := _; log := _ |}).
  assert (Hgone : forall y, In y (expenses w1) -> Expense.id y <> Expense.id x).
  { intros y Hy. cbn in Hy. apply filter_In in Hy.
    destruct Hy as [_ Hy]. now apply negb_true_iff, String.eqb_neq in Hy. }
  assert (Hrefused : deleteExpense (Some user) (Expense.id x) w1
                     = (Err NotFoundOrUnauthorized,
                        logged w1 [prisma (expense_findUnique_call (Expense.id x))])).
  { apply deleteExpense_refused.
    destruct (find _ (expenses w1)) as [y|] eqn:E; [|exact I].
    apply find_some in E. destruct E as [Hy Hid]. apply String.eqb_eq in Hid.
    now apply Hgone in Hy. }
  rewrite Hrefused. split; [reflexivity|]. split; [reflexivity|].
  intros session scale s e c sortBy page pageSize r Hr Habs.
  apply in_map_iff in Habs. destruct Habs as (v & Hid & Hv).
  destruct (getExpenses_rows _ _ _ _ _ _ _ _ _ _ _ Hr Hv)
    as (u & y & _ & Hy & _ & ->).
  cbn in Hid. now apply (Hgone y Hy).
Qed.

Lemma deleted_expense_is_gone_witness :
  fst (deleteExpense (Some Sample.alice) "e1"
         (snd (deleteExpense (Some Sample.alice) "e1" Sample.world)))
  = Err NotFoundOrUnauthorized.
Proof.
  apply (deleted_expense_is_gone Sample.alice Sample.e1 Sample.world).
  - vm_compute. repeat constructor; cbn; intuition discriminate.
  - cbn. auto.
  - reflexivity.
Defined.

Lemma find_app_fresh {A} (f : A -> bool) (l : list A) (x : A) :
  (forall y, In y l -> f y = false) -> f x = true ->
  find f (l ++ [x]) = Some x.
Proof.
  intros Hl Hx. induction l as [|a l IH]; cbn.
  - now rewrite Hx.
  - rewrite (Hl a (or_introl eq_refl)). apply IH.
    intros y Hy. apply Hl. now right.
Qed.

(** X3: creating an expense and then deleting the row that was created
    brings the expense table back to what it was, row for row; the
    category table is the same throughout. *)
Theorem create_then_delete_restores :
  forall (user : User) newDecimal parseDate (data : CreateInput.t) (t : Date)
         (c : Category.t) (w : World),
    JsNumber.positive (CreateInput.amount data) = true ->
    parseDate (CreateInput.date data) = Some t ->
    Prisma.find_category (CreateInput.categoryId data) (categories w) = Some c ->
    let w1 := snd (createExpense (Some user) newDecimal parseDate data w) in
    let new := created w (create_data user newDecimal parseDate data) t in
    expenses w1 = expenses w ++ [new]
    /\ fst (deleteExpense (Some user) (Expense.id new) w1) = Ok tt
    /\ expenses (snd (deleteExpense (Some user) (Expense.id new) w1))
       = expenses w
    /\ categories (snd (deleteExpense (Some user) (Expense.id new) w1))
       = categories w.
Proof.
  intros user newDecimal parseDate data t c w Hpos Hdate Hcat w1 new. subst w1.
  rewrite (createExpense_run user newDecimal parseDate data t c w Hpos Hdate Hcat).
  cbn [snd]. fold new.
  set (w1 := {| categories := categories w; expenses := _; log := _ |}).
  assert (Hfresh : forall y, In y (expenses w) ->
                     String.eqb (Expense.id y) (Expense.id new) = false).
  { intros y Hy. apply String.eqb_neq. intros E.
    apply (new_id_fresh (map Expense.id (expenses w))).
    change (Prisma.new_id (map Expense.id (expenses w))) with (Expense.id new).
    rewrite <- E. now apply in_map. }
  assert (Hfind : find (fun e => String.eqb (Expense.id e) (Expense.id new))
                    (expenses w1) = Some new).
  { cbn [w1 expenses]. apply find_app_fresh; [exact Hfresh|].
    apply String.eqb_refl. }
  rewrite (deleteExpense_run user (Expense.id new) new w1 Hfind eq_refl).
  cbn [fst snd expenses categories w1].
  split; [reflexivity|]. split; [reflexivity|]. split; [|reflexivity].
  rewrite filter_app. cbn [filter]. rewrite String.eqb_refl. cbn [negb].
  rewrite app_nil_r. apply filter_all_true.
  intros y Hy. now rewrite (Hfresh y Hy).
Qed.

Lemma create_then_delete_restores_witness :
  expenses
    (snd (deleteExpense (Some Sample.alice) "ee1e2e3"
            (snd (createExpense (Some Sample.alice) Sample.newDecimal
                    Sample.parseDate Sample.input Sample.world))))
  = expenses Sample.world.
Proof.
  apply (create_then_delete_restores Sample.alice Sample.newDecimal
           Sample.parseDate Sample.input Sample.feb5
           (Category.mk "c1" "Food & Dining") Sample.world);
    reflexivity.
Defined.

(* ===================================================================== *)
(** ** What the actions leave alone *)
(* ===================================================================== *)

Lemma createDemoExpenses_too_few (user : User) newDecimal clock (w : World) :
  List.length (categories w) < 6 ->
  createDemoExpenses (Some user) newDecimal clock w
  = (Err TypeError, logged w [prisma (category_findMany_call None)]).
Proof.
  intros Hlen. unfold createDemoExpenses, Prisma.category_findMany. run.
  unfold Demo.demoExpenses. rewrite eval_out_of_range; [reflexivity|].
  exists (Demo.mk (Demo.lit 7500) 5 25 "Dental cleaning"). split.
  - unfold Demo.tuples. apply in_or_app. left.
    unfold Demo.catalog. cbn [In]. tauto.
  - cbn [Demo.categoryIndex]. lia.
Qed.

Lemma getExpenses_tables (session : option User) (scale : nat) (s e : Date)
    (c : option string) (sortBy : option SortBy) (page pageSize : option Z)
    (w : World) :
  let w1 := snd (getExpenses session scale s e c sortBy page pageSize w) in
  expenses w1 = expenses w /\ categories w1 = categories w.
Proof.
  unfold getExpenses, Prisma.expense_count, Prisma.expense_findMany. run.
  destruct session as [user|]; [|now split].
  destruct (Prisma.window _ _ _); now split.
Qed.

Lemma getDashboardSummary_tables (session : option User) (scale : nat)
    (s e : Date) (w : World) :
  let w1 := snd (getDashboardSummary session scale s e w) in
  expenses w1 = expenses w /\ categories w1 = categories w.
Proof.
  destruct session as [user|]; [|now split].
  rewrite getDashboardSummary_run.
  destruct (reduce_byCategory _ _ _); now split.
Qed.

Lemma handle_bind {A} (c : M A) (f : A -> Response) (w : World) :
  snd (bind c (fun a => ret (f a)) w) = snd (c w)
  /\ succeeded (fst (bind c (fun a => ret (f a)) w)) = succeeded (fst (c w)).
Proof. unfold bind, ret. now destruct (c w) as [[a|e] w1]. Qed.

(** X4: the three reading actions, [getCategories], [getExpenses] and
    [getDashboardSummary], never change a table: whatever the session,
    the arguments and the outcome, the expense table and the category
    table are afterwards what they were. *)
Theorem reads_change_no_table :
  forall session scale newDecimal parseDate (r : Request) (w : World),
    is_mutation r = false ->
    expenses (snd (handle session scale newDecimal parseDate r w)) = expenses w
    /\ categories (snd (handle session scale newDecimal parseDate r w))
       = categories w.
Proof.
  intros session scale newDecimal parseDate r w Hr.
  destruct r; try discriminate; unfold handle;
    rewrite (proj1 (handle_bind _ _ _)).
  - now split.
  - apply getExpenses_tables.
  - apply getDashboardSummary_tables.
Qed.

Lemma reads_change_no_table_witness :
  expenses (snd (handle (Some Sample.alice) Sample.scale Sample.newDecimal
                   Sample.parseDate
                   (get_expenses Sample.jan1 Sample.feb5 None None
                      (Some 0%Z) None)
                   Sample.world))
  = expenses Sample.world.
Proof.
  apply (reads_change_no_table (Some Sample.alice) Sample.scale
           Sample.newDecimal Sample.parseDate
           (get_expenses Sample.jan1 Sample.feb5 None None (Some 0%Z) None)
           Sample.world).
  reflexivity.
Defined.

(** X5: the cache is revalidated by a write that succeeded, and by nothing
    else.  Whatever the request, the effects it adds are calls on the
    store, followed by the revalidation of "/" and of "/expenses" exactly
    when the request is a write (create, delete, clear, demo) and it
    succeeded; a read and a failed write revalidate nothing. *)
Theorem revalidation_follows_success :
  forall session scale newDecimal parseDate (r : Request) (w : World),
    exists calls : list PrismaCall,
      log (snd (handle session scale newDecimal parseDate r w))
      = log w ++ map prisma calls
        ++ (if is_mutation r
               && succeeded (fst (handle session scale newDecimal parseDate r w))
            then [revalidate "/"; revalidate "/expenses"] else []).
Proof.
  intros session scale newDecimal parseDate r w.
  destruct r; unfold handle;
    rewrite (proj1 (handle_bind _ _ _)), (proj2 (handle_bind _ _ _));
    cbn [is_mutation andb].
  - exists [category_findMany_call (Some asc)]. reflexivity.
  - unfold getExpenses, Prisma.expense_count, Prisma.expense_findMany. run.
    destruct session as [user|].
    + destruct (Prisma.window _ _ _); eexists [_; _]; cbn;
        rewrite <- app_assoc; reflexivity.
    + exists []. cbn. now rewrite app_nil_r.
  - destruct session as [user|].
    + rewrite getDashboardSummary_run.
      destruct (reduce_byCategory _ _ _); eexists [_]; reflexivity.
    + exists []. cbn. now rewrite app_nil_r.
  - unfold createExpense, Prisma.expense_create. run.
    destruct session as [user|]; [|exists []; cbn; now rewrite app_nil_r].
    destruct (JsNumber.leb _ _); [exists []; cbn; now rewrite app_nil_r|].
    destruct (parseDate _) as [t|];
      [destruct (Prisma.find_category _ _)|];
      eexists [_]; cbn; rewrite <- ?app_assoc; reflexivity.
  - unfold deleteExpense, Prisma.expense_findUnique, Prisma.expense_delete. run.
    destruct session as [user|]; [|exists []; cbn; now rewrite app_nil_r].
    destruct (find _ _) as [x|]; [|eexists [_]; reflexivity].
    destruct (negb _); [eexists [_]; reflexivity|]. run.
    destruct (existsb _ _); eexists [_; _]; cbn;
      rewrite <- ?app_assoc; reflexivity.
  - destruct session as [user|]; [|exists []; cbn; now rewrite app_nil_r].
    rewrite clearAllExpenses_run. eexists [_]. reflexivity.
  - destruct session as [user|]; [|exists []; cbn; now rewrite app_nil_r].
    destruct (Nat.le_gt_cases 6 (List.length (categories w))) as [Hlen|Hlen].
    + rewrite (createDemoExpenses_run user newDecimal clock w Hlen).
      cbn [fst snd succeeded seeded_world log].
      eexists (category_findMany_call None
               :: map (fun en => expense_create_call (demo_data user newDecimal en)) _).
      cbn [map]. rewrite map_map. reflexivity.
    + rewrite (createDemoExpenses_too_few user newDecimal clock w Hlen).
      eexists [_]. reflexivity.
Qed.

(* ===================================================================== *)
(** ** Unique ids *)
(* ===================================================================== *)

(** Dropping rows keeps the ids unique. *)
Lemma unique_ids_filter (keep : Expense.t -> bool) (rows : list Expense.t) :
  NoDup (map Expense.id rows) -> NoDup (map Expense.id (filter keep rows)).
Proof.
  intros Hnd. induction rows as [|x rows IH]; [constructor|].
  cbn [map] in Hnd. apply NoDup_cons_iff in Hnd. destruct Hnd as [Hx Hnd].
  cbn [filter]. destruct (keep x); [|now apply IH].
  cbn [map]. apply NoDup_cons; [|now apply IH].
  rewrite in_map_iff. intros (y & Hid & Hy). apply filter_In in Hy.
  apply Hx. rewrite <- Hid. apply in_map. tauto.
Qed.

Section UniqueIds.

Context {A B : Type}.

Lemma ids_ret (a : A) : keeps_unique_ids (ret a).
Proof. intros w H. exact H. Qed.

Lemma ids_throw (e : Error) : keeps_unique_ids (@throw A e).
Proof. intros w H. exact H. Qed.

Lemma ids_bind (c : M A) (k : A -> M B) :
  keeps_unique_ids c -> (forall a, keeps_unique_ids (k a)) ->
  keeps_unique_ids (bind c k).
Proof.
  intros Hc Hk w H. unfold bind. specialize (Hc w H).
  destruct (c w) as [[a|e] w1]; cbn [snd] in *; [now apply Hk | exact Hc].
Qed.

End UniqueIds.

Lemma ids_record (e : Effect) : keeps_unique_ids (record e).
Proof. intros w H. exact H. Qed.

Lemma ids_get_world : keeps_unique_ids get_world.
Proof. intros w H. exact H. Qed.

Ltac ids :=
  repeat first
    [ apply ids_ret | apply ids_throw | apply ids_record | apply ids_get_world
    | apply ids_bind; [|intros ?]
    | match goal with
      | |- keeps_unique_ids (match ?x with _ => _ end) => destruct x
      | |- keeps_unique_ids (if ?b then _ else _) => destruct b
      end ].

Lemma ids_category_findMany o : keeps_unique_ids (Prisma.category_findMany o).
Proof. unfold Prisma.category_findMany. ids. Qed.

Lemma ids_expense_count q : keeps_unique_ids (Prisma.expense_count q).
Proof. unfold Prisma.expense_count. ids. Qed.

Lemma ids_expense_findMany q o s t :
  keeps_unique_ids (Prisma.expense_findMany q o s t).
Proof. unfold Prisma.expense_findMany. ids. Qed.

Lemma ids_expense_findUnique i : keeps_unique_ids (Prisma.expense_findUnique i).
Proof. unfold Prisma.expense_findUnique. ids. Qed.

Lemma ids_expense_create d : keeps_unique_ids (Prisma.expense_create d).
Proof.
  intros w H. unfold Prisma.expense_create. run.
  destruct (data_date d) as [t|]; [|exact H].
  destruct (Prisma.find_category _ _); [|exact H].
  unfold unique_ids in *. cbn [snd expenses]. rewrite map_app. cbn [map Expense.id].
  apply NoDup_app; [exact H | repeat constructor; intros [] |].
  intros x Hx [<-|[]]. now apply new_id_fresh in Hx.
Qed.

Lemma ids_expense_delete i : keeps_unique_ids (Prisma.expense_delete i).
Proof.
  intros w H. unfold Prisma.expense_delete. run.
  destruct (existsb _ _); [|exact H].
  now apply unique_ids_filter.
Qed.

Lemma ids_expense_deleteMany q : keeps_unique_ids (Prisma.expense_deleteMany q).
Proof.
  intros w H. unfold Prisma.expense_deleteMany. run. now apply unique_ids_filter.
Qed.

Lemma ids_for_each {A} (l : list A) (body : A -> M unit) :
  (forall x, keeps_unique_ids (body x)) -> keeps_unique_ids (for_each l body).
Proof.
  intros Hbody. induction l as [|x r IH]; cbn [for_each].
  - apply ids_ret.
  - apply ids_bind; [apply Hbody | intros _; exact IH].
Qed.

Ltac ids_action :=
  repeat first
    [ apply ids_category_findMany | apply ids_expense_count
    | apply ids_expense_findMany | apply ids_expense_findUnique
    | apply ids_expense_create | apply ids_expense_delete
    | apply ids_expense_deleteMany
    | apply ids_for_each; intros ?
    | apply ids_ret | apply ids_throw | apply ids_record
    | apply ids_bind; [|intros ?]
    | match goal with
      | |- keeps_unique_ids (match ?x with _ => _ end) => destruct x
      | |- keeps_unique_ids (if ?b then _ else _) => destruct b
      end ].

Lemma handle_keeps_unique_ids session scale newDecimal parseDate (r : Request) :
  keeps_unique_ids (handle session scale newDecimal parseDate r).
Proof.
  destruct r; unfold handle, getCategories, getExpenses, getDashboardSummary,
    createExpense, deleteExpense, clearAllExpenses, createDemoExpenses,
    getUser, revalidatePath; ids_action.
Qed.

(** X6: the store stays well-formed under every run of requests, whoever
    the callers are and whatever the outcomes.  No action ever writes the
    category table; and if, at the start, every expense has its category,
    no two expenses share an id and no category is named like an inherited
    property, then the same holds after the run. *)
Theorem store_stays_well_formed :
  forall scale newDecimal parseDate
         (requests : list (option User * Request)) (w : World),
    let w1 := serve scale newDecimal parseDate requests w in
    categories w1 = categories w
    /\ (referential_integrity w -> referential_integrity w1)
    /\ (unique_ids w -> unique_ids w1)
    /\ (plain_names w -> plain_names w1).
Proof.
  intros scale newDecimal parseDate requests.
  induction requests as [|[session r] rs IH]; intros w; cbn.
  - tauto.
  - unfold serve in *. cbn [fold_left fst snd].
    set (w1 := snd (handle session scale newDecimal parseDate r w)).
    destruct (IH w1) as (Hc & Hr & Hu & Hp).
    destruct (handle_keeps_invariants session scale newDecimal parseDate r w)
      as [Hc1 Hr1].
    pose proof (handle_keeps_unique_ids session scale newDecimal parseDate r w)
      as Hu1.
    pose proof (handle_keeps_plain_names session scale newDecimal parseDate r w)
      as Hp1.
    fold w1 in Hc1, Hr1, Hu1, Hp1.
    split; [congruence|]. repeat split; auto.
Qed.

Lemma store_stays_well_formed_witness :
  referential_integrity
    (serve Sample.scale Sample.newDecimal Sample.parseDate Fixture.requests
       Sample.world)
  /\ unique_ids
       (serve Sample.scale Sample.newDecimal Sample.parseDate Fixture.requests
          Sample.world).
Proof.
  pose proof (store_stays_well_formed Sample.scale Sample.newDecimal
                Sample.parseDate Fixture.requests Sample.world) as H.
  cbv zeta in H. destruct H as (_ & Hfk & Hids & _). split.
  - apply Hfk. intros x Hx. cbn in Hx.
    destruct Hx as [<-|[<-|[<-|[]]]]; eexists; reflexivity.
  - apply Hids. vm_compute. repeat constructor; cbn; intuition discriminate.
Defined.

(* ===================================================================== *)
(** ** Callers do not interfere *)
(* ===================================================================== *)

Lemma filter_filter_implied {A} (f g : A -> bool) (l : list A) :
  (forall y, In y l -> f y = true -> g y = true) ->
  filter f (filter g l) = filter f l.
Proof.
  induction l as [|a l IH]; intros H; cbn; [reflexivity|].
  assert (IH' : filter f (filter g l) = filter f l)
    by (apply IH; intros y Hy; apply H; now right).
  destruct (g a) eqn:G; cbn.
  - now rewrite IH'.
  - destruct (f a) eqn:F; [|exact IH'].
    rewrite (H a (or_introl eq_refl) F) in G. discriminate.
Qed.

Lemma owned_by_other (u v : string) (y : Expense.t) :
  u <> v -> owned_by v y = true -> owned_by u y = false.
Proof.
  unfold owned_by. rewrite String.eqb_eq. intros Hne ->.
  apply String.eqb_neq. congruence.
Qed.

(** X7: no caller can change what belongs to another.  Whatever the
    request and its outcome, the expenses of every user other than the
    caller are afterwards exactly the rows they were, in the same order
    (ids being unique); with no resolved caller this holds of every
    user. *)
Theorem actions_spare_other_users :
  forall session scale newDecimal parseDate (r : Request) (w : World)
         (v : string),
    unique_ids w ->
    (forall u, session = Some u -> user_id u <> v) ->
    filter (owned_by v)
      (expenses (snd (handle session scale newDecimal parseDate r w)))
    = filter (owned_by v) (expenses w).
Proof.
  intros session scale newDecimal parseDate r w v Hnd Hother.
  destruct session as [user|].
  2:{ destruct r; reflexivity. }
  specialize (Hother user eq_refl).
  destruct r; unfold handle; rewrite (proj1 (handle_bind _ _ _)).
  - reflexivity.
  - now rewrite (proj1 (getExpenses_tables _ _ _ _ _ _ _ _ _)).
  - now rewrite (proj1 (getDashboardSummary_tables _ _ _ _ _)).
  - unfold createExpense, Prisma.expense_create. run.
    destruct (JsNumber.leb _ _); [reflexivity|].
    destruct (parseDate _) as [t|]; [|reflexivity].
    destruct (Prisma.find_category _ _); [|reflexivity].
    cbn -[filter owned_by Prisma.new_id]. rewrite filter_app. cbn [filter owned_by Expense.userId].
    unfold owned_by at 2. cbn [Expense.userId].
    apply String.eqb_neq in Hother. rewrite Hother. apply app_nil_r.
  - destruct (find (fun e => String.eqb (Expense.id e) id) (expenses w))
      as [x|] eqn:Hfind.
    + destruct (String.eqb_spec (Expense.userId x) (user_id user)) as [Hown|Hown].
      * rewrite (deleteExpense_run user id x w Hfind Hown). cbn [snd expenses].
        apply filter_filter_implied. intros y Hy Hv.
        apply negb_true_iff, String.eqb_neq. intros Hid.
        apply find_some in Hfind. destruct Hfind as [Hx Hxid].
        apply String.eqb_eq in Hxid. subst id.
        pose proof (unique_find _ _ Hnd Hy) as F1.
        pose proof (unique_find _ _ Hnd Hx) as F2.
        rewrite Hid in F1. assert (y = x) by congruence. subst y.
        unfold owned_by in Hv. apply String.eqb_eq in Hv. congruence.
      * rewrite deleteExpense_refused; [reflexivity|]. now rewrite Hfind.
    + rewrite deleteExpense_refused; [reflexivity|]. now rewrite Hfind.
  - rewrite clearAllExpenses_run. cbn [snd cleared expenses].
    apply filter_filter_implied. intros y _ Hv.
    now rewrite (owned_by_other (user_id user) v y Hother Hv).
  - destruct (Nat.le_gt_cases 6 (List.length (categories w))) as [Hlen|Hlen].
    + rewrite (createDemoExpenses_run user newDecimal clock w Hlen).
      cbn [snd seeded_world expenses]. rewrite filter_app.
      rewrite (filter_none (owned_by v) (demo_rows _ _ _ _)); [apply app_nil_r|].
      intros y Hy. apply demo_rows_owned in Hy.
      unfold owned_by. rewrite Hy. now apply String.eqb_neq.
    + now rewrite (createDemoExpenses_too_few user newDecimal clock w Hlen).
Qed.

Lemma actions_spare_other_users_witness :
  filter (owned_by "bob")
    (expenses (snd (handle (Some Sample.alice) Sample.scale Sample.newDecimal
                      Sample.parseDate clear_all_expenses Sample.world)))
  = [Sample.e2].
Proof.
  apply (actions_spare_other_users (Some Sample.alice) Sample.scale
           Sample.newDecimal Sample.parseDate clear_all_expenses
           Sample.world "bob").
  - vm_compute. repeat constructor; cbn; intuition discriminate.
  - intros u [= <-]. discriminate.
Defined.

Lemma matches_owned (q : Where) (y : Expense.t) :
  Prisma.matches q y = true -> owned_by (where_userId q) y = true.
Proof.
  unfold Prisma.matches, owned_by. rewrite !andb_true_iff. tauto.
Qed.

(** X8: what a caller reads depends on nothing but their own expenses and
    the categories: in two worlds that agree on the category table and on
    the caller's expenses, [getExpenses] and [getDashboardSummary] give the
    same answer, whatever the arguments and whatever else the expense
    tables hold. *)
Theorem reads_see_own_rows_only :
  forall (user : User) (scale : nat) (s e : Date) (c : option string)
         (sortBy : option SortBy) (page pageSize : option Z) (w w' : World),
    categories w = categories w' ->
    filter (owned_by (user_id user)) (expenses w)
    = filter (owned_by (user_id user)) (expenses w') ->
    fst (getExpenses (Some user) scale s e c sortBy page pageSize w)
    = fst (getExpenses (Some user) scale s e c sortBy page pageSize w')
    /\ fst (getDashboardSummary (Some user) scale s e w)
       = fst (getDashboardSummary (Some user) scale s e w').
Proof.
  intros user scale s e c sortBy page pageSize w w' Hcat Hown.
  assert (Hq : forall q, where_userId q = user_id user ->
                 filter (Prisma.matches q) (expenses w)
                 = filter (Prisma.matches q) (expenses w')).
  { intros q Hu.
    rewrite <- (filter_filter_implied (Prisma.matches q)
                  (owned_by (user_id user)) (expenses w)),
            <- (filter_filter_implied (Prisma.matches q)
                  (owned_by (user_id user)) (expenses w')).
    - now rewrite Hown.
    - intros y _ Hy. rewrite <- Hu. now apply matches_owned.
    - intros y _ Hy. rewrite <- Hu. now apply matches_owned. }
  split.
  - unfold getExpenses, Prisma.expense_count, Prisma.expense_findMany. run.
    rewrite category_filter_code. fold (where_of (user_id user) s e c).
    rewrite (Hq (where_of (user_id user) s e c) eq_refl), Hcat.
    now destruct (Prisma.window _ _ _).
  - rewrite !getDashboardSummary_run. unfold fetched.
    rewrite (Hq (window_of (user_id user) s e) eq_refl), Hcat.
    now destruct (reduce_byCategory _ _ _).
Qed.

Lemma reads_see_own_rows_only_witness :
  fst (getExpenses (Some Sample.alice) Sample.scale Sample.jan1 Sample.feb5
         None None None None Sample.world)
  = fst (getExpenses (Some Sample.alice) Sample.scale Sample.jan1 Sample.feb5
           None None None None Fixture.alone).
Proof.
  apply (reads_see_own_rows_only Sample.alice Sample.scale Sample.jan1
           Sample.feb5 None None None None Sample.world Fixture.alone);
    reflexivity.
Defined.

(* ===================================================================== *)
(** ** Pages *)
(* ===================================================================== *)

(** Cutting a list into chunks of [k] and gluing them gives the list. *)
Lemma chunks_concat {A} (k : nat) (n : nat) :
  0 < k ->
  forall l : list A,
    List.length l <= n * k ->
    List.concat (map (fun p => firstn k (skipn (p * k) l)) (seq 0 n)) = l.
Proof.
  intros Hk. induction n as [|n IH]; intros l Hlen.
  - destruct l; [reflexivity | cbn in Hlen; lia].
  - cbn [seq map List.concat]. rewrite <- seq_shift, map_map.
    change (0 * k) with 0. cbn [skipn].
    transitivity (firstn k l ++ skipn k l); [|apply firstn_skipn].
    f_equal.
    etransitivity; [|apply (IH (skipn k l)); rewrite length_skipn; lia].
    f_equal. apply map_ext. intros p. f_equal.
    rewrite skipn_skipn. f_equal. lia.
Qed.

Lemma page_rows_chunk (sortBy : SortBy) (p : nat) (pageSize : Z)
    (matching : list Expense.t) :
  (1 <= pageSize)%Z ->
  page_rows sortBy (Z.of_nat (S p)) pageSize matching
  = firstn (Z.to_nat pageSize)
      (skipn (p * Z.to_nat pageSize)
         (stable_sort (Prisma.row_after (orderBy_of sortBy)) matching)).
Proof.
  intros Hs. unfold page_rows. do 2 f_equal.
  replace (Z.of_nat (S p) - 1)%Z with (Z.of_nat p) by lia.
  rewrite Z2Nat.inj_mul by lia. now rewrite Nat2Z.id.
Qed.

Lemma page_of_run (user : User) (scale : nat) (s e : Date) (c : option string)
    (sortBy : SortBy) (pageSize : Z) (w : World) (p : nat) :
  (1 <= pageSize)%Z ->
  page_of user scale s e c sortBy pageSize w (S p)
  = map (fun x => view scale (Prisma.join (categories w) x))
      (firstn (Z.to_nat pageSize)
         (skipn (p * Z.to_nat pageSize)
            (stable_sort (Prisma.row_after (orderBy_of sortBy))
               (filter (Prisma.matches (where_of (user_id user) s e c))
                  (expenses w))))).
Proof.
  intros Hs. unfold page_of.
  rewrite getExpenses_run by lia. cbn [fst ExpensesPage.data].
  now rewrite page_rows_chunk.
Qed.

(** Rows that differ in the key can be put in the requested order in one
    way only. *)
Lemma listing_order_unique (sortBy : SortBy) (rows : list Expense.t) :
  distinct_keys sortBy rows ->
  StronglySorted (in_order sortBy) rows ->
  forall answer : list Expense.t,
    Permutation answer rows ->
    StronglySorted (in_order sortBy) answer ->
    answer = rows.
Proof.
  unfold distinct_keys.
  induction rows as [|a r IH]; intros Hkeys Hsorted answer Hperm Hanswer.
  - now apply Permutation_nil, Permutation_sym.
  - destruct answer as [|b r'];
      [apply Permutation_nil in Hperm; discriminate|].
    cbn [map] in Hkeys.
    inversion Hkeys as [|? ? Hfresh Hkeys']; subst.
    inversion Hsorted as [|? ? Hr Ha]; subst.
    inversion Hanswer as [|? ? Hr' Hb]; subst.
    assert (Hab : b = a).
    { destruct (Permutation_in b Hperm (or_introl eq_refl)) as [E|Hbr];
        [now symmetry|].
      destruct (Permutation_in a (Permutation_sym Hperm) (or_introl eq_refl))
        as [E|Har']; [exact E|].
      exfalso. apply Hfresh.
      rewrite Forall_forall in Ha, Hb.
      pose proof (Ha b Hbr) as H1. pose proof (Hb a Har') as H2.
      replace (Prisma.key (fst (orderBy_of sortBy)) a)
        with (Prisma.key (fst (orderBy_of sortBy)) b)
        by (destruct sortBy; cbn in *; lia).
      now apply in_map. }
    subst b. f_equal.
    apply IH; try assumption. now apply Permutation_cons_inv in Hperm.
Qed.

(** X9: the pages of a listing partition it.  For a page size of at
    least 1 and matching rows that differ in the key the listing is
    ordered by, page 1 reports [totalPages]; the rows of the pages 1 to
    [totalPages], one after the other, are the matching rows in the
    requested order, each of them once, and there are [total] of them.
    That order is the only one the rows can be put in: whichever way the
    store arranges the matching rows in the requested order, it is the
    listing. *)
Theorem pages_partition_listing :
  forall (user : User) (scale : nat) (startDate endDate : Date)
         (categoryId : option string) (sortBy : SortBy) (pageSize : Z)
         (w : World),
    (1 <= pageSize)%Z ->
    distinct_keys sortBy
      (filter (Prisma.matches
                 (where_of (user_id user) startDate endDate categoryId))
              (expenses w)) ->
    exists (r : ExpensesPage.t) (totalPages : Z),
      fst (getExpenses (Some user) scale startDate endDate categoryId
             (Some sortBy) (Some 1%Z) (Some pageSize) w) = Ok r
      /\ Pagination.totalPages (ExpensesPage.pagination r) = Some totalPages
      /\ List.concat (map (page_of user scale startDate endDate categoryId sortBy
                        pageSize w)
                     (seq 1 (Z.to_nat totalPages)))
         = listing user scale startDate endDate categoryId sortBy w
      /\ Z.of_nat (List.length
                     (listing user scale startDate endDate categoryId sortBy w))
         = Pagination.total (ExpensesPage.pagination r)
      /\ Permutation
           (listing user scale startDate endDate categoryId sortBy w)
           (map (fun x => view scale (Prisma.join (categories w) x))
                (filter (Prisma.matches
                           (where_of (user_id user) startDate endDate categoryId))
                        (expenses w)))
      /\ (forall answer : list Expense.t,
            Permutation answer
              (filter (Prisma.matches
                         (where_of (user_id user) startDate endDate categoryId))
                      (expenses w)) ->
            StronglySorted (in_order sortBy) answer ->
            map (fun x => view scale (Prisma.join (categories w) x)) answer
            = listing user scale startDate endDate categoryId sortBy w).
Proof.
  intros user scale s e c sortBy pageSize w Hs Hkeys.
  set (matching := filter (Prisma.matches (where_of (user_id user) s e c))
                     (expenses w)) in *.
  destruct (Math_ceil_div_spec (Z.of_nat (List.length matching)) pageSize)
    as [n [Hn Hceil]]; [lia|].
  eexists. exists n. split.
  { rewrite getExpenses_run by lia. reflexivity. }
  cbn [ExpensesPage.pagination Pagination.totalPages Pagination.total].
  fold matching. split; [exact Hn|]. split; [|split; [|split]].
  - rewrite <- seq_shift, map_map.
    rewrite (map_ext _ _ (fun p => page_of_run user scale s e c sortBy
                                     pageSize w p Hs)).
    fold matching. unfold listing. fold matching.
    rewrite <- (map_map
                  (fun p => firstn (Z.to_nat pageSize)
                              (skipn (p * Z.to_nat pageSize)
                                 (stable_sort
                                    (Prisma.row_after (orderBy_of sortBy))
                                    matching)))
                  (map (fun x => view scale (Prisma.join (categories w) x)))).
    rewrite <- concat_map. f_equal.
    apply chunks_concat; [lia|].
    rewrite stable_sort_length.
    assert (0 <= n)%Z by nia.
    apply Nat2Z.inj_le. rewrite Nat2Z.inj_mul, !Z2Nat.id by lia. lia.
  - unfold listing. fold matching.
    now rewrite length_map, stable_sort_length.
  - unfold listing. fold matching. apply Permutation_map, stable_sort_perm.
  - intros answer Hperm Hsorted. unfold listing. fold matching. f_equal.
    apply (listing_order_unique sortBy).
    + unfold distinct_keys in *.
      apply (Permutation_NoDup (l := map (Prisma.key (fst (orderBy_of sortBy)))
                                         matching)); [|exact Hkeys].
      apply Permutation_map, Permutation_sym, stable_sort_perm.
    + apply row_after_sorted.
    + rewrite Hperm. apply Permutation_sym, stable_sort_perm.
    + exact Hsorted.
Qed.

Lemma pages_partition_listing_witness :
  exists r,
    fst (getExpenses (Some Sample.alice) Sample.scale Sample.jan1 Sample.feb5
           None (Some amount_asc) (Some 1%Z) (Some 10%Z) Sample.busy) = Ok r
    /\ Pagination.totalPages (ExpensesPage.pagination r) = Some 3%Z
    /\ List.concat (map (page_of Sample.alice Sample.scale Sample.jan1 Sample.feb5
                      None amount_asc 10%Z Sample.busy) [1; 2; 3])
       = listing Sample.alice Sample.scale Sample.jan1 Sample.feb5 None
           amount_asc Sample.busy.
Proof.
  destruct (pages_partition_listing Sample.alice Sample.scale Sample.jan1
              Sample.feb5 None amount_asc 10%Z Sample.busy)
    as (r & n & Hr & Hn & Hcat & _).
  { lia. }
  { unfold distinct_keys. vm_compute.
    repeat (constructor; [cbn; intuition discriminate|]). constructor. }
  exists r. split; [exact Hr|].
  assert (E : Ok r
              = fst (getExpenses (Some Sample.alice) Sample.scale Sample.jan1
                       Sample.feb5 None (Some amount_asc) (Some 1%Z)
                       (Some 10%Z) Sample.busy)) by now rewrite Hr.
  rewrite getExpenses_run in E by lia. cbn [fst] in E. injection E as ->.
  cbn [ExpensesPage.pagination Pagination.totalPages] in Hn |- *.
  assert (H3 : n = 3%Z) by (vm_compute in Hn; now injection Hn as <-).
  subst n. split; [exact Hn | exact Hcat].
Defined.

(** X10: off the pages.  A page past the last one is answered with no rows
    and the same [total]; a page size of 0 with no rows and a [totalPages]
    that is not finite; and a page number of 0 or below is not clamped:
    the skip handed to the store is negative, the store refuses it, and
    the caller gets the store's error after the count was made. *)
Theorem getExpenses_off_the_pages :
  forall (user : User) (scale : nat) (startDate endDate : Date)
         (categoryId : option string) (sortBy : SortBy) (page pageSize : Z)
         (w : World),
    let q := where_of (user_id user) startDate endDate categoryId in
    let total := Z.of_nat (List.length (filter (Prisma.matches q) (expenses w))) in
    ((1 <= page)%Z -> (1 <= pageSize)%Z -> (total <= (page - 1) * pageSize)%Z ->
     exists r,
       fst (getExpenses (Some user) scale startDate endDate categoryId
              (Some sortBy) (Some page) (Some pageSize) w) = Ok r
       /\ ExpensesPage.data r = []
       /\ Pagination.total (ExpensesPage.pagination r) = total)
    /\ ((1 <= page)%Z ->
        fst (getExpenses (Some user) scale startDate endDate categoryId
               (Some sortBy) (Some page) (Some 0%Z) w)
        = Ok (ExpensesPage.mk [] (Pagination.mk page 0 total None)))
    /\ ((page <= 0)%Z -> (1 <= pageSize)%Z ->
        getExpenses (Some user) scale startDate endDate categoryId
          (Some sortBy) (Some page) (Some pageSize) w
        = (Err StorageError, logged w (listing_calls q sortBy page pageSize))
        /\ ((page - 1) * pageSize < 0)%Z).
Proof.
  intros user scale s e c sortBy page pageSize w q total.
  split; [|split].
  - intros Hp Hs Hpast. eexists. split.
    { rewrite getExpenses_run by lia. reflexivity. }
    cbn [ExpensesPage.data ExpensesPage.pagination Pagination.total].
    split; [|reflexivity].
    unfold page_rows. rewrite skipn_all2; [now rewrite firstn_nil|].
    rewrite stable_sort_length. fold q. apply Nat2Z.inj_le.
    rewrite Z2Nat.id by nia. exact Hpast.
  - intros Hp.
    unfold getExpenses, Prisma.expense_count, Prisma.expense_findMany. run.
    rewrite category_filter_code. fold (where_of (user_id user) s e c). fold q.
    unfold Prisma.window.
    destruct (Z.ltb_spec ((page - 1) * 0) 0) as [Hneg|_]; [lia|].
    reflexivity.
  - intros Hp Hs. split; [|nia].
    unfold getExpenses, Prisma.expense_count, Prisma.expense_findMany. run.
    rewrite category_filter_code. fold (where_of (user_id user) s e c). fold q.
    unfold Prisma.window.
    destruct (Z.ltb_spec ((page - 1) * pageSize) 0) as [_|Hok]; [|nia].
    unfold logged, listing_calls. cbn [log categories expenses].
    now rewrite <- app_assoc.
Qed.

Lemma getExpenses_off_the_pages_witness :
  (exists r,
     fst (getExpenses (Some Sample.alice) Sample.scale Sample.jan1 Sample.feb5
            None (Some date_desc) (Some 4%Z) (Some 10%Z) Sample.busy) = Ok r
     /\ ExpensesPage.data r = []
     /\ Pagination.total (ExpensesPage.pagination r) = 25%Z)
  /\ fst (getExpenses (Some Sample.alice) Sample.scale Sample.jan1 Sample.feb5
            None (Some date_desc) (Some 0%Z) (Some 10%Z) Sample.busy)
     = Err StorageError.
Proof.
  split.
  - pose proof (getExpenses_off_the_pages Sample.alice Sample.scale Sample.jan1
                  Sample.feb5 None date_desc 4%Z 10%Z Sample.busy) as H.
    cbv zeta in H. destruct H as (Hpast & _).
    destruct Hpast as (r & Hr & Hdata & Htotal);
      [lia | lia | vm_compute; discriminate |].
    exists r. split; [exact Hr|]. split; [exact Hdata|].
    rewrite Htotal. vm_compute. reflexivity.
  - pose proof (getExpenses_off_the_pages Sample.alice Sample.scale Sample.jan1
                  Sample.feb5 None date_desc 0%Z 10%Z Sample.busy) as H.
    cbv zeta in H. destruct H as (_ & _ & Hneg).
    destruct Hneg as [Hrun _]; [lia | lia |]. now rewrite Hrun.
Defined.

(* ===================================================================== *)
(** ** The pagination controls of the expenses page *)
(* ===================================================================== *)

(** X11: the banner "Showing a to b of n expenses" of the expenses page
    counts the rows of the page it stands on.  For the answer of
    [getExpenses] to a page that has rows, [a] and [b] computed by the page
    from [currentPage], [pageSize] and the reported [total] satisfy
    [1 <= a <= b <= total], [total] is the number of the matching rows,
    and the page holds [b - a + 1] rows. *)
Theorem banner_counts_the_rows_shown :
  forall (user : User) (scale : nat) (startDate endDate : Date)
         (categoryId : option string) (sortBy : SortBy) (page pageSize : Z)
         (w : World),
    (1 <= page)%Z -> (1 <= pageSize)%Z ->
    exists r,
      fst (getExpenses (Some user) scale startDate endDate categoryId
             (Some sortBy) (Some page) (Some pageSize) w) = Ok r
      /\ (ExpensesPage.data r <> [] ->
          let total := Pagination.total (ExpensesPage.pagination r) in
          let a := ExpensesClient.showingFrom page pageSize in
          let b := ExpensesClient.showingTo page pageSize total in
          (1 <= a <= b)%Z /\ (b <= total)%Z
          /\ total
             = Z.of_nat
                 (List.length
                    (filter (Prisma.matches
                               (where_of (user_id user) startDate endDate
                                  categoryId))
                            (expenses w)))
          /\ Z.of_nat (List.length (ExpensesPage.data r)) = (b - a + 1)%Z).
Proof.
  intros user scale s e c sortBy page pageSize w Hp Hs.
  eexists. split.
  { rewrite getExpenses_run by lia. reflexivity. }
  cbn [ExpensesPage.data ExpensesPage.pagination Pagination.total].
  set (matching := filter (Prisma.matches (where_of (user_id user) s e c))
                     (expenses w)).
  intros Hrows. cbv zeta.
  unfold ExpensesClient.showingFrom, ExpensesClient.showingTo.
  unfold page_rows in *.
  set (sorted := stable_sort (Prisma.row_after (orderBy_of sortBy)) matching) in *.
  assert (Hn : List.length sorted = List.length matching)
    by apply stable_sort_length.
  assert (Hlt : ((page - 1) * pageSize < Z.of_nat (List.length matching))%Z).
  { destruct (Z.lt_ge_cases ((page - 1) * pageSize)
                (Z.of_nat (List.length matching))) as [H|H]; [exact H|].
    exfalso. apply Hrows.
    rewrite skipn_all2; [now rewrite firstn_nil|].
    rewrite Hn. apply Nat2Z.inj_le. rewrite Z2Nat.id by nia. exact H. }
  assert (H0 : (0 <= (page - 1) * pageSize)%Z) by nia.
  replace (page * pageSize)%Z with ((page - 1) * pageSize + pageSize)%Z by ring.
  set (k := ((page - 1) * pageSize)%Z) in *.
  split; [lia|]. split; [lia|]. split; [reflexivity|].
  rewrite length_map, length_firstn, length_skipn, Hn. lia.
Qed.

Lemma banner_counts_the_rows_shown_witness :
  exists r,
    fst (getExpenses (Some Sample.alice) Sample.scale Sample.jan1 Sample.feb5
           None (Some date_desc) (Some 3%Z) (Some 10%Z) Sample.busy) = Ok r
    /\ ExpensesClient.showingFrom 3 10 = 21%Z
    /\ ExpensesClient.showingTo 3 10
         (Pagination.total (ExpensesPage.pagination r)) = 25%Z
    /\ List.length (ExpensesPage.data r) = 5.
Proof.
  destruct (banner_counts_the_rows_shown Sample.alice Sample.scale Sample.jan1
              Sample.feb5 None date_desc 3%Z 10%Z Sample.busy)
    as (r & Hr & _); [lia | lia |].
  exists r. split; [exact Hr|].
  assert (E : Ok r
              = fst (getExpenses (Some Sample.alice) Sample.scale Sample.jan1
                       Sample.feb5 None (Some date_desc) (Some 3%Z)
                       (Some 10%Z) Sample.busy)) by now rewrite Hr.
  vm_compute in E. injection E as ->. now vm_compute.
Defined.

Lemma pageNum_shift (totalPages currentPage i : Z) :
  ExpensesClient.pageNum totalPages currentPage i
  = (ExpensesClient.pageNum totalPages currentPage 0 + i)%Z.
Proof.
  unfold ExpensesClient.pageNum.
  destruct (totalPages <=? 5)%Z, (currentPage <=? 3)%Z,
    (totalPages - 2 <=? currentPage)%Z; lia.
Qed.

Lemma pageNum_first (totalPages currentPage : Z) :
  (1 <= currentPage <= totalPages)%Z ->
  let first := ExpensesClient.pageNum totalPages currentPage 0 in
  (1 <= first <= currentPage)%Z
  /\ (currentPage < first + Z.min 5 totalPages)%Z
  /\ (first + Z.min 5 totalPages - 1 <= totalPages)%Z.
Proof.
  intros H. unfold ExpensesClient.pageNum.
  destruct (Z.leb_spec totalPages 5), (Z.leb_spec currentPage 3),
    (Z.leb_spec (totalPages - 2) currentPage); cbn zeta; lia.
Qed.

(** X12: the pagination controls of the expenses page never leave the
    pages.  With [1 <= currentPage <= totalPages], the page buttons are
    [min(5, totalPages)] consecutive page numbers, all different, all
    within [1, totalPages], and [currentPage] is one of them; Previous and
    Next stay within [1, totalPages] as well.  So every page the controls
    can ask for is at least 1, and [getExpenses] answers it without an
    error of the store. *)
Theorem page_controls_stay_on_the_pages :
  forall (totalPages currentPage : Z),
    (1 <= currentPage <= totalPages)%Z ->
    let buttons := ExpensesClient.pageButtons totalPages currentPage in
    let controls :=
      ExpensesClient.previous currentPage
      :: ExpensesClient.following totalPages currentPage :: buttons in
    List.length buttons = Z.to_nat (Z.min 5 totalPages)
    /\ (exists first,
          buttons = map (fun i => (first + Z.of_nat i)%Z)
                        (seq 0 (Z.to_nat (Z.min 5 totalPages))))
    /\ NoDup buttons
    /\ In currentPage buttons
    /\ (forall p, In p controls -> (1 <= p <= totalPages)%Z)
    /\ (forall p, In p controls ->
          forall (user : User) scale s e c sortBy (w : World),
          exists r,
            fst (getExpenses (Some user) scale s e c (Some sortBy) (Some p)
                   (Some 10%Z) w) = Ok r).
Proof.
  intros totalPages currentPage H buttons controls.
  destruct (pageNum_first totalPages currentPage H) as (Hf1 & Hf2 & Hf3).
  set (first := ExpensesClient.pageNum totalPages currentPage 0) in *.
  set (n := Z.to_nat (Z.min 5 totalPages)).
  assert (Hb : buttons = map (fun i => (first + Z.of_nat i)%Z) (seq 0 n)).
  { unfold buttons, ExpensesClient.pageButtons. apply map_ext.
    intros i. apply pageNum_shift. }
  assert (Hin : forall p, In p buttons <-> (first <= p < first + Z.of_nat n)%Z).
  { intros p. rewrite Hb, in_map_iff. split.
    - intros (i & <- & Hi). apply in_seq in Hi. lia.
    - intros Hp. exists (Z.to_nat (p - first)). split; [lia|].
      apply in_seq. lia. }
  assert (Hn : Z.of_nat n = Z.min 5 totalPages) by (unfold n; lia).
  assert (Hrange : forall p, In p controls -> (1 <= p <= totalPages)%Z).
  { intros p [<-|[<-|Hp]].
    - unfold ExpensesClient.previous. lia.
    - unfold ExpensesClient.following. lia.
    - apply Hin in Hp. lia. }
  split; [rewrite Hb; now rewrite length_map, length_seq|].
  split; [now exists first|]. split.
  { rewrite Hb. apply Finite.Injective_map_NoDup; [|apply seq_NoDup].
    intros i j Hij. lia. }
  split; [apply Hin; lia|]. split; [exact Hrange|].
  intros p Hp user scale s e c sortBy w.
  pose proof (Hrange p Hp) as H1.
  eexists. rewrite getExpenses_run by lia. reflexivity.
Qed.

Lemma page_controls_stay_on_the_pages_witness :
  ExpensesClient.pageButtons 9 8 = [5; 6; 7; 8; 9]%Z
  /\ In 8%Z (ExpensesClient.pageButtons 9 8).
Proof.
  destruct (page_controls_stay_on_the_pages 9 8) as (_ & _ & _ & Hin & _);
    [lia|].
  split; [reflexivity | exact Hin].
Defined.

Lemma filter_comm {A} (f g : A -> bool) (l : list A) :
  filter f (filter g l) = filter g (filter f l).
Proof.
  induction l as [|a l IH]; cbn; [reflexivity|].
  destruct (f a) eqn:F, (g a) eqn:G; cbn; rewrite ?F, ?G, IH; reflexivity.
Qed.

(** X13: deleting a row from the page that is shown, as [handleDelete]
    does.  The caller deletes one of the rows that [getExpenses] returned
    for the current page and fetches the page that [handleDelete] picks
    (the previous page when the row was the only one shown and the page is
    not the first, the same page otherwise): the deletion succeeds, the
    new [total] is one less, the deleted row is not among the rows
    returned, and rows are returned unless no matching expense is left. *)
Theorem page_after_delete_has_rows :
  forall (user : User) (scale : nat) (startDate endDate : Date)
         (categoryId : option string) (sortBy : SortBy) (page pageSize : Z)
         (w : World) (r0 : ExpensesPage.t) (v : ExpenseView.t),
    unique_ids w ->
    (1 <= page)%Z -> (1 <= pageSize)%Z ->
    fst (getExpenses (Some user) scale startDate endDate categoryId
           (Some sortBy) (Some page) (Some pageSize) w) = Ok r0 ->
    In v (ExpensesPage.data r0) ->
    let w1 := snd (deleteExpense (Some user) (ExpenseView.id v) w) in
    let page' :=
      ExpensesClient.newPage (List.length (ExpensesPage.data r0)) page in
    fst (deleteExpense (Some user) (ExpenseView.id v) w) = Ok tt
    /\ (1 <= page' <= page)%Z
    /\ exists r1,
         fst (getExpenses (Some user) scale startDate endDate categoryId
                (Some sortBy) (Some page') (Some pageSize) w1) = Ok r1
         /\ Pagination.total (ExpensesPage.pagination r1)
            = (Pagination.total (ExpensesPage.pagination r0) - 1)%Z
         /\ ~ In (ExpenseView.id v) (map ExpenseView.id (ExpensesPage.data r1))
         /\ (ExpensesPage.data r1 = [] ->
             Pagination.total (ExpensesPage.pagination r1) = 0%Z).
Proof.
  intros user scale s e c sortBy page pageSize w r0 v Hnd Hp Hs Hr0 Hv w1 page'.
  rewrite getExpenses_run in Hr0 by lia. cbn [fst] in Hr0.
  injection Hr0 as <-.
  cbn [ExpensesPage.data ExpensesPage.pagination Pagination.total] in *.
  set (q := where_of (user_id user) s e c) in *.
  set (matching := filter (Prisma.matches q) (expenses w)) in *.
  apply in_map_iff in Hv. destruct Hv as (x & <- & Hx).
  assert (Hshown : 1 <= List.length (page_rows sortBy page pageSize matching)).
  { destruct (page_rows sortBy page pageSize matching); [destruct Hx | cbn; lia]. }
  unfold page_rows in Hx. apply In_firstn_skipn in Hx.
  apply stable_sort_In in Hx.
  assert (Hm : In x matching) by exact Hx.
  apply filter_In in Hx. destruct Hx as [Hin Hmatch].
  assert (Hown : Expense.userId x = user_id user).
  { apply matches_owned in Hmatch. now apply String.eqb_eq in Hmatch. }
  change (ExpenseView.id (view scale (Prisma.join (categories w) x)))
    with (Expense.id x) in *.
  subst w1.
  rewrite (deleteExpense_run user (Expense.id x) x w
             (unique_find _ _ Hnd Hin) Hown).
  cbn [fst snd].
  set (w1 := {| categories := categories w; expenses := _; log := _ |}).
  assert (Hp' : (1 <= page' <= page)%Z).
  { unfold page', ExpensesClient.newPage.
    destruct (Nat.eqb _ 1), (Z.ltb_spec 1 page); cbn [andb]; lia. }
  (* the matching rows after the deletion *)
  assert (Hm1 : filter (Prisma.matches q) (expenses w1)
                = filter (fun y => negb (String.eqb (Expense.id y) (Expense.id x)))
                    matching).
  { cbn [w1 expenses]. unfold matching. apply filter_comm. }
  assert (Hlen1 : S (List.length (filter (Prisma.matches q) (expenses w1)))
                  = List.length matching).
  { rewrite Hm1.
    destruct (unique_split matching x) as (l1 & l2 & Hl & Hf);
      [now apply unique_ids_filter | exact Hm |].
    rewrite Hf, Hl, !length_app. cbn. lia. }
  split; [reflexivity|]. split; [exact Hp'|].
  eexists. split.
  { rewrite getExpenses_run by lia. reflexivity. }
  cbn [ExpensesPage.data ExpensesPage.pagination Pagination.total].
  fold q. split; [lia|]. split.
  { intros Habs. rewrite map_map in Habs. apply in_map_iff in Habs.
    destruct Habs as (y & Hid & Hy). cbn in Hid.
    unfold page_rows in Hy. apply In_firstn_skipn in Hy.
    apply stable_sort_In in Hy. rewrite Hm1 in Hy. apply filter_In in Hy.
    destruct Hy as [_ Hy]. apply negb_true_iff, String.eqb_neq in Hy.
    now apply Hy. }
  intros Hnone. apply (f_equal (@List.length _)) in Hnone.
  rewrite length_map in Hnone. cbn [List.length] in Hnone.
  unfold page_rows in Hnone, Hshown.
  rewrite length_firstn, length_skipn, stable_sort_length in Hnone, Hshown.
  unfold page', ExpensesClient.newPage in Hnone.
  rewrite length_map in Hnone. unfold page_rows in Hnone.
  rewrite length_firstn, length_skipn, stable_sort_length in Hnone.
  fold matching in Hnone.
  set (n := List.length matching) in *.
  set (n1 := List.length (filter (Prisma.matches q) (expenses w1))) in *.
  assert (H0 : (0 <= (page - 1) * pageSize)%Z) by nia.
  destruct (Nat.eqb_spec
              (Nat.min (Z.to_nat pageSize) (n - Z.to_nat ((page - 1) * pageSize)))
              1) as [Hone|Hmore];
    destruct (Z.ltb_spec 1 page) as [Hlt|Hge]; cbn [andb] in Hnone.
  - replace ((page - 1 - 1) * pageSize)%Z
      with ((page - 1) * pageSize - pageSize)%Z in Hnone by ring.
    assert (pageSize <= (page - 1) * pageSize)%Z by nia.
    lia.
  - assert (Hk : ((page - 1) * pageSize = 0)%Z)
      by (replace page with 1%Z by lia; lia).
    rewrite Hk in Hnone. cbn [Z.to_nat] in Hnone. lia.
  - lia.
  - lia.
Qed.

Lemma page_after_delete_has_rows_witness :
  exists r1,
    fst (getExpenses (Some Sample.alice) Sample.scale Sample.jan1 Sample.feb5
           None (Some date_asc) (Some 1%Z) (Some 1%Z)
           (snd (deleteExpense (Some Sample.alice) "e1" Sample.world))) = Ok r1
    /\ Pagination.total (ExpensesPage.pagination r1) = 1%Z.
Proof.
  destruct (page_after_delete_has_rows Sample.alice Sample.scale Sample.jan1
              Sample.feb5 None date_asc 1%Z 1%Z Sample.world
              (ExpensesPage.mk
                 [view Sample.scale (Prisma.join Sample.seeded Sample.e1)]
                 (Pagination.mk 1 1 2 (Some 2%Z)))
              (view Sample.scale (Prisma.join Sample.seeded Sample.e1)))
    as (_ & _ & r1 & Hr1 & Htotal & _).
  - vm_compute. repeat constructor; cbn; intuition discriminate.
  - lia.
  - lia.
  - vm_compute. reflexivity.
  - cbn. auto.
  - exists r1. split; [exact Hr1 | exact Htotal].
Defined.

(* ===================================================================== *)
(** ** The dashboard *)
(* ===================================================================== *)

(** X14: the two panels of the dashboard agree.  [DashboardPage] computes
    the summary and the recent expenses over one window.  When every
    expense has its category and no category is named like a property
    that objects inherit, it succeeds, the recent expenses are the first
    five rows of the caller's listing for that window, newest first, the
    summary counts exactly the rows of that listing, every category shown
    with a recent expense has its entry in the summary, and both tables
    are left as they were. *)
Theorem dashboard_panels_agree :
  forall (user : User) (scale : nat) (range : Date * Date) (w : World),
    referential_integrity w ->
    plain_names w ->
    let all := listing user scale (fst range) (snd range) None date_desc w in
    exists summary recent,
      fst (Pages.DashboardPage (Some user) scale range w) = Ok (summary, recent)
      /\ recent = firstn 5 all
      /\ Summary.count summary = List.length all
      /\ List.length recent = Nat.min 5 (Summary.count summary)
      /\ (forall v c,
            In v recent -> ExpenseView.category v = Some c ->
            In (Category.name c)
               (map Group.name (Summary.byCategory summary)))
      /\ expenses (snd (Pages.DashboardPage (Some user) scale range w))
         = expenses w
      /\ categories (snd (Pages.DashboardPage (Some user) scale range w))
         = categories w.
Proof.
  intros user scale [s e] w Hfk Hplain all. cbn [fst snd] in all.
  destruct (getDashboardSummary_spec user scale s e w Hfk)
    as (summary & Hrun & _ & Hcount & _ & Hnames & _).
  assert (Hall : List.length all
                 = List.length (fetched (user_id user) s e w)).
  { unfold all, listing, fetched.
    now rewrite !length_map, stable_sort_length. }
  assert (Hpage : Pages.DashboardPage (Some user) scale (s, e) w
                  = (Ok (summary, firstn 5 all),
                     logged
                       (logged w [prisma (expense_findMany_call
                                            (window_of (user_id user) s e)
                                            None None None)])
                       (listing_calls (where_of (user_id user) s e None)
                          date_desc 1 5))).
  { unfold Pages.DashboardPage. cbv zeta. cbn [fst snd].
    unfold bind at 1. rewrite Hrun.
    unfold bind at 1. rewrite getExpenses_run by lia.
    unfold ret. cbn [ExpensesPage.data logged expenses categories].
    unfold page_rows. cbn [Z.sub Z.mul Z.to_nat Z.pos_sub skipn Z.opp].
    unfold all, listing. now rewrite firstn_map. }
  exists summary, (firstn 5 all). rewrite Hpage. cbn [fst snd].
  split; [reflexivity|]. split; [reflexivity|].
  split; [now rewrite Hcount, Hall|].
  split; [rewrite length_firstn; now rewrite Hcount, Hall|].
  split; [|split; reflexivity].
  intros v c Hv Hc.
  apply (In_firstn_skipn 5 0 all) in Hv.
  unfold all, listing in Hv. apply in_map_iff in Hv.
  destruct Hv as (x & <- & Hx). apply stable_sort_In in Hx.
  cbn [view ExpenseView.category Prisma.join Prisma.category] in Hc.
  apply Hnames. split.
  - exists (Prisma.join (categories w) x). split.
    + unfold fetched. apply in_map. exact Hx.
    + unfold name_of. cbn [Prisma.join Prisma.category]. now rewrite Hc.
  - apply Hplain. unfold Prisma.find_category in Hc.
    now apply find_some in Hc.
Qed.

Lemma dashboard_panels_agree_witness :
  exists summary recent,
    fst (Pages.DashboardPage (Some Sample.alice) Sample.scale
           (Sample.jan1, Sample.feb5) Sample.busy) = Ok (summary, recent)
    /\ Summary.count summary = 25
    /\ List.length recent = 5.
Proof.
  destruct (dashboard_panels_agree Sample.alice Sample.scale
              (Sample.jan1, Sample.feb5) Sample.busy)
    as (summary & recent & Hrun & _ & Hcount & Hlen & _).
  - intros x Hx. cbn in Hx.
    repeat (destruct Hx as [<-|Hx]; [eexists; reflexivity|]). destruct Hx.
  - intros c Hc. cbn in Hc.
    repeat (destruct Hc as [<-|Hc]; [reflexivity|]). destruct Hc.
  - exists summary, recent. split; [exact Hrun|].
    assert (H25 : Summary.count summary = 25).
    { rewrite Hcount. vm_compute. reflexivity. }
    split; [exact H25|]. rewrite Hlen, H25. reflexivity.
Defined.

(* ===================================================================== *)
(** ** Clearing, then reading *)
(* ===================================================================== *)

(** X15: after [clearAllExpenses] the caller's account reads as empty,
    whatever the window, the filter and the order: the summary is a total
    of 0 over 0 expenses with no category entry, and every page of the
    listing is empty, with a [total] of 0 and 0 pages. *)
Theorem cleared_account_reads_empty :
  forall (user : User) (scale : nat) (startDate endDate : Date)
         (categoryId : option string) (sortBy : SortBy) (page pageSize : Z)
         (w : World),
    (1 <= page)%Z -> (1 <= pageSize)%Z ->
    let w1 := snd (clearAllExpenses (Some user) w) in
    fst (getDashboardSummary (Some user) scale startDate endDate w1)
    = Ok (Summary.mk JsNumber.zero 0 [])
    /\ fst (getExpenses (Some user) scale startDate endDate categoryId
              (Some sortBy) (Some page) (Some pageSize) w1)
       = Ok (ExpensesPage.mk [] (Pagination.mk page pageSize 0 (Some 0%Z))).
Proof.
  intros user scale s e c sortBy page pageSize w Hp Hs w1. subst w1.
  rewrite clearAllExpenses_run. cbn [snd].
  assert (Hnone : forall q, where_userId q = user_id user ->
            filter (Prisma.matches q) (expenses (cleared (user_id user) w)) = []).
  { intros q Hq. apply filter_none. intros y Hy. cbn in Hy.
    apply filter_In in Hy. destruct Hy as [_ Hy].
    apply negb_true_iff in Hy.
    destruct (Prisma.matches q y) eqn:E; [|reflexivity].
    apply matches_owned in E. rewrite Hq in E. congruence. }
  split.
  - rewrite getDashboardSummary_run. unfold fetched.
    rewrite (Hnone (window_of (user_id user) s e) eq_refl). reflexivity.
  - rewrite getExpenses_run by lia. cbn [fst].
    rewrite (Hnone (where_of (user_id user) s e c) eq_refl).
    unfold page_rows. cbn [stable_sort]. rewrite skipn_nil, firstn_nil.
    cbn [map List.length Z.of_nat]. unfold Math_ceil_div.
    destruct (Z.eqb_spec pageSize 0) as [->|_]; [lia|].
    cbn [Z.opp]. now rewrite Z.div_0_l by lia.
Qed.

Lemma cleared_account_reads_empty_witness :
  fst (getDashboardSummary (Some Sample.alice) Sample.scale Sample.jan1
         Sample.feb5 (snd (clearAllExpenses (Some Sample.alice) Sample.busy)))
  = Ok (Summary.mk JsNumber.zero 0 []).
Proof.
  apply (cleared_account_reads_empty Sample.alice Sample.scale Sample.jan1
           Sample.feb5 None date_desc 1%Z 10%Z Sample.busy); lia.
Defined.

(* ===================================================================== *)
(** ** The counts of the summary *)
(* ===================================================================== *)

Lemma filter_or_length {A} (f g : A -> bool) (l : list A) :
  (forall x, In x l -> f x = true -> g x = false) ->
  List.length (filter (fun x => f x || g x) l)
  = List.length (filter f l) + List.length (filter g l).
Proof.
  induction l as [|a l IH]; intros H; cbn; [reflexivity|].
  assert (IH' := IH (fun x Hx => H x (or_intror Hx))).
  pose proof (H a (or_introl eq_refl)) as Ha.
  destruct (f a) eqn:F; cbn.
  - rewrite (Ha eq_refl). cbn. lia.
  - destruct (g a); cbn; lia.
Qed.

(** Over names that are all different, the group sizes add up to the
    number of rows that have one of the names. *)
Lemma group_sizes_add_up (rows : list Prisma.Joined) (names : list string) :
  NoDup names ->
  list_sum (map (fun n => List.length (group_of n rows)) names)
  = List.length (filter (fun j => existsb (fun n => in_group n j) names) rows).
Proof.
  induction names as [|n ns IH]; intros Hnd; cbn [map existsb].
  - induction rows as [|j r IHr]; [reflexivity | exact IHr].
  - inversion Hnd as [|? ? Hnot Hnd']; subst.
    change (list_sum (?x :: ?l)) with (x + list_sum l).
    rewrite IH by exact Hnd'. unfold group_of.
    symmetry. apply filter_or_length.
    intros j _ Hj. unfold in_group in *.
    destruct (name_of j) as [m|]; [|discriminate].
    apply String.eqb_eq in Hj. subst m.
    destruct (existsb _ ns) eqn:E; [|reflexivity].
    apply existsb_exists in E. destruct E as (k & Hk & Hkn).
    apply String.eqb_eq in Hkn. now subst k.
Qed.

Lemma filter_length_split {A} (f : A -> bool) (l : list A) :
  List.length l
  = List.length (filter f l) + List.length (filter (fun x => negb (f x)) l).
Proof.
  induction l as [|a l IH]; cbn; [reflexivity|].
  destruct (f a); cbn; lia.
Qed.

(** X16: the counts of the summary add up, with one exception that the
    code makes.  When every expense has its category, [count] is the sum
    of the [count]s of the category entries plus the number of rows whose
    category is named like a property that every object inherits
    ("constructor", "toString", ...): such a name is read as present in
    the accumulator, no entry is ever stored for it, and its rows are
    counted in [count] and [total] only.  With no such category name, the
    entries' counts add up to [count] exactly. *)
Theorem summary_counts_add_up :
  forall (user : User) (scale : nat) (startDate endDate : Date) (w : World),
    referential_integrity w ->
    let rows := fetched (user_id user) startDate endDate w in
    exists summary,
      fst (getDashboardSummary (Some user) scale startDate endDate w)
      = Ok summary
      /\ Summary.count summary
         = list_sum (map Group.count (Summary.byCategory summary))
           + List.length (filter shadowed rows)
      /\ (forall g, In g (Summary.byCategory summary) ->
            JsObject.inherited (Group.name g) = false /\ 1 <= Group.count g)
      /\ (plain_names w ->
          Summary.count summary
          = list_sum (map Group.count (Summary.byCategory summary))).
Proof.
  intros user scale s e w Hfk rows.
  destruct (getDashboardSummary_spec user scale s e w Hfk)
    as (summary & Hrun & _ & Hcount & Hnodup & Hnames & Hgroups & _).
  fold rows in Hcount, Hnames, Hgroups.
  exists summary. split; [now rewrite Hrun|].
  assert (Hnamed : forall j, In j rows -> exists m, name_of j = Some m).
  { intros j Hj. apply fetched_rows in Hj. destruct Hj as (x & -> & Hx & _).
    destruct (Hfk x Hx) as [c Hc]. exists (Category.name c).
    unfold name_of. cbn. now rewrite Hc. }
  assert (Hsum : list_sum (map Group.count (Summary.byCategory summary))
                 = List.length (filter (fun j => negb (shadowed j)) rows)).
  { rewrite (map_ext_in Group.count
               (fun g => List.length (group_of (Group.name g) rows)))
      by (intros g Hg; now destruct (Hgroups g Hg)).
    rewrite <- (map_map Group.name (fun n => List.length (group_of n rows))).
    rewrite group_sizes_add_up by exact Hnodup.
    f_equal. apply filter_ext_in. intros j Hj.
    destruct (Hnamed j Hj) as [m Hm]. unfold shadowed. rewrite Hm.
    destruct (JsObject.inherited m) eqn:Hinh; cbn [negb].
    - destruct (existsb _ _) eqn:E; [|reflexivity].
      apply existsb_exists in E. destruct E as (k & Hk & Hkj).
      unfold in_group in Hkj. rewrite Hm in Hkj. apply String.eqb_eq in Hkj.
      subst k. apply Hnames in Hk. destruct Hk as [_ Hk]. congruence.
    - apply existsb_exists. exists m. split.
      + apply Hnames. split; [now exists j | exact Hinh].
      + unfold in_group. rewrite Hm. apply String.eqb_refl. }
  split.
  { rewrite Hcount, Hsum, (filter_length_split shadowed rows). lia. }
  split.
  { intros g Hg. split.
    - apply Hnames. now apply in_map.
    - destruct (Hgroups g Hg) as [_ ->].
      assert (Hn : In (Group.name g) (map Group.name (Summary.byCategory summary)))
        by now apply in_map.
      apply Hnames in Hn. destruct Hn as [(j & Hj & Hm) _].
      assert (Hin : In j (group_of (Group.name g) rows)).
      { apply filter_In. split; [exact Hj|]. unfold in_group. rewrite Hm.
        apply String.eqb_refl. }
      destruct (group_of (Group.name g) rows); [destruct Hin | cbn; lia]. }
  intros Hplain. rewrite Hcount, Hsum.
  rewrite (filter_all_true (fun j => negb (shadowed j))); [reflexivity|].
  intros j Hj. apply negb_true_iff.
  apply fetched_rows in Hj. destruct Hj as (x & -> & _).
  unfold shadowed, name_of. cbn [Prisma.join Prisma.category].
  destruct (Prisma.find_category _ _) as [c|] eqn:Hc; [|reflexivity].
  cbn. apply Hplain. unfold Prisma.find_category in Hc. now apply find_some in Hc.
Qed.

Lemma summary_counts_add_up_witness :
  exists summary,
    fst (getDashboardSummary (Some TestData.user) 2 Sample.jan1 Sample.feb5
           Fixture.shadow) = Ok summary
    /\ Summary.count summary = 2
    /\ map Group.count (Summary.byCategory summary) = [1]
    /\ List.length
         (filter shadowed
            (fetched "test-user-id" Sample.jan1 Sample.feb5 Fixture.shadow))
       = 1.
Proof.
  destruct (summary_counts_add_up TestData.user 2 Sample.jan1 Sample.feb5
              Fixture.shadow) as (summary & Hrun & _).
  - intros x Hx. cbn in Hx.
    destruct Hx as [<-|[<-|[]]]; eexists; reflexivity.
  - exists summary. split; [exact Hrun|].
    assert (E : Ok summary
                = fst (getDashboardSummary (Some TestData.user) 2 Sample.jan1
                         Sample.feb5 Fixture.shadow)) by now rewrite Hrun.
    vm_compute in E. injection E as ->.
    split; [reflexivity|]. split; reflexivity.
Defined.

(* ===================================================================== *)
(** ** The guard and the outcomes of [createExpense] *)
(* ===================================================================== *)

Lemma leb_zero_false (x : number) :
  JsNumber.leb x JsNumber.zero = false
  <-> JsNumber.positive x = true \/ x = S754_nan.
Proof.
  destruct x as [s|s| |s m e]; try destruct s; cbn;
    intuition (congruence || discriminate).
Qed.

(** X17: what the amount guard of [createExpense] lets through.  The call
    is refused with "Amount must be greater than 0" exactly when
    [amount <= 0] holds as a comparison of numbers.  The amounts that pass
    are the positive numbers, positive infinity among them, and also NaN,
    for which every comparison is false: for each of them the store is
    asked to create the row. *)
Theorem createExpense_guard :
  forall newDecimal parseDate (user : User) (data : CreateInput.t) (w : World),
    (fst (createExpense (Some user) newDecimal parseDate data w)
     = Err InvalidAmount
     <-> JsNumber.leb (CreateInput.amount data) JsNumber.zero = true)
    /\ (JsNumber.leb (CreateInput.amount data) JsNumber.zero = false
        <-> JsNumber.positive (CreateInput.amount data) = true
            \/ CreateInput.amount data = S754_nan)
    /\ (JsNumber.positive (CreateInput.amount data) = true
        \/ CreateInput.amount data = S754_nan ->
        exists rest,
          log (snd (createExpense (Some user) newDecimal parseDate data w))
          = log w
            ++ prisma (expense_create_call
                         (create_data user newDecimal parseDate data))
            :: rest).
Proof.
  intros newDecimal parseDate user data w.
  split; [|split; [apply leb_zero_false|]].
  - unfold createExpense, Prisma.expense_create. run.
    destruct (JsNumber.leb _ _); [tauto|].
    split; [|discriminate].
    destruct (parseDate _) as [t|]; [|discriminate].
    destruct (Prisma.find_category _ _); discriminate.
  - intros Hpass. apply leb_zero_false in Hpass.
    unfold createExpense, Prisma.expense_create. run. rewrite Hpass.
    fold (note_or_null (CreateInput.note data)).
    fold (create_data user newDecimal parseDate data).
    destruct (data_date _) as [t|];
      [destruct (Prisma.find_category _ _)|];
      eexists; cbn [snd log]; rewrite <- ?app_assoc; reflexivity.
Qed.

Lemma createExpense_guard_witness :
  exists rest,
    log (snd (createExpense (Some Sample.alice) Sample.newDecimal
                Sample.parseDate Fixture.not_a_number Sample.world))
    = log Sample.world
      ++ prisma (expense_create_call
                   (create_data Sample.alice Sample.newDecimal Sample.parseDate
                      Fixture.not_a_number))
      :: rest.
Proof.
  apply (proj2 (proj2 (createExpense_guard Sample.newDecimal Sample.parseDate
                         Sample.alice Fixture.not_a_number Sample.world))).
  right. reflexivity.
Defined.

(** X18: [createExpense] is all or nothing, and what it inserts is the
    caller's.  Whatever the session and the input, either it succeeds and
    the expense table has exactly one more row, at the end, with a fresh
    id, the session's user as owner (the input cannot name another), the
    input's amount, category and parsed date, a category that exists, and
    the note or null when the note is empty; or it throws (Unauthorized,
    the amount error, or the store's refusal of a date that does not parse
    or of an unknown category) and the expense table is what it was.  The
    category table is unchanged either way. *)
Theorem createExpense_all_or_nothing :
  forall session newDecimal parseDate (data : CreateInput.t) (w : World),
    let out := createExpense session newDecimal parseDate data w in
    categories (snd out) = categories w
    /\ ((exists user row c,
           session = Some user
           /\ fst out = Ok tt
           /\ expenses (snd out) = expenses w ++ [row]
           /\ ~ In (Expense.id row) (map Expense.id (expenses w))
           /\ Expense.userId row = user_id user
           /\ Expense.amount row = newDecimal (CreateInput.amount data)
           /\ Expense.categoryId row = CreateInput.categoryId data
           /\ Prisma.find_category (Expense.categoryId row) (categories w)
              = Some c
           /\ parseDate (CreateInput.date data) = Some (Expense.date row)
           /\ Expense.note row = note_or_null (CreateInput.note data))
        \/ (exists e,
              fst out = Err e
              /\ (e = Unauthorized \/ e = InvalidAmount \/ e = StorageError)
              /\ expenses (snd out) = expenses w)).
Proof.
  intros session newDecimal parseDate data w out. subst out.
  assert (Hrefused : forall e w',
            (e = Unauthorized \/ e = InvalidAmount \/ e = StorageError) ->
            categories w' = categories w -> expenses w' = expenses w ->
            forall out, out = (@Err unit e, w') ->
            categories (snd out) = categories w
            /\ ((exists user row c,
                   session = Some user
                   /\ fst out = Ok tt
                   /\ expenses (snd out) = expenses w ++ [row]
                   /\ ~ In (Expense.id row) (map Expense.id (expenses w))
                   /\ Expense.userId row = user_id user
                   /\ Expense.amount row = newDecimal (CreateInput.amount data)
                   /\ Expense.categoryId row = CreateInput.categoryId data
                   /\ Prisma.find_category (Expense.categoryId row) (categories w)
                      = Some c
                   /\ parseDate (CreateInput.date data) = Some (Expense.date row)
                   /\ Expense.note row = note_or_null (CreateInput.note data))
                \/ (exists e,
                      fst out = Err e
                      /\ (e = Unauthorized \/ e = InvalidAmount
                          \/ e = StorageError)
                      /\ expenses (snd out) = expenses w))).
  { intros e w' He Hc Hx out ->. split; [exact Hc|]. right. exists e.
    split; [reflexivity|]. split; [exact He | exact Hx]. }
  unfold createExpense, Prisma.expense_create. run.
  destruct session as [user|];
    [|apply (Hrefused Unauthorized w); auto].
  destruct (JsNumber.leb _ _);
    [apply (Hrefused InvalidAmount w); auto|].
  cbn [data_date data_categoryId].
  destruct (parseDate (CreateInput.date data)) as [t|] eqn:Hdate;
    [|eapply (Hrefused StorageError); [auto | | | reflexivity]; reflexivity].
  destruct (Prisma.find_category _ _) as [c|] eqn:Hcat;
    [|eapply (Hrefused StorageError); [auto | | | reflexivity]; reflexivity].
  split; [reflexivity|]. left. exists user. eexists. exists c.
  cbn [fst snd expenses]. split; [reflexivity|]. split; [reflexivity|].
  split; [reflexivity|]. cbn. split; [apply new_id_fresh|].
  repeat split; assumption.
Qed.

(* ===================================================================== *)
(** ** The category list *)
(* ===================================================================== *)

Lemma ascii_compare_refl (a : ascii) : Ascii.compare a a = Eq.
Proof. unfold Ascii.compare. apply N.compare_refl. Qed.

Lemma ascii_compare_lt_trans (a b c : ascii) :
  Ascii.compare a b = Lt -> Ascii.compare b c = Lt -> Ascii.compare a c = Lt.
Proof. unfold Ascii.compare. rewrite !N.compare_lt_iff. lia. Qed.

Lemma string_compare_lt_trans (a : string) :
  forall b c, String.compare a b = Lt -> String.compare b c = Lt ->
              String.compare a c = Lt.
Proof.
  induction a as [|x a IH]; intros [|y b] [|z c]; cbn; try congruence.
  destruct (Ascii.compare x y) eqn:Hxy; try discriminate.
  - apply Ascii.compare_eq_iff in Hxy. subst y.
    destruct (Ascii.compare x z); try discriminate; [apply IH | reflexivity].
  - destruct (Ascii.compare y z) eqn:Hyz; try discriminate.
    + apply Ascii.compare_eq_iff in Hyz. subst z. now rewrite Hxy.
    + now rewrite (ascii_compare_lt_trans x y z Hxy Hyz).
Qed.

Lemma string_leb_trans (a b c : string) :
  String.leb a b = true -> String.leb b c = true -> String.leb a c = true.
Proof.
  unfold String.leb.
  destruct (String.compare a b) eqn:Hab; try discriminate; intros _.
  - apply String.compare_eq_iff in Hab. now subst b.
  - destruct (String.compare b c) eqn:Hbc; try discriminate; intros _.
    + apply String.compare_eq_iff in Hbc. subst c. now rewrite Hab.
    + now rewrite (string_compare_lt_trans a b c Hab Hbc).
Qed.

Lemma name_after_leb (x y : Category.t) :
  Prisma.name_after x y = false <-> name_ascending x y.
Proof.
  unfold Prisma.name_after, name_ascending, String.ltb, String.leb.
  rewrite (String.compare_antisym (Category.name x) (Category.name y)).
  destruct (String.compare (Category.name y) (Category.name x)); cbn;
    intuition discriminate.
Qed.

Lemma string_compare_refl (n : string) : String.compare n n = Eq.
Proof.
  pose proof (String.compare_antisym n n) as H.
  destruct (String.compare n n); [reflexivity | discriminate | discriminate].
Qed.

Lemma name_after_sorted (l : list Category.t) :
  StronglySorted name_ascending (stable_sort Prisma.name_after l).
Proof.
  assert (H : StronglySorted (precedes Prisma.name_after)
                (stable_sort Prisma.name_after l)).
  { apply stable_sort_strongly_sorted.
    - intros x y Hxy. apply name_after_leb.
      unfold Prisma.name_after, name_ascending, String.ltb, String.leb in *.
      now destruct (String.compare (Category.name y) (Category.name x)).
    - intros x y z. unfold precedes. rewrite !name_after_leb.
      apply string_leb_trans. }
  revert H. apply StronglySorted_ind; [constructor|].
  intros a r _ IH Hall. constructor; [exact IH|].
  revert Hall. apply Forall_impl. intros b. apply name_after_leb.
Qed.

(** Inserting a category leaves those of any one name in their order. *)
Lemma insert_keeps_names (n : string) (a : Category.t) (r : list Category.t) :
  filter (fun c => String.eqb (Category.name c) n) (insert Prisma.name_after a r)
  = filter (fun c => String.eqb (Category.name c) n) (a :: r).
Proof.
  induction r as [|b r IH]; [reflexivity|].
  cbn [insert]. destruct (Prisma.name_after a b) eqn:E; [|reflexivity].
  cbn [filter]. rewrite IH. cbn [filter].
  destruct (String.eqb_spec (Category.name b) n) as [Hbn|Hbn]; [|reflexivity].
  destruct (String.eqb_spec (Category.name a) n) as [Han|Han]; [|reflexivity].
  unfold Prisma.name_after, String.ltb in E.
  rewrite Hbn, Han, string_compare_refl in E. discriminate.
Qed.

(** X19: [getCategories] answers with the whole category table in
    ascending order of the names: the answer holds each category of the
    table once, each name is at most the names after it, and categories of
    one name keep the order of the table.  It asks for no session and
    leaves both tables as they were. *)
Theorem getCategories_sorted_by_name :
  forall (w : World),
    exists l,
      getCategories w
      = (Ok l, logged w [prisma (category_findMany_call (Some asc))])
      /\ Permutation l (categories w)
      /\ StronglySorted name_ascending l
      /\ (forall n,
            filter (fun c => String.eqb (Category.name c) n) l
            = filter (fun c => String.eqb (Category.name c) n) (categories w)).
Proof.
  intros w. exists (stable_sort Prisma.name_after (categories w)).
  split; [reflexivity|]. split; [apply stable_sort_perm|].
  split; [apply name_after_sorted|].
  intros n. induction (categories w) as [|a l IH]; [reflexivity|].
  cbn [stable_sort]. rewrite insert_keeps_names. cbn [filter]. now rewrite IH.
Qed.

(* ===================================================================== *)
(** ** The demo expenses in the listing *)
(* ===================================================================== *)

Lemma tuples_offset_bound (cats : list Category.t) (t : Demo.Tuple) :
  In t (Demo.tuples cats) -> (0 <= Demo.dayOffset t <= 28)%Z.
Proof.
  rewrite tuples_by_length. rewrite !in_app_iff. intros [H|[H|[H|H]]].
  - unfold Demo.catalog in H. cbn [In] in H.
    repeat (destruct H as [<-|H]; [cbn [Demo.dayOffset]; lia|]). destruct H.
  - destruct (7 <=? List.length cats); [|destruct H].
    unfold Demo.travel in H. cbn [In] in H.
    repeat (destruct H as [<-|H]; [cbn [Demo.dayOffset]; lia|]). destruct H.
  - destruct (8 <=? List.length cats); [|destruct H].
    unfold Demo.education in H. cbn [In] in H.
    repeat (destruct H as [<-|H]; [cbn [Demo.dayOffset]; lia|]). destruct H.
  - destruct (9 <=? List.length cats); [|destruct H].
    unfold Demo.other in H. cbn [In] in H.
    repeat (destruct H as [<-|H]; [cbn [Demo.dayOffset]; lia|]). destruct H.
Qed.

Lemma demo_rows_In user newDecimal clock cats (l : list Demo.Tuple)
    (ids : list string) (row : Expense.t) :
  In row (demo_rows user newDecimal ids (expected clock cats 0 l)) ->
  exists i t,
    nth_error l i = Some t
    /\ Expense.userId row = user_id user
    /\ Expense.date row = (clock i - Demo.day * Demo.dayOffset t)%Z.
Proof.
  intros Hin. apply In_nth_error in Hin. destruct Hin as [i Hi].
  assert (Hlt : i < List.length l).
  { rewrite <- (expected_length clock cats l 0),
            <- (demo_rows_length user newDecimal _ ids).
    apply nth_error_Some. congruence. }
  destruct (nth_error l i) as [t|] eqn:Ht;
    [|apply nth_error_None in Ht; lia].
  destruct (demo_rows_nth user newDecimal clock cats l 0 ids i t Ht)
    as (row' & Hrow' & Hu & _ & _ & Hd & _).
  assert (row' = row) by congruence. subst row'.
  exists i, t. repeat split; assumption.
Qed.

Lemma demo_rows_recent user newDecimal clock (w : World) (row : Expense.t) :
  In row (demo_rows user newDecimal (map Expense.id (expenses w))
            (expected clock (categories w) 0 (Demo.tuples (categories w)))) ->
  Expense.userId row = user_id user
  /\ exists i, i < demo_count (List.length (categories w))
       /\ (clock i - 28 * 86400000 <= Expense.date row <= clock i)%Z.
Proof.
  intros Hrow. apply demo_rows_In in Hrow.
  destruct Hrow as (i & t & Ht & Hu & Hd).
  split; [exact Hu|]. exists i. split.
  - rewrite <- tuples_length. apply nth_error_Some. congruence.
  - apply nth_error_In, tuples_offset_bound in Ht.
    rewrite Hd. unfold Demo.day. lia.
Qed.

(** A listing over a window that covers the demo expenses counts them. *)
Lemma listing_total_after_demo (user : User) (scale : nat) newDecimal
    (clock : nat -> Date) (w : World) (s e : Date) (c : option string)
    (sortBy : SortBy) (page pageSize : Z) :
  6 <= List.length (categories w) ->
  (forall i, i < demo_count (List.length (categories w)) ->
     (s + 28 * 86400000 <= clock i <= e)%Z) ->
  category_filter c = None ->
  (1 <= page)%Z -> (1 <= pageSize)%Z ->
  exists r0 r1,
    fst (getExpenses (Some user) scale s e c (Some sortBy) (Some page)
           (Some pageSize) w) = Ok r0
    /\ fst (getExpenses (Some user) scale s e c (Some sortBy) (Some page)
              (Some pageSize)
              (snd (createDemoExpenses (Some user) newDecimal clock w))) = Ok r1
    /\ Pagination.total (ExpensesPage.pagination r1)
       = (Pagination.total (ExpensesPage.pagination r0)
          + Z.of_nat (demo_count (List.length (categories w))))%Z.
Proof.
  intros Hlen Hwin Hc Hp Hs.
  rewrite (createDemoExpenses_run user newDecimal clock w Hlen). cbn [snd].
  eexists. eexists. split; [|split].
  - rewrite getExpenses_run by lia. reflexivity.
  - rewrite getExpenses_run by lia. reflexivity.
  - cbn [ExpensesPage.pagination Pagination.total expenses seeded_world].
    rewrite filter_app, length_app, Nat2Z.inj_add. f_equal. f_equal.
    rewrite filter_all_true.
    + now rewrite demo_rows_length, expected_length, tuples_length.
    + intros row Hrow.
      destruct (demo_rows_recent _ _ _ _ _ Hrow) as (Hu & i & Hi & Hd).
      apply matches_in_scope. specialize (Hwin i Hi).
      split; [exact Hu|]. split; [lia|].
      intros k Hk. rewrite Hc in Hk. discriminate.
Qed.

(** X20: the demo expenses are recent, and the listing shows them.  With
    the six categories it needs, [createDemoExpenses] appends rows that are
    each dated between 28 days before the clock reading it was built from
    and that reading itself, none later.  So a listing of the caller
    without a category filter, over a window that reaches from 28 days
    before the earliest reading to the latest one, counts all of them: its
    [total] grows by the number of the demo expenses. *)
Theorem demo_expenses_are_recent_and_listed :
  forall (user : User) (scale : nat) newDecimal (clock : nat -> Date)
         (w : World),
    6 <= List.length (categories w) ->
    let n := demo_count (List.length (categories w)) in
    let w1 := snd (createDemoExpenses (Some user) newDecimal clock w) in
    exists rows,
      expenses w1 = expenses w ++ rows
      /\ List.length rows = n
      /\ (forall row, In row rows ->
            exists i, i < n
              /\ (clock i - 28 * 86400000 <= Expense.date row <= clock i)%Z)
      /\ forall (startDate endDate : Date) (categoryId : option string)
                (sortBy : SortBy) (page pageSize : Z),
           (forall i, i < n ->
              (startDate + 28 * 86400000 <= clock i <= endDate)%Z) ->
           category_filter categoryId = None ->
           (1 <= page)%Z -> (1 <= pageSize)%Z ->
           exists r0 r1,
             fst (getExpenses (Some user) scale startDate endDate categoryId
                    (Some sortBy) (Some page) (Some pageSize) w) = Ok r0
             /\ fst (getExpenses (Some user) scale startDate endDate categoryId
                       (Some sortBy) (Some page) (Some pageSize) w1) = Ok r1
             /\ Pagination.total (ExpensesPage.pagination r1)
                = (Pagination.total (ExpensesPage.pagination r0) + Z.of_nat n)%Z.
Proof.
  intros user scale newDecimal clock w Hlen n w1.
  exists (demo_rows user newDecimal (map Expense.id (expenses w))
            (expected clock (categories w) 0 (Demo.tuples (categories w)))).
  split.
  { subst w1. now rewrite (createDemoExpenses_run user newDecimal clock w Hlen). }
  split.
  { unfold n. now rewrite demo_rows_length, expected_length, tuples_length. }
  split.
  { intros row Hrow. now destruct (demo_rows_recent _ _ _ _ _ Hrow). }
  intros s e c sortBy page pageSize Hwin Hc Hp Hs.
  now apply listing_total_after_demo.
Qed.

Lemma demo_expenses_are_recent_and_listed_witness :
  exists rows,
    expenses (snd (createDemoExpenses (Some Sample.alice) Sample.newDecimal
                     (fun _ => Sample.feb5) Sample.world))
    = expenses Sample.world ++ rows
    /\ List.length rows = 29.
Proof.
  destruct (demo_expenses_are_recent_and_listed Sample.alice Sample.scale
              Sample.newDecimal (fun _ => Sample.feb5) Sample.world)
    as (rows & Hrows & Hlen & _); [cbn; lia|].
  exists rows. split; [exact Hrows | exact Hlen].
Defined.

(* ===================================================================== *)
(** ** Seeding the categories *)
(* ===================================================================== *)

Lemma upsert_present (name : string) (table : list Category.t) :
  In name (map Category.name table) -> Seed.upsert name table = table.
Proof.
  intros Hin. unfold Seed.upsert.
  destruct (find _ table) as [c|] eqn:E; [reflexivity|].
  apply in_map_iff in Hin. destruct Hin as (c & Hc & Hin).
  apply (find_none _ _ E) in Hin. rewrite Hc, String.eqb_refl in Hin.
  discriminate.
Qed.

Lemma upsert_absent (name : string) (table : list Category.t) :
  ~ In name (map Category.name table) ->
  Seed.upsert name table
  = table ++ [Category.mk (Prisma.new_id (map Category.id table)) name].
Proof.
  intros Hnot. unfold Seed.upsert.
  destruct (find _ table) as [c|] eqn:E; [|reflexivity].
  apply find_some in E. destruct E as [Hin Hc]. apply String.eqb_eq in Hc.
  exfalso. apply Hnot. rewrite <- Hc. now apply in_map.
Qed.

(** What a run of upserts does to a table. *)
Lemma upserts_spec (names : list string) :
  forall table,
    exists added,
      fold_left (fun t name => Seed.upsert name t) names table = table ++ added
      /\ (forall n, In n names -> In n (map Category.name (table ++ added)))
      /\ (forall c, In c added ->
            In (Category.name c) names
            /\ ~ In (Category.name c) (map Category.name table))
      /\ (NoDup (map Category.id table) ->
          NoDup (map Category.id (table ++ added)))
      /\ (NoDup (map Category.name table) ->
          NoDup (map Category.name (table ++ added))).
Proof.
  induction names as [|n ns IH]; intros table.
  - exists []. rewrite app_nil_r. cbn. repeat split; auto; intros ? [].
  - cbn [fold_left].
    destruct (in_dec string_dec n (map Category.name table)) as [Hin|Hnot].
    + rewrite (upsert_present n table Hin).
      destruct (IH table) as (added & Hrun & Hall & Hadded & Hid & Hnm).
      exists added. split; [exact Hrun|]. split; [|split; [|split]]; auto.
      * intros m [<-|Hm]; [|now apply Hall].
        rewrite map_app. apply in_or_app. now left.
      * intros c Hc. destruct (Hadded c Hc). split; [now right | assumption].
    + rewrite (upsert_absent n table Hnot).
      set (new := Category.mk (Prisma.new_id (map Category.id table)) n).
      destruct (IH (table ++ [new])) as (added & Hrun & Hall & Hadded & Hid & Hnm).
      exists (new :: added).
      replace (table ++ new :: added) with ((table ++ [new]) ++ added)
        by now rewrite <- app_assoc.
      split; [exact Hrun|]. split; [|split; [|split]].
      * intros m [<-|Hm]; [|now apply Hall].
        rewrite !map_app. apply in_or_app. left. apply in_or_app. right.
        now left.
      * intros c [<-|Hc]; [split; [now left | exact Hnot]|].
        destruct (Hadded c Hc) as [Hc1 Hc2]. split; [now right|].
        intros Habs. apply Hc2. rewrite map_app. apply in_or_app. now left.
      * intros Hnd. apply Hid. rewrite map_app. cbn [map Category.id new].
        apply NoDup_app; [exact Hnd | repeat constructor; intros [] |].
        intros x Hx [<-|[]]. now apply new_id_fresh in Hx.
      * intros Hnd. apply Hnm. rewrite map_app. cbn [map Category.name new].
        apply NoDup_app; [exact Hnd | repeat constructor; intros [] |].
        intros x Hx [<-|[]]. now apply Hnot.
Qed.

Lemma upserts_present (names : list string) (table : list Category.t) :
  (forall n, In n names -> In n (map Category.name table)) ->
  fold_left (fun t name => Seed.upsert name t) names table = table.
Proof.
  induction names as [|n ns IH]; intros Hall; [reflexivity|].
  cbn [fold_left]. rewrite upsert_present by (apply Hall; now left).
  apply IH. intros m Hm. apply Hall. now right.
Qed.

Lemma seed_names_present (table : list Category.t) (n : string) :
  In n Seed.categories -> In n (map Category.name (Seed.main table)).
Proof.
  destruct (upserts_spec Seed.categories table) as (added & Hrun & Hall & _).
  fold (Seed.main table) in Hrun. rewrite Hrun. apply Hall.
Qed.

Lemma seed_at_least_nine (table : list Category.t) :
  9 <= List.length (Seed.main table).
Proof.
  rewrite <- (length_map Category.name (Seed.main table)).
  change 9 with (List.length Seed.categories).
  apply NoDup_incl_length; [|intros n; apply seed_names_present].
  unfold Seed.categories.
  repeat (constructor; [cbn; intuition discriminate|]). constructor.
Qed.

(** X21: the seed script can be run again and again.  [main] keeps every
    category that is in the table as it is and in its place, and appends
    one category for each of its nine names that the table lacks, so
    afterwards all nine names are there and the table has at least nine
    categories; a second run changes nothing.  Unique ids and unique names
    stay unique. *)
Theorem seed_can_be_rerun :
  forall (table : list Category.t),
    let seeded := Seed.main table in
    (exists added,
       seeded = table ++ added
       /\ forall c, In c added ->
            In (Category.name c) Seed.categories
            /\ ~ In (Category.name c) (map Category.name table))
    /\ (forall n, In n Seed.categories -> In n (map Category.name seeded))
    /\ 9 <= List.length seeded
    /\ Seed.main seeded = seeded
    /\ (NoDup (map Category.id table) -> NoDup (map Category.id seeded))
    /\ (NoDup (map Category.name table) -> NoDup (map Category.name seeded)).
Proof.
  intros table seeded.
  destruct (upserts_spec Seed.categories table)
    as (added & Hrun & Hall & Hadded & Hid & Hnm).
  fold (Seed.main table) in Hrun. fold seeded in Hrun.
  rewrite <- Hrun in Hall, Hid, Hnm.
  split; [now exists added|]. split; [exact Hall|]. split; [|split].
  - apply seed_at_least_nine.
  - unfold Seed.main. now apply upserts_present.
  - tauto.
Qed.

Lemma seed_can_be_rerun_witness :
  NoDup (map Category.name (Seed.main [Category.mk "c9" "Other"]))
  /\ Seed.main (Seed.main [Category.mk "c9" "Other"])
     = Seed.main [Category.mk "c9" "Other"].
Proof.
  pose proof (seed_can_be_rerun [Category.mk "c9" "Other"]) as H.
  cbv zeta in H. destruct H as (_ & _ & _ & Hagain & _ & Hnames).
  split; [|exact Hagain].
  apply Hnames. repeat constructor. cbn. tauto.
Defined.

Lemma seed_lookup (k : nat) (c : Category.t) :
  nth_error (Seed.main []) k = Some c ->
  Prisma.find_category (Category.id c) (Seed.main []) = Some c
  /\ nth_error Seed.categories k = Some (Category.name c).
Proof.
  intros H.
  do 9 (destruct k as [|k];
        [vm_compute in H; injection H as <-; split; vm_compute; reflexivity|]).
  vm_compute in H. destruct k; discriminate.
Qed.

(** X22: seeding makes the demo data work.  On a category table that the
    seed script has run over, [createDemoExpenses] never meets a missing
    category: it succeeds and gives the caller all 29 demo expenses.
    When the table was empty before the seeding, the categories stand in
    the order of the script, so each demo expense is filed under the
    seeded name at the index that its entry reads: the first five under
    "Food & Dining", and so on. *)
Theorem seeding_enables_demo :
  forall (table : list Category.t) (user : User) newDecimal
         (clock : nat -> Date) (w : World),
    categories w = Seed.main table ->
    let w1 := snd (createDemoExpenses (Some user) newDecimal clock w) in
    fst (createDemoExpenses (Some user) newDecimal clock w) = Ok tt
    /\ owned_count (user_id user) w1 = owned_count (user_id user) w + 29
    /\ (table = [] ->
        exists rows,
          expenses w1 = expenses w ++ rows
          /\ forall i t,
               nth_error (Demo.tuples (categories w)) i = Some t ->
               exists row c,
                 nth_error rows i = Some row
                 /\ Expense.note row = Some (Demo.note t)
                 /\ Prisma.find_category (Expense.categoryId row) (categories w)
                    = Some c
                 /\ nth_error Seed.categories (Demo.categoryIndex t)
                    = Some (Category.name c)).
Proof.
  intros table user newDecimal clock w Hcat w1. subst w1.
  assert (Hlen : 9 <= List.length (categories w)).
  { rewrite Hcat. apply seed_at_least_nine. }
  rewrite (createDemoExpenses_run user newDecimal clock w) by lia.
  cbn [fst snd]. split; [reflexivity|]. split.
  { rewrite owned_count_seeded. f_equal. unfold demo_count.
    destruct (Nat.leb_spec 7 (List.length (categories w))); [|lia].
    destruct (Nat.leb_spec 8 (List.length (categories w))); [|lia].
    destruct (Nat.leb_spec 9 (List.length (categories w))); [|lia].
    reflexivity. }
  intros ->. eexists. split; [reflexivity|].
  intros i t Ht.
  destruct (demo_rows_nth user newDecimal clock (categories w)
              (Demo.tuples (categories w)) 0 (map Expense.id (expenses w)) i t Ht)
    as (row & Hrow & _ & _ & Hc & _ & Hnote).
  assert (Hidx : Demo.categoryIndex t < List.length (categories w)).
  { apply tuples_index_bound; [lia|]. now apply nth_error_In in Ht. }
  destruct (nth_error (categories w) (Demo.categoryIndex t)) as [c|] eqn:E;
    [|apply nth_error_None in E; lia].
  exists row, c. split; [exact Hrow|]. split; [exact Hnote|].
  rewrite Hc, Hcat. rewrite Hcat in E. now apply seed_lookup.
Qed.

Lemma seeding_enables_demo_witness :
  fst (createDemoExpenses (Some Sample.alice) Sample.newDecimal
         (fun _ => Sample.feb5) (seeded_from [] Sample.world)) = Ok tt.
Proof.
  apply (seeding_enables_demo [] Sample.alice Sample.newDecimal
           (fun _ => Sample.feb5) (seeded_from [] Sample.world)).
  reflexivity.
Defined.

(* ===================================================================== *)
(** ** The route guard *)
(* ===================================================================== *)

(** X23: what the route guard lets through, and that its redirects
    settle.  A request with no user is answered with the response of
    [updateSession], and not with a redirect, only for "/login" and for
    paths that start with "/auth"; a request with a user for every path
    but "/login".  A redirect goes to "/login" or to "/", never to the
    path that was asked for, and the redirected request, under the same
    session, is not redirected again. *)
Theorem middleware_redirects_settle :
  forall (user : option User) (pathname : string),
    (Middleware.middleware None pathname = Middleware.response
     <-> pathname = "/login" \/ Middleware.startsWith pathname "/auth" = true)
    /\ (forall u,
          Middleware.middleware (Some u) pathname = Middleware.response
          <-> pathname <> "/login")
    /\ (forall target,
          Middleware.middleware user pathname = Middleware.redirect target ->
          (target = "/login" \/ target = "/")
          /\ target <> pathname
          /\ Middleware.middleware user target = Middleware.response).
Proof.
  intros user pathname. unfold Middleware.middleware. split; [|split].
  - cbn [negb andb].
    destruct (String.eqb_spec pathname "/login") as [->|Hne]; cbn [negb andb].
    + split; [auto | reflexivity].
    + destruct (Middleware.startsWith pathname "/auth"); cbn [negb];
        split; try discriminate; auto.
      intros [H|H]; [contradiction | discriminate].
  - intros u. cbn [negb andb].
    destruct (String.eqb_spec pathname "/login") as [->|Hne].
    + split; [discriminate | intros H; now contradiction H].
    + split; [intros _; exact Hne | reflexivity].
  - intros target. destruct user as [u|]; cbn [negb andb].
    + destruct (String.eqb_spec pathname "/login") as [->|Hne];
        [|discriminate].
      intros [= <-]. split; [now right|]. split; [discriminate | reflexivity].
    + destruct (String.eqb_spec pathname "/login") as [->|Hne]; cbn [negb andb];
        [discriminate|].
      destruct (Middleware.startsWith pathname "/auth"); cbn [negb];
        [discriminate|].
      intros [= <-]. split; [now left|]. split; [congruence | reflexivity].
Qed.

Lemma middleware_redirects_settle_witness :
  Middleware.middleware None "/expenses" = Middleware.redirect "/login"
  /\ Middleware.middleware None "/login" = Middleware.response.
Proof.
  split; [reflexivity|].
  apply (proj2 (proj2 (middleware_redirects_settle None "/expenses"))
           "/login" eq_refl).
Defined.

(* ===================================================================== *)
(** ** The expenses page *)
(* ===================================================================== *)

(** X24: the expenses page starts from what its first fetch returns.  The
    server component lists the categories by name and the first ten of the
    caller's expenses of the window, newest first, asking for no category;
    the client starts on the filter "all", the order "date-desc", page 1
    and page size 10, and its first fetch over the same window returns the
    very rows the server rendered.  Both tables are left as they were. *)
Theorem expenses_page_first_fetch_agrees :
  forall (user : User) (scale : nat) (range : Date * Date) (w : World),
    exists cats rows,
      fst (Pages.ExpensesPage (Some user) scale range w) = Ok (cats, rows)
      /\ Permutation cats (categories w)
      /\ StronglySorted name_ascending cats
      /\ rows = firstn 10 (listing user scale (fst range) (snd range) None
                             date_desc w)
      /\ page_of user scale (fst range) (snd range) (Some "all") date_desc 10
           (snd (Pages.ExpensesPage (Some user) scale range w)) 1
         = rows
      /\ expenses (snd (Pages.ExpensesPage (Some user) scale range w))
         = expenses w
      /\ categories (snd (Pages.ExpensesPage (Some user) scale range w))
         = categories w.
Proof.
  intros user scale [s e] w. cbn [fst snd].
  set (all := listing user scale s e None date_desc w).
  assert (Hfirst : forall w',
            page_rows date_desc 1 10
              (filter (Prisma.matches (where_of (user_id user) s e None))
                 (expenses w'))
            = firstn 10
                (stable_sort (Prisma.row_after (orderBy_of date_desc))
                   (filter (Prisma.matches (where_of (user_id user) s e None))
                      (expenses w')))) by reflexivity.
  assert (Hpage : Pages.ExpensesPage (Some user) scale (s, e) w
                  = (Ok (stable_sort Prisma.name_after (categories w),
                         firstn 10 all),
                     logged
                       (logged w [prisma (category_findMany_call (Some asc))])
                       (listing_calls (where_of (user_id user) s e None)
                          date_desc 1 10))).
  { unfold Pages.ExpensesPage. cbv zeta. cbn [fst snd].
    unfold bind at 1.
    change (getCategories w)
      with (Ok (stable_sort Prisma.name_after (categories w)),
            logged w [prisma (category_findMany_call (Some asc))]).
    unfold bind at 1. rewrite getExpenses_run by lia.
    unfold ret. cbn [ExpensesPage.data logged expenses categories].
    rewrite Hfirst. unfold all, listing. now rewrite firstn_map. }
  exists (stable_sort Prisma.name_after (categories w)), (firstn 10 all).
  rewrite Hpage. cbn [fst snd].
  split; [reflexivity|]. split; [apply stable_sort_perm|].
  split; [apply name_after_sorted|]. split; [reflexivity|].
  split; [|split; reflexivity].
  unfold page_of. rewrite getExpenses_run by lia.
  cbn [fst ExpensesPage.data logged expenses categories].
  change (where_of (user_id user) s e (Some "all"))
    with (where_of (user_id user) s e None).
  rewrite Hfirst. unfold all, listing. now rewrite firstn_map.
Qed.

(* ===================================================================== *)
(** ** The rows of a listing *)
(* ===================================================================== *)

(** X25: every row that [getExpenses] returns, for any arguments, is the
    view of an expense of the table that belongs to the caller: it has
    that expense's id, date and note, its amount converted to a number,
    and, when every expense has its category, the category that the
    expense refers to, so that the pages can read [expense.category.name]
    on each row. *)
Theorem listed_rows_carry_their_category :
  forall (user : User) (scale : nat) (startDate endDate : Date)
         (categoryId : option string) (sortBy : option SortBy)
         (page pageSize : option Z) (w : World) (r : ExpensesPage.t)
         (v : ExpenseView.t),
    referential_integrity w ->
    fst (getExpenses (Some user) scale startDate endDate categoryId sortBy
           page pageSize w) = Ok r ->
    In v (ExpensesPage.data r) ->
    exists x cat,
      In x (expenses w)
      /\ Expense.userId x = user_id user
      /\ ExpenseView.id v = Expense.id x
      /\ ExpenseView.userId v = user_id user
      /\ ExpenseView.amount v = toNumber scale (Expense.amount x)
      /\ ExpenseView.date v = Expense.date x
      /\ ExpenseView.note v = Expense.note x
      /\ ExpenseView.category v = Some cat
      /\ In cat (categories w)
      /\ Category.id cat = Expense.categoryId x.
Proof.
  intros user scale s e c sortBy page pageSize w r v Hfk Hr Hv.
  destruct (getExpenses_rows _ _ _ _ _ _ _ _ _ _ _ Hr Hv)
    as (u & x & [= <-] & Hx & Hm & ->).
  destruct (Hfk x Hx) as [cat Hcat].
  apply matches_owned in Hm. cbn in Hm. apply String.eqb_eq in Hm.
  exists x, cat. cbn [view ExpenseView.id ExpenseView.userId ExpenseView.amount
                      ExpenseView.date ExpenseView.note ExpenseView.category
                      Prisma.join Prisma.row Prisma.category].
  rewrite Hcat. unfold Prisma.find_category in Hcat. apply find_some in Hcat.
  destruct Hcat as [Hin Hid]. apply String.eqb_eq in Hid.
  repeat split; auto.
Qed.

Lemma listed_rows_carry_their_category_witness :
  exists x cat,
    In x (expenses Sample.world)
    /\ ExpenseView.category
         (view Sample.scale (Prisma.join Sample.seeded Sample.e3)) = Some cat
    /\ Category.id cat = Expense.categoryId x.
Proof.
  destruct (listed_rows_carry_their_category Sample.alice Sample.scale
              Sample.jan1 Sample.feb5 None None None None Sample.world
              (ExpensesPage.mk
                 [ view Sample.scale (Prisma.join Sample.seeded Sample.e3);
                   view Sample.scale (Prisma.join Sample.seeded Sample.e1) ]
                 (Pagination.mk 1 10 2 (Some 1%Z)))
              (view Sample.scale (Prisma.join Sample.seeded Sample.e3)))
    as (x & cat & Hx & _ & _ & _ & _ & _ & _ & Hcat & _ & Hid).
  - intros x Hx. cbn in Hx.
    destruct Hx as [<-|[<-|[<-|[]]]]; eexists; reflexivity.
  - vm_compute. reflexivity.
  - cbn. auto.
  - exists x, cat. repeat split; assumption.
Defined.

(* ===================================================================== *)
(** ** The calendar *)
(* ===================================================================== *)

Section Calendar.

Local Open Scope Z_scope.

Lemma DayFromYear_step (y : Z) :
  JsDate.DayFromYear (y + 1) = JsDate.DayFromYear y + JsDate.DaysInYear y.
Proof.
  unfold JsDate.DayFromYear, JsDate.DaysInYear.
  destruct (Z.eqb_spec (y mod 4) 0), (Z.eqb_spec (y mod 100) 0),
    (Z.eqb_spec (y mod 400) 0); cbn [negb];
    Z.div_mod_to_equations; lia.
Qed.

Lemma DaysInYear_range (y : Z) : 365 <= JsDate.DaysInYear y <= 366.
Proof.
  unfold JsDate.DaysInYear.
  destruct (y mod 4 =? 0), (y mod 100 =? 0), (y mod 400 =? 0); cbn [negb]; lia.
Qed.

Lemma DayFromYear_mono (y y' : Z) :
  y < y' -> JsDate.DayFromYear y < JsDate.DayFromYear y'.
Proof.
  intros H. unfold JsDate.DayFromYear. Z.div_mod_to_equations. lia.
Qed.

Lemma year_search_spec (fuel : nat) :
  forall y day,
    day < JsDate.DayFromYear (y + 1) ->
    JsDate.DayFromYear (y - Z.of_nat fuel) <= day ->
    JsDate.DayFromYear (JsDate.year_search fuel y day) <= day
    < JsDate.DayFromYear (JsDate.year_search fuel y day + 1).
Proof.
  induction fuel as [|fuel IH]; intros y day Hhi Hlo; cbn [JsDate.year_search].
  - replace (y - Z.of_nat 0) with y in Hlo by lia. lia.
  - destruct (Z.leb_spec (JsDate.DayFromYear y) day) as [Hle|Hgt]; [lia|].
    apply IH.
    + now replace (y - 1 + 1) with y by lia.
    + now replace (y - 1 - Z.of_nat fuel) with (y - Z.of_nat (S fuel)) by lia.
Qed.

(** [YearFromTime] is the year the day falls in. *)
Lemma YearFromTime_spec (t : Z) :
  JsDate.DayFromYear (JsDate.YearFromTime t) <= JsDate.Day t
  < JsDate.DayFromYear (JsDate.YearFromTime t + 1).
Proof.
  unfold JsDate.YearFromTime. cbv zeta. apply year_search_spec.
  - unfold JsDate.DayFromYear. Z.div_mod_to_equations. lia.
  - rewrite Z2Nat.id by (Z.div_mod_to_equations; lia).
    unfold JsDate.DayFromYear. Z.div_mod_to_equations. lia.
Qed.

Lemma YearFromTime_unique (t y : Z) :
  JsDate.DayFromYear y <= JsDate.Day t < JsDate.DayFromYear (y + 1) ->
  JsDate.YearFromTime t = y.
Proof.
  intros H. pose proof (YearFromTime_spec t) as Hs.
  destruct (Z.lt_trichotomy (JsDate.YearFromTime t) y) as [Hlt|[Heq|Hgt]];
    [|exact Heq|].
  - assert (JsDate.YearFromTime t + 1 <= y) by lia.
    destruct (Z.eq_dec (JsDate.YearFromTime t + 1) y) as [E|E].
    + rewrite E in Hs. lia.
    + pose proof (DayFromYear_mono (JsDate.YearFromTime t + 1) y). lia.
  - destruct (Z.eq_dec (y + 1) (JsDate.YearFromTime t)) as [E|E].
    + rewrite E in H. lia.
    + pose proof (DayFromYear_mono (y + 1) (JsDate.YearFromTime t)). lia.
Qed.

Lemma DayWithinYear_range (t : Z) :
  0 <= JsDate.DayWithinYear t < 365 + JsDate.InLeapYear t.
Proof.
  unfold JsDate.DayWithinYear, JsDate.InLeapYear.
  pose proof (YearFromTime_spec t) as Hs.
  rewrite DayFromYear_step in Hs.
  pose proof (DaysInYear_range (JsDate.YearFromTime t)).
  destruct (Z.eqb_spec (JsDate.DaysInYear (JsDate.YearFromTime t)) 365); lia.
Qed.

Lemma InLeapYear_range (t : Z) : 0 <= JsDate.InLeapYear t <= 1.
Proof. unfold JsDate.InLeapYear. destruct (_ =? _); lia. Qed.

(** The month is one of the twelve, and the day of the year lies within
    it. *)
Lemma MonthFromTime_spec (t : Z) :
  0 <= JsDate.MonthFromTime t <= 11
  /\ JsDate.monthStart (JsDate.InLeapYear t) (JsDate.MonthFromTime t)
     <= JsDate.DayWithinYear t
     < JsDate.monthStart (JsDate.InLeapYear t) (JsDate.MonthFromTime t + 1)
  /\ JsDate.monthStart (JsDate.InLeapYear t) (JsDate.MonthFromTime t + 1)
     - JsDate.monthStart (JsDate.InLeapYear t) (JsDate.MonthFromTime t) <= 31.
Proof.
  pose proof (DayWithinYear_range t) as Hd.
  pose proof (InLeapYear_range t) as Hl.
  unfold JsDate.MonthFromTime. cbv zeta.
  repeat match goal with
         | |- context [if ?a <? ?b then _ else _] =>
             destruct (Z.ltb_spec a b)
         end;
    change (0 + 1) with 1; change (1 + 1) with 2; change (2 + 1) with 3;
    change (3 + 1) with 4; change (4 + 1) with 5; change (5 + 1) with 6;
    change (6 + 1) with 7; change (7 + 1) with 8; change (8 + 1) with 9;
    change (9 + 1) with 10; change (10 + 1) with 11; change (11 + 1) with 12;
    cbn [JsDate.monthStart]; lia.
Qed.

Lemma monthStart_nonneg (leap m : Z) :
  0 <= leap -> 0 <= m <= 11 -> 0 <= JsDate.monthStart leap m.
Proof.
  intros Hl Hm.
  assert (Hcases : m = 0 \/ m = 1 \/ m = 2 \/ m = 3 \/ m = 4 \/ m = 5
                   \/ m = 6 \/ m = 7 \/ m = 8 \/ m = 9 \/ m = 10 \/ m = 11)
    by lia.
  repeat (destruct Hcases as [->|Hcases]); [..|rewrite Hcases];
    cbn [JsDate.monthStart]; lia.
Qed.

Lemma DaysInYear_leap (t : Z) :
  JsDate.DaysInYear (JsDate.YearFromTime t) = 365 + JsDate.InLeapYear t.
Proof.
  unfold JsDate.InLeapYear.
  pose proof (DaysInYear_range (JsDate.YearFromTime t)).
  destruct (Z.eqb_spec (JsDate.DaysInYear (JsDate.YearFromTime t)) 365); lia.
Qed.

Lemma DateFromTime_range (t : Z) : 1 <= JsDate.DateFromTime t <= 31.
Proof.
  unfold JsDate.DateFromTime. pose proof (MonthFromTime_spec t). lia.
Qed.

(** Year, month and day of the month determine the day. *)
Lemma MakeDay_of_time (t k : Z) :
  JsDate.MakeDay (JsDate.YearFromTime t) (JsDate.MonthFromTime t)
    (JsDate.DateFromTime t + k)
  = JsDate.Day t + k.
Proof.
  pose proof (MonthFromTime_spec t) as (Hm & _).
  unfold JsDate.MakeDay. cbv zeta.
  rewrite (Z.div_small (JsDate.MonthFromTime t) 12) by lia.
  rewrite (Z.mod_small (JsDate.MonthFromTime t) 12) by lia.
  rewrite Z.add_0_r.
  fold (JsDate.InLeapYear t).
  unfold JsDate.DateFromTime, JsDate.DayWithinYear. lia.
Qed.

Lemma MakeDay_first (t : Z) :
  JsDate.MakeDay (JsDate.YearFromTime t) (JsDate.MonthFromTime t) 1
  = JsDate.Day t - (JsDate.DateFromTime t - 1).
Proof.
  pose proof (MakeDay_of_time t (1 - JsDate.DateFromTime t)) as H.
  replace (JsDate.DateFromTime t + (1 - JsDate.DateFromTime t)) with 1 in H
    by lia.
  lia.
Qed.

Lemma Day_of_days (d : Z) : JsDate.Day (d * JsDate.msPerDay) = d.
Proof. unfold JsDate.Day, JsDate.msPerDay. now rewrite Z.div_mul. Qed.

Lemma TimeWithinDay_of_days (d : Z) :
  JsDate.TimeWithinDay (d * JsDate.msPerDay) = 0.
Proof. unfold JsDate.TimeWithinDay, JsDate.msPerDay. now rewrite Z.mod_mul. Qed.

Lemma day_split (t : Z) :
  t = JsDate.Day t * JsDate.msPerDay + JsDate.TimeWithinDay t
  /\ 0 <= JsDate.TimeWithinDay t < JsDate.msPerDay.
Proof.
  unfold JsDate.Day, JsDate.TimeWithinDay, JsDate.msPerDay.
  Z.div_mod_to_equations. lia.
Qed.

(** The first day of the month of [t]. *)
Lemma first_of_month (t : Z) :
  let d := JsDate.Day t - (JsDate.DateFromTime t - 1) in
  JsDate.YearFromTime (d * JsDate.msPerDay) = JsDate.YearFromTime t
  /\ JsDate.MonthFromTime (d * JsDate.msPerDay) = JsDate.MonthFromTime t
  /\ JsDate.DateFromTime (d * JsDate.msPerDay) = 1.
Proof.
  intros d.
  pose proof (MonthFromTime_spec t) as (Hm & Hin & Hlen).
  pose proof (DayWithinYear_range t) as Hd.
  pose proof (InLeapYear_range t) as Hl.
  pose proof (YearFromTime_spec t) as Hs.
  assert (Hday : d = JsDate.DayFromYear (JsDate.YearFromTime t)
                     + JsDate.monthStart (JsDate.InLeapYear t)
                         (JsDate.MonthFromTime t)).
  { unfold d, JsDate.DateFromTime, JsDate.DayWithinYear. lia. }
  assert (Hyear : JsDate.YearFromTime (d * JsDate.msPerDay)
                  = JsDate.YearFromTime t).
  { apply YearFromTime_unique. rewrite Day_of_days, DayFromYear_step.
    rewrite DaysInYear_leap.
    pose proof (monthStart_nonneg (JsDate.InLeapYear t)
                  (JsDate.MonthFromTime t)).
    lia. }
  assert (Hleap : JsDate.InLeapYear (d * JsDate.msPerDay) = JsDate.InLeapYear t)
    by (unfold JsDate.InLeapYear; now rewrite Hyear).
  assert (Hwithin : JsDate.DayWithinYear (d * JsDate.msPerDay)
                    = JsDate.monthStart (JsDate.InLeapYear t)
                        (JsDate.MonthFromTime t)).
  { unfold JsDate.DayWithinYear. rewrite Day_of_days, Hyear. lia. }
  assert (Hmonth : JsDate.MonthFromTime (d * JsDate.msPerDay)
                   = JsDate.MonthFromTime t).
  { unfold JsDate.MonthFromTime at 1. cbv zeta. rewrite Hwithin, Hleap.
    assert (Hcases : JsDate.MonthFromTime t = 0 \/ JsDate.MonthFromTime t = 1
                     \/ JsDate.MonthFromTime t = 2 \/ JsDate.MonthFromTime t = 3
                     \/ JsDate.MonthFromTime t = 4 \/ JsDate.MonthFromTime t = 5
                     \/ JsDate.MonthFromTime t = 6 \/ JsDate.MonthFromTime t = 7
                     \/ JsDate.MonthFromTime t = 8 \/ JsDate.MonthFromTime t = 9
                     \/ JsDate.MonthFromTime t = 10
                     \/ JsDate.MonthFromTime t = 11) by lia.
    repeat (destruct Hcases as [->|Hcases]);
      [..|rewrite Hcases];
      cbn [JsDate.monthStart];
      repeat match goal with
             | |- context [if ?a <? ?b then _ else _] =>
                 destruct (Z.ltb_spec a b); try lia
             end. }
  split; [exact Hyear|]. split; [exact Hmonth|].
  unfold JsDate.DateFromTime. rewrite Hwithin, Hleap, Hmonth. lia.
Qed.

End Calendar.

(* ===================================================================== *)
(** ** The windows of the pages *)
(* ===================================================================== *)

Section FixedOffset.

Local Open Scope Z_scope.

Variable LocalTZA : Z -> bool -> Z.
Variable tz : Z.
Hypothesis fixed_offset : forall t b, LocalTZA t b = tz.

Lemma LocalTime_fixed (t : Z) : JsDate.LocalTime LocalTZA t = t + tz.
Proof. unfold JsDate.LocalTime. now rewrite fixed_offset. Qed.

Lemma UTC_fixed (t : Z) : JsDate.UTC LocalTZA t = t - tz.
Proof. unfold JsDate.UTC. now rewrite fixed_offset. Qed.

Lemma setHours_fixed (d : Date) (hour min sec ms : Z) :
  JsDate.setHours LocalTZA d hour min sec ms
  = midnight tz d + JsDate.MakeTime hour min sec ms.
Proof.
  unfold JsDate.setHours, midnight, JsDate.MakeDate. cbv zeta.
  rewrite UTC_fixed, LocalTime_fixed. lia.
Qed.

Lemma midnight_local (d : Date) :
  JsDate.LocalTime LocalTZA (midnight tz d)
  = JsDate.Day (d + tz) * JsDate.msPerDay.
Proof. rewrite LocalTime_fixed. unfold midnight. lia. Qed.

Lemma midnight_bounds (d : Date) :
  midnight tz d <= d < midnight tz d + JsDate.msPerDay.
Proof. unfold midnight. pose proof (day_split (d + tz)). lia. Qed.

Lemma setDate_fixed (d : Date) (k : Z) :
  JsDate.setDate LocalTZA d (JsDate.getDate LocalTZA d + k)
  = d + k * JsDate.msPerDay.
Proof.
  unfold JsDate.setDate, JsDate.getDate, JsDate.MakeDate. cbv zeta.
  rewrite UTC_fixed, LocalTime_fixed, MakeDay_of_time.
  pose proof (day_split (d + tz)). lia.
Qed.

Lemma getDateRange_fixed (now : nat -> Date) (preset : TimePeriod.t) :
  0 <= now 0%nat + tz ->
  getDateRange LocalTZA now preset
  = (midnight tz (now 0%nat)
     - days_back LocalTZA now preset * JsDate.msPerDay,
     midnight tz (now 1%nat) + JsDate.msPerDay - 1).
Proof.
  intros Hpos. unfold getDateRange. cbv zeta. rewrite !setHours_fixed.
  change (JsDate.MakeTime 0 0 0 0) with 0.
  change (JsDate.MakeTime 23 59 59 999) with (JsDate.msPerDay - 1).
  rewrite Z.add_0_r. f_equal; [|lia].
  destruct preset; cbn [days_back].
  - lia.
  - replace (JsDate.getDate LocalTZA (midnight tz (now 0%nat)) - 6)
      with (JsDate.getDate LocalTZA (midnight tz (now 0%nat)) + - 6) by lia.
    rewrite setDate_fixed. lia.
  - unfold JsDate.newDate, JsDate.getFullYear, JsDate.getMonth. cbv zeta.
    rewrite midnight_local, UTC_fixed, LocalTime_fixed.
    change (JsDate.MakeTime 0 0 0 0) with 0.
    set (t := now 0%nat + tz) in *.
    assert (Hy : JsDate.YearFromTime (JsDate.Day t * JsDate.msPerDay)
                 = JsDate.YearFromTime t).
    { apply YearFromTime_unique. rewrite Day_of_days. apply YearFromTime_spec. }
    assert (Hw : JsDate.DayWithinYear (JsDate.Day t * JsDate.msPerDay)
                 = JsDate.DayWithinYear t).
    { unfold JsDate.DayWithinYear. now rewrite Day_of_days, Hy. }
    assert (Hl : JsDate.InLeapYear (JsDate.Day t * JsDate.msPerDay)
                 = JsDate.InLeapYear t)
      by (unfold JsDate.InLeapYear; now rewrite Hy).
    assert (Hm : JsDate.MonthFromTime (JsDate.Day t * JsDate.msPerDay)
                 = JsDate.MonthFromTime t)
      by (unfold JsDate.MonthFromTime; now rewrite Hw, Hl).
    rewrite Hy, Hm.
    assert (Hyear : 1970 <= JsDate.YearFromTime t).
    { pose proof (YearFromTime_spec t) as Hs.
      destruct (Z.le_gt_cases 1970 (JsDate.YearFromTime t)) as [H|H];
        [exact H|].
      assert (Hday : 0 <= JsDate.Day t)
        by (unfold JsDate.Day, JsDate.msPerDay; Z.div_mod_to_equations; lia).
      assert (JsDate.YearFromTime t + 1 <= 1970) by lia.
      destruct (Z.eq_dec (JsDate.YearFromTime t + 1) 1970) as [E|E].
      - rewrite E in Hs. change (JsDate.DayFromYear 1970) with 0 in Hs. lia.
      - pose proof (DayFromYear_mono (JsDate.YearFromTime t + 1) 1970).
        change (JsDate.DayFromYear 1970) with 0 in *. lia. }
    destruct (Z.leb_spec 0 (JsDate.YearFromTime t)) as [_|H0]; [|lia].
    destruct (Z.leb_spec (JsDate.YearFromTime t) 99) as [H99|_]; [lia|].
    cbn [andb].
    rewrite MakeDay_first. unfold JsDate.MakeDate, midnight. fold t. lia.
  - replace (JsDate.getDate LocalTZA (midnight tz (now 0%nat)) - 29)
      with (JsDate.getDate LocalTZA (midnight tz (now 0%nat)) + - 29) by lia.
    rewrite setDate_fixed. lia.
Qed.

End FixedOffset.

(** X26: the windows of the pages, on a host whose zone is at a fixed
    offset from UTC (as UTC is), for a call made in 1970 local time or
    later.  [getDateRange] returns a window that starts at a local
    midnight and ends one millisecond before one: it starts 0, 6 or 29
    whole days before the midnight of today for "today", "last7" and
    "last30", and for "thisMonth" on the first day of the current month of
    the current year; it ends with the last millisecond of the day of the
    second clock reading.  The window holds the moment of the call, and
    when both readings fall on one day it spans 1, 7 or 30 whole days, or
    the days of the month so far. *)
Theorem getDateRange_windows :
  forall (LocalTZA : Z -> bool -> Z) (tz : Z) (now : nat -> Date)
         (preset : TimePeriod.t),
    (forall t b, LocalTZA t b = tz) ->
    (0 <= now 0%nat + tz)%Z ->
    let startDate := fst (getDateRange LocalTZA now preset) in
    let endDate := snd (getDateRange LocalTZA now preset) in
    let back := days_back LocalTZA now preset in
    (startDate = midnight tz (now 0%nat) - back * 86400000)%Z
    /\ (endDate = midnight tz (now 1%nat) + 86399999)%Z
    /\ (midnight tz (now 0%nat) <= now 0%nat < midnight tz (now 0%nat) + 86400000)%Z
    /\ (0 <= back <= 30)%Z
    /\ (startDate <= now 0%nat)%Z
    /\ (now 1%nat <= endDate)%Z
    /\ (midnight tz (now 0%nat) = midnight tz (now 1%nat) ->
        (endDate - startDate + 1 = (back + 1) * 86400000)%Z)
    /\ (preset = TimePeriod.thisMonth ->
        JsDate.getDate LocalTZA startDate = 1%Z
        /\ JsDate.getMonth LocalTZA startDate = JsDate.getMonth LocalTZA (now 0%nat)
        /\ JsDate.getFullYear LocalTZA startDate
           = JsDate.getFullYear LocalTZA (now 0%nat)).
Proof.
  intros LocalTZA tz now preset Hfixed Hpos startDate endDate back.
  subst startDate endDate.
  rewrite (getDateRange_fixed LocalTZA tz Hfixed now preset Hpos).
  cbn [fst snd]. fold back.
  pose proof (midnight_bounds tz (now 0%nat)) as H0.
  pose proof (midnight_bounds tz (now 1%nat)) as H1.
  unfold JsDate.msPerDay in *.
  assert (Hback : (0 <= back <= 30)%Z).
  { unfold back. destruct preset; cbn [days_back]; try lia.
    pose proof (DateFromTime_range (JsDate.LocalTime LocalTZA (now 0%nat))). lia. }
  split; [reflexivity|]. split; [lia|]. split; [exact H0|].
  split; [exact Hback|]. split; [lia|]. split; [lia|]. split; [lia|].
  intros ->. unfold back. cbn [days_back].
  unfold JsDate.getDate, JsDate.getMonth, JsDate.getFullYear.
  rewrite !(LocalTime_fixed LocalTZA tz Hfixed).
  set (t := (now 0%nat + tz)%Z).
  replace (midnight tz (now 0%nat)
           - (JsDate.DateFromTime t - 1) * 86400000 + tz)%Z
    with ((JsDate.Day t - (JsDate.DateFromTime t - 1)) * JsDate.msPerDay)%Z
    by (unfold midnight, JsDate.msPerDay; fold t; lia).
  destruct (first_of_month t) as (Hy & Hm & Hd). auto.
Qed.

Lemma getDateRange_windows_witness :
  getDateRange utc (fun _ => 1770294896789%Z) TimePeriod.last7
  = (1769731200000, 1770335999999)%Z
  /\ (fst (getDateRange utc (fun _ => 1770294896789%Z) TimePeriod.last7)
      <= 1770294896789)%Z.
Proof.
  pose proof (getDateRange_windows utc 0%Z (fun _ => 1770294896789%Z)
                TimePeriod.last7) as H.
  cbv zeta in H. destruct H as (_ & _ & _ & _ & Hstart & _);
    [reflexivity | lia |].
  split; [vm_compute; reflexivity | exact Hstart].
Defined.

(** X27: "Load Demo Data" shows in the default view.  On such a host, when
    the window "last30" is computed after the demo expenses were created
    and within a day of that, a listing of the caller over that window
    without a category filter, as [handleLoadDemo] fetches it, counts all
    the demo expenses: its [total] is the one before plus their number. *)
Theorem demo_shows_in_last_thirty_days :
  forall (LocalTZA : Z -> bool -> Z) (tz : Z) (now clock : nat -> Date)
         (user : User) (scale : nat) newDecimal (w : World)
         (categoryId : option string) (sortBy : SortBy) (pageSize : Z),
    (forall t b, LocalTZA t b = tz) ->
    (0 <= now 0%nat + tz)%Z ->
    6 <= List.length (categories w) ->
    (forall i, i < demo_count (List.length (categories w)) ->
       (now 0%nat - 86400000 <= clock i <= now 1%nat)%Z) ->
    category_filter categoryId = None ->
    (1 <= pageSize)%Z ->
    let range := getDateRange LocalTZA now TimePeriod.last30 in
    let w1 := snd (createDemoExpenses (Some user) newDecimal clock w) in
    exists r0 r1,
      fst (getExpenses (Some user) scale (fst range) (snd range) categoryId
             (Some sortBy) (Some 1%Z) (Some pageSize) w) = Ok r0
      /\ fst (getExpenses (Some user) scale (fst range) (snd range) categoryId
                (Some sortBy) (Some 1%Z) (Some pageSize) w1) = Ok r1
      /\ Pagination.total (ExpensesPage.pagination r1)
         = (Pagination.total (ExpensesPage.pagination r0)
            + Z.of_nat (demo_count (List.length (categories w))))%Z.
Proof.
  intros LocalTZA tz now clock user scale newDecimal w c sortBy pageSize
         Hfixed Hpos Hlen Hclock Hc Hs range w1.
  subst range w1.
  rewrite (getDateRange_fixed LocalTZA tz Hfixed now TimePeriod.last30 Hpos).
  cbn [fst snd days_back].
  apply listing_total_after_demo; try assumption; try lia.
  intros i Hi. specialize (Hclock i Hi).
  pose proof (midnight_bounds tz (now 0%nat)) as H0.
  pose proof (midnight_bounds tz (now 1%nat)) as H1.
  unfold JsDate.msPerDay in *. lia.
Qed.

Lemma demo_shows_in_last_thirty_days_witness :
  exists r0 r1,
    fst (getExpenses (Some Sample.alice) Sample.scale
           (fst (getDateRange utc (fun _ => Sample.feb5) TimePeriod.last30))
           (snd (getDateRange utc (fun _ => Sample.feb5) TimePeriod.last30))
           (Some "all") (Some date_desc) (Some 1%Z) (Some 10%Z) Sample.world)
    = Ok r0
    /\ fst (getExpenses (Some Sample.alice) Sample.scale
              (fst (getDateRange utc (fun _ => Sample.feb5) TimePeriod.last30))
              (snd (getDateRange utc (fun _ => Sample.feb5) TimePeriod.last30))
              (Some "all") (Some date_desc) (Some 1%Z) (Some 10%Z)
              (snd (createDemoExpenses (Some Sample.alice) Sample.newDecimal
                      (fun _ => Sample.feb5) Sample.world))) = Ok r1
    /\ Pagination.total (ExpensesPage.pagination r1)
       = (Pagination.total (ExpensesPage.pagination r0) + 29)%Z.
Proof.
  apply (demo_shows_in_last_thirty_days utc 0%Z (fun _ => Sample.feb5)
           (fun _ => Sample.feb5) Sample.alice Sample.scale Sample.newDecimal
           Sample.world (Some "all") date_desc 10%Z).
  - reflexivity.
  - unfold Sample.feb5. lia.
  - cbn. lia.
  - intros i _. unfold Sample.feb5. lia.
  - reflexivity.
  - lia.
Defined.
